(** * k-seq: least-squares estimation (k_seq/estimate/least_squares.py)

    A shallow embedding of [SingleFitter] and [FitResults].  Python objects
    that are shared and mutated (lists, numpy arrays, pandas series) live in
    an explicit heap; the random generator, the log, the file system and the
    record of solver calls are threaded through a state-and-exception monad.
    The numerical solver (scipy), the pandas JSON codec and the classes of
    sibling modules ([Bootstrap], [Replicates], [ConvergenceTester]) are
    fields of the class [Externals]: every theorem holds for all of their
    behaviours. *)

From Stdlib Require Import Floats ZArith Uint63 Ascii.
From stdpp Require Import gmap strings list fin_maps pretty.

Set Warnings "-inexact-float".
Local Open Scope Z_scope.

(** ** Exceptions and outcomes *)

(** The Python exception classes the module can meet.  [JSONDecodeError] is
    a subclass of [ValueError] in Python. *)
Inductive exn :=
  | RuntimeError
  | ValueError
  | JSONDecodeError
  | TypeError
  | IndexError
  | KeyError (key : string)
  | AttributeError
  | OtherError (what : string).

Inductive outcome (A : Type) :=
  | Ok (a : A)
  | Raise (e : exn).
Arguments Ok {A} a.
Arguments Raise {A} e.

(** ** Values *)

Definition loc := positive.

Inductive pykind := KList | KNdarray | KSeries.

(** A one-dimensional float container: a Python list, a numpy array or a
    pandas series (whose [labels] are its index). *)
Record pyarr := mk_pyarr {
  kind : pykind;
  labels : list string;
  items : list float
}.

Global Instance pyarr_inhabited : Inhabited pyarr :=
  populate (mk_pyarr KNdarray [] []).

Definition len (o : pyarr) : nat := length (items o).

Record Series := mk_Series {
  s_index : list string;
  s_values : list float
}.

(** A table: column labels and labelled rows. *)
Record DataFrame := mk_DataFrame {
  df_columns : list string;
  df_rows : list (string * list float)
}.

Definition df_index (d : DataFrame) : list string := (df_rows d).*1.
Definition df_data (d : DataFrame) : list (list float) := (df_rows d).*2.

Definition shape (d : DataFrame) : nat * nat :=
  (length (df_rows d), length (df_columns d)).

(** A model is an opaque callable [f(x, *params)]; [func_args] are the names
    of its required positional arguments, the first being [x]. *)
Record model_fn := mk_model {
  func_args : list string;
  func_call : float → list float → outcome float
}.

Inductive bounds_t :=
  | BScalar (lo hi : float)
  | BVector (lo hi : list float).

Inductive bounds_arg :=
  | BUnspecified
  | BGiven (b : option bounds_t).

Definition metrics_t := list (string * (list float → outcome float)).

Definition kwdict := gmap string string.

(** ** Logging (yutility.logging) *)

Inductive log_level := DEBUG | INFO | WARNING | ERROR.

Inductive fragment :=
  | Lit (s : string)
  | Val (o : option pyarr).

Definition log_entry : Type := log_level * list fragment.

(** ** The world *)

Record rng_state := mk_rng {
  draw_float : nat → float;
  draw_index : nat → nat;
  pos : nat
}.

(** A file either does not parse as JSON or holds a document.  Documents are
    the two-level objects that [FitResults.to_json] writes: block name to
    (key to leaf), a leaf being [null] or a string. *)
Definition jdoc : Type := gmap string (gmap string (option string)).

Inductive file :=
  | Unparseable
  | Json (d : jdoc).

Record solver_call := mk_call {
  c_f : model_fn;
  c_xdata : pyarr;
  c_ydata : pyarr;
  c_sigma : option pyarr;
  c_bounds : bounds_t;
  c_p0 : list float;
  c_kwargs : kwdict
}.

Record world := mk_world {
  heap : gmap loc pyarr;
  rng : rng_state;
  verbosity : log_level;
  logs : list log_entry;
  solver_calls : list solver_call;
  fs : gmap string file
}.

Definition set_heap (h : gmap loc pyarr) (w : world) : world :=
  mk_world h (rng w) (verbosity w) (logs w) (solver_calls w) (fs w).
Definition set_rng (r : rng_state) (w : world) : world :=
  mk_world (heap w) r (verbosity w) (logs w) (solver_calls w) (fs w).
Definition set_verbosity (l : log_level) (w : world) : world :=
  mk_world (heap w) (rng w) l (logs w) (solver_calls w) (fs w).
Definition add_log (e : log_entry) (w : world) : world :=
  mk_world (heap w) (rng w) (verbosity w) (logs w ++ [e]) (solver_calls w) (fs w).
Definition add_call (c : solver_call) (w : world) : world :=
  mk_world (heap w) (rng w) (verbosity w) (logs w) (solver_calls w ++ [c]) (fs w).
Definition set_fs (f : gmap string file) (w : world) : world :=
  mk_world (heap w) (rng w) (verbosity w) (logs w) (solver_calls w) f.

(** ** The monad: state plus Python exceptions *)

Definition M (A : Type) : Type := world → outcome A * world.

Global Instance M_ret : MRet M := λ A a w, (Ok a, w).

Global Instance M_bind : MBind M := λ A B k m w,
  match m w with
  | (Ok a, w') => k a w'
  | (Raise e, w') => (Raise e, w')
  end.

Definition raise {A} (e : exn) : M A := λ w, (Raise e, w).

Definition lift {A} (o : outcome A) : M A := λ w, (o, w).

(** [try: m  except e: h e]; the handler runs in the state [m] left. *)
Definition try_except {A} (m : M A) (h : exn → M A) : M A :=
  λ w, match m w with
       | (Ok a, w') => (Ok a, w')
       | (Raise e, w') => h e w'
       end.

Definition modify (f : world → world) : M unit := fun w => (Ok tt, f w).

(** *** Heap *)

Definition deref (l : loc) : M pyarr := fun w => (Ok (heap w !!! l), w).

Definition alloc (o : pyarr) : M loc :=
  fun w => let l := fresh (dom (heap w)) in
           (Ok l, set_heap (<[l := o]> (heap w)) w).

(** [a[i] = v] on a live array; out of range raises [IndexError]. *)
Definition setitem (l : loc) (i : nat) (v : float) : M unit :=
  fun w => match heap w !! l with
           | Some o =>
               if decide (i < length (items o))%nat
               then (Ok tt, set_heap (<[l := mk_pyarr (kind o) (labels o) (<[i := v]> (items o))]> (heap w)) w)
               else (Raise IndexError, w)
           | None => (Raise (OtherError "dangling reference"), w)
           end.

(** *** Logging *)

Definition set_level (l : log_level) : M unit := modify (set_verbosity l).
Definition log_debug (msg : list fragment) : M unit := modify (add_log (DEBUG, msg)).
Definition log_warning (msg : list fragment) : M unit := modify (add_log (WARNING, msg)).

(** Modelled from the spec: [yutility.logging.error(msg, error_type)] is not
    part of the sources; it records the message and raises [error_type]
    ("fails with ShapeMismatchError", "fail fast and loudly"). *)
Definition logging_error {A} (msg : string) (error_type : exn) : M A :=
  modify (add_log (ERROR, [Lit msg]));; raise error_type.

(** *** Random numbers: [np.random.random()] and an index draw *)

Definition np_random_random : M float :=
  fun w => let r := rng w in
           (Ok (draw_float r (pos r)),
            set_rng (mk_rng (draw_float r) (draw_index r) (S (pos r))) w).

Definition np_random_index : M nat :=
  fun w => let r := rng w in
           (Ok (draw_index r (pos r)),
            set_rng (mk_rng (draw_float r) (draw_index r) (S (pos r))) w).

Fixpoint draws (n : nat) : M (list float) :=
  match n with
  | O => mret []
  | S n' => v ← np_random_random; vs ← draws n'; mret (v :: vs)
  end.

(** ** Helpers of [k_seq.utility.func_tools] *)

(** Modelled from the spec: [update_none(arg, default)] is not part of the
    sources; "arguments will be inferred from instance's attributes if not
    provided". *)
Definition update_none {A} (arg : option A) (default : A) : A :=
  match arg with Some a => a | None => default end.

(** Modelled from the spec: [get_func_params(model, required_only=True)] is
    not part of the sources; it lists the names of the callable's required
    arguments, so that [[1:]] are the declared parameter names. *)
Definition get_func_params (m : model_fn) : list string := func_args m.

(** ** numpy / pandas primitives used by the module *)

Definition np_array (o : pyarr) : pyarr := mk_pyarr KNdarray [] (items o).

Definition ne_zero (y : float) : bool := negb (PrimFloat.eqb y 0%float).

Fixpoint select {A} (mask : list bool) (l : list A) : list A :=
  match mask, l with
  | b :: mask', a :: l' => if b then a :: select mask' l' else select mask' l'
  | _, _ => []
  end.

(** A boolean key: a numpy array of booleans, or a pandas series of
    booleans with its index. *)
Inductive mask_t :=
  | MArray (bits : list bool)
  | MSeries (index : list string) (bits : list bool).

Definition mask_bits (key : mask_t) : list bool :=
  match key with
  | MArray bits => bits
  | MSeries _ bits => bits
  end.

(** [y != 0], element by element: on a pandas series the result is a
    boolean series on the index of [y], otherwise an array. *)
Definition ne_zero_mask (y : pyarr) : mask_t :=
  match kind y with
  | KSeries => MSeries (labels y) (ne_zero <$> items y)
  | _ => MArray (ne_zero <$> items y)
  end.

(** The value of a boolean series at a label. *)
Fixpoint at_label (index : list string) (bits : list bool) (l : string) : option bool :=
  match index, bits with
  | i :: index', b :: bits' => if decide (i = l) then Some b else at_label index' bits' l
  | _, _ => None
  end.

(** [key.reindex(target)]: the values of the key at the labels of
    [target], when it has them all. *)
Definition reindex (index : list string) (bits : list bool) (target : list string)
  : option (list bool) :=
  mapM (at_label index bits) target.

(** pandas [check_bool_indexer], for a series with index [idx]: a boolean
    array is taken as it is; a boolean series on the same index too; a
    boolean series on another index is re-indexed on [idx], which raises
    [ValueError] when the labels of the key are not unique and
    [IndexingError] when a label of [idx] is not among them. *)
Definition check_bool_indexer (idx : list string) (key : mask_t) : outcome (list bool) :=
  match key with
  | MArray bits => Ok bits
  | MSeries index bits =>
      if decide (index = idx) then Ok bits
      else if decide (NoDup index) then
        match reindex index bits idx with
        | Some bits' => Ok bits'
        | None => Raise (OtherError "IndexingError")
        end
      else Raise ValueError
  end.

(** The booleans [o[key]] selects by, position by position: numpy uses any
    boolean key by position, pandas aligns a boolean series by label
    first. *)
Definition selector (o : pyarr) (key : mask_t) : outcome (list bool) :=
  match kind o with
  | KSeries => check_bool_indexer (labels o) key
  | _ => Ok (mask_bits key)
  end.

(** [o[key]] with a boolean key: a fresh object; numpy and pandas raise
    [IndexError] when the number of booleans differs from the number of
    entries, a Python list cannot be indexed this way. *)
Definition bool_index (o : pyarr) (key : mask_t) : outcome pyarr :=
  match kind o with
  | KList => Raise TypeError
  | _ =>
      match selector o key with
      | Raise e => Raise e
      | Ok bits =>
          if decide (length bits = length (items o))
          then Ok (mk_pyarr (kind o) (select bits (labels o)) (select bits (items o)))
          else Raise IndexError
      end
  end.

Definition np_ones (n : nat) : pyarr := mk_pyarr KNdarray [] (replicate n 1%float).

Definition np_full_nan (n : nat) : list float := replicate n nan.
Definition np_full_nan2 (n m : nat) : list (list float) := replicate n (replicate m nan).

(** [pd.Series(data, index)] raises [ValueError] on a length mismatch. *)
Definition pd_Series (data : list float) (index : list string) : outcome Series :=
  if decide (length data = length index) then Ok (mk_Series index data)
  else Raise ValueError.

Definition pd_DataFrame (data : list (list float)) (index columns : list string)
  : outcome DataFrame :=
  if decide (length data = length index) then
    if forallb (fun r => bool_decide (length r = length columns)) data
    then Ok (mk_DataFrame columns (zip index data))
    else Raise ValueError
  else Raise ValueError.

(** [s1.append(s2)] *)
Definition series_append (a b : Series) : Series :=
  mk_Series (s_index a ++ s_index b) (s_values a ++ s_values b).

(** ** Objects of the estimator *)

Definition grouper_t := gmap string (list string).
Definition stats_t := list (string * (DataFrame → outcome float)).

(** The attributes of a [Bootstrap] object that [SingleFitter] touches. *)
Record Bootstrap := mk_Bootstrap {
  b_bs_method : string;
  b_bootstrap_num : Z;
  b_bs_record_num : Z;
  b_grouper : option grouper_t;
  b_bs_stats : option stats_t;
  b_record_full : bool
}.

Record bootstrap_kwargs := mk_bootstrap_kwargs {
  kb_bs_method : option string;
  kb_bootstrap_num : option Z;
  kb_bs_record_num : option Z;
  kb_grouper : option grouper_t;
  kb_bs_stats : option stats_t;
  kb_record_full : option bool
}.

Record ConvergenceTester := mk_ConvergenceTester {
  t_conv_reps : Z;
  t_conv_init_range : option (list (float * float));
  t_conv_stats : option stats_t
}.

Record convergence_kwargs := mk_convergence_kwargs {
  kc_conv_reps : option Z;
  kc_conv_init_range : option (list (float * float));
  kc_conv_stats : option stats_t
}.

Record Replicates := mk_Replicates {
  r_replicates : list (list string)
}.

(** [FitResults]: four attribute scopes.  The back reference [estimator] is
    left out (it is only read for the name of [to_series]); array data are
    heap references, tables are values. *)
Record FitResults := mk_FitResults {
  fr_model : option model_fn;
  data_x_data : option loc;
  data_y_data : option loc;
  data_sigma : option loc;
  data_x_label : option string;
  data_y_label : option string;
  pe_params : option Series;
  pe_pcov : option DataFrame;
  unc_summary : option Series;
  unc_bs_records : option DataFrame;
  unc_rep_results : option DataFrame;
  conv_summary : option Series;
  conv_records : option DataFrame
}.

Record config_t := mk_config {
  x_label : option string;
  y_label : option string;
  opt_method : string;
  exclude_zero : bool;
  init_guess : option (list float);
  rnd_seed : option Z;
  curve_fit_kwargs : option kwdict;
  sigma : loc;
  bounds : option bounds_t;
  replicates : option (list (list string));
  bootstrap_num : Z;
  bs_record_num : option Z;
  bs_method : string;
  bs_stats : option stats_t;
  record_full : bool;
  grouper : option grouper_t;
  conv_reps : Z;
  conv_init_range : option (list (float * float));
  conv_stats : option stats_t;
  metrics : option metrics_t
}.

Record SingleFitter := mk_SingleFitter {
  model : model_fn;
  parameters : list string;
  name : option string;
  config : config_t;
  x_data : loc;
  y_data : loc;
  replicates_obj : option Replicates;
  bootstrap : option Bootstrap;
  converge_tester : option ConvergenceTester;
  results : FitResults;
  save_to : option string;
  overwrite : bool
}.

Definition with_results (r : FitResults) (s : SingleFitter) : SingleFitter :=
  mk_SingleFitter (model s) (parameters s) (name s) (config s) (x_data s) (y_data s)
    (replicates_obj s) (bootstrap s) (converge_tester s) r (save_to s) (overwrite s).

Definition with_bootstrap (b : option Bootstrap) (s : SingleFitter) : SingleFitter :=
  mk_SingleFitter (model s) (parameters s) (name s) (config s) (x_data s) (y_data s)
    (replicates_obj s) b (converge_tester s) (results s) (save_to s) (overwrite s).

Definition with_converge_tester (t : option ConvergenceTester) (s : SingleFitter)
  : SingleFitter :=
  mk_SingleFitter (model s) (parameters s) (name s) (config s) (x_data s) (y_data s)
    (replicates_obj s) (bootstrap s) t (results s) (save_to s) (overwrite s).

(** The arguments of [SingleFitter.__init__]. *)
Record init_args := mk_init_args {
  a_x_data : loc;
  a_y_data : loc;
  a_model : model_fn;
  a_name : option string;
  a_x_label : option string;
  a_y_label : option string;
  a_sigma : option loc;
  a_bounds : option bounds_t;
  a_init_guess : option (list float);
  a_opt_method : string;
  a_exclude_zero : bool;
  a_metrics : option metrics_t;
  a_rnd_seed : option Z;
  a_curve_fit_kwargs : option kwdict;
  a_replicates : option (list (list string));
  a_bootstrap_num : Z;
  a_bs_record_num : option Z;
  a_bs_method : string;
  a_bs_stats : option stats_t;
  a_grouper : option grouper_t;
  a_record_full : bool;
  a_conv_reps : Z;
  a_conv_init_range : option (list (float * float));
  a_conv_stats : option stats_t;
  a_save_to : option string;
  a_overwrite : bool;
  a_verbose : Z
}.

(** The keyword overrides of [_fit] / [point_estimate]. *)
Record fit_kwargs := mk_fit_kwargs {
  kw_model : option model_fn;
  kw_x_data : option loc;
  kw_y_data : option loc;
  kw_sigma : option loc;
  kw_bounds : bounds_arg;
  kw_metrics : option metrics_t;
  kw_init_guess : option (list float);
  kw_curve_fit_kwargs : option kwdict
}.

Definition no_kwargs : fit_kwargs :=
  mk_fit_kwargs None None None None BUnspecified None None None.

(** The dictionary [_fit] returns. *)
Record fit_output := mk_fit_output {
  o_params : Series;
  o_pcov : DataFrame;
  o_metrics : option Series
}.

(** Modelled from the spec: [AttrScope] of [k_seq.utility.func_tools] is not
    part of the sources; [AttrScope(keys=[...])] is a scope with every named
    attribute present and [None] ("created empty at estimator
    construction"). *)
Definition empty_results (m : option model_fn) : FitResults :=
  mk_FitResults m None None None None None None None None None None None None.

Definition infinite_bounds : bounds_t := BScalar neg_infinity infinity.

(** Attribute assignments on a [FitResults]. *)
Definition set_data (x y sg : option loc) (xl yl : option string) (r : FitResults)
  : FitResults :=
  mk_FitResults (fr_model r) x y sg xl yl (pe_params r) (pe_pcov r)
    (unc_summary r) (unc_bs_records r) (unc_rep_results r)
    (conv_summary r) (conv_records r).
Definition set_pe_params (v : option Series) (r : FitResults) : FitResults :=
  mk_FitResults (fr_model r) (data_x_data r) (data_y_data r) (data_sigma r)
    (data_x_label r) (data_y_label r) v (pe_pcov r)
    (unc_summary r) (unc_bs_records r) (unc_rep_results r)
    (conv_summary r) (conv_records r).
Definition set_pe_pcov (v : option DataFrame) (r : FitResults) : FitResults :=
  mk_FitResults (fr_model r) (data_x_data r) (data_y_data r) (data_sigma r)
    (data_x_label r) (data_y_label r) (pe_params r) v
    (unc_summary r) (unc_bs_records r) (unc_rep_results r)
    (conv_summary r) (conv_records r).
Definition set_unc_summary (v : option Series) (r : FitResults) : FitResults :=
  mk_FitResults (fr_model r) (data_x_data r) (data_y_data r) (data_sigma r)
    (data_x_label r) (data_y_label r) (pe_params r) (pe_pcov r)
    v (unc_bs_records r) (unc_rep_results r)
    (conv_summary r) (conv_records r).
Definition set_unc_bs_records (v : option DataFrame) (r : FitResults) : FitResults :=
  mk_FitResults (fr_model r) (data_x_data r) (data_y_data r) (data_sigma r)
    (data_x_label r) (data_y_label r) (pe_params r) (pe_pcov r)
    (unc_summary r) v (unc_rep_results r)
    (conv_summary r) (conv_records r).
Definition set_unc_rep_results (v : option DataFrame) (r : FitResults) : FitResults :=
  mk_FitResults (fr_model r) (data_x_data r) (data_y_data r) (data_sigma r)
    (data_x_label r) (data_y_label r) (pe_params r) (pe_pcov r)
    (unc_summary r) (unc_bs_records r) v
    (conv_summary r) (conv_records r).
Definition set_conv_summary (v : option Series) (r : FitResults) : FitResults :=
  mk_FitResults (fr_model r) (data_x_data r) (data_y_data r) (data_sigma r)
    (data_x_label r) (data_y_label r) (pe_params r) (pe_pcov r)
    (unc_summary r) (unc_bs_records r) (unc_rep_results r)
    v (conv_records r).
Definition set_conv_records (v : option DataFrame) (r : FitResults) : FitResults :=
  mk_FitResults (fr_model r) (data_x_data r) (data_y_data r) (data_sigma r)
    (data_x_label r) (data_y_label r) (pe_params r) (pe_pcov r)
    (unc_summary r) (unc_bs_records r) (unc_rep_results r)
    (conv_summary r) v.

(** The [data] dictionary [from_json] may be handed. *)
Record data_dict := mk_data_dict {
  dd_x_data : option loc;
  dd_y_data : option loc;
  dd_sigma : option loc;
  dd_x_label : option string;
  dd_y_label : option string
}.

(** [d[k]] on a dictionary. *)
Definition getitem {V} (d : gmap string V) (k : string) : outcome V :=
  match d !! k with
  | Some v => Ok v
  | None => Raise (KeyError k)
  end.

(** [k in d.keys()] *)
Definition has_key {V} (d : gmap string V) (k : string) : bool :=
  bool_decide (is_Some (d !! k)).

(** ** File helpers of [k_seq.utility.file_tools] *)

(** Modelled from the spec: [read_json(path)] is not part of the sources; it
    parses the file at [path] ("unreadable/corrupt saved result",
    "failure to parse is reported"): a missing file and a file that is not
    JSON raise. *)
Definition read_json (path : string) : M jdoc :=
  λ w, match fs w !! path with
       | Some (Json d) => (Ok d, w)
       | Some Unparseable => (Raise JSONDecodeError, w)
       | None => (Raise (OtherError "FileNotFoundError"), w)
       end.

(** Modelled from the spec: [dump_json(obj, path)] is not part of the
    sources; it persists the structured document at [path]. *)
Definition dump_json (d : jdoc) (path : string) : M unit :=
  modify (λ w, set_fs (<[path := Json d]> (fs w)) w).

(** [Path(p).exists()] *)
Definition path_exists (path : string) : M bool :=
  λ w, (Ok (bool_decide (is_Some (fs w !! path))), w).

(** Is a string truthy? *)
Definition nonempty (s : option string) : option string :=
  match s with
  | Some EmptyString => None
  | o => o
  end.

(** The keyword arguments of [fit].  [save_to], [overwrite] and [rnd_seed]
    are popped by [fit] ([None] means the key is absent and the attribute of
    the estimator is used); what is left is one dictionary, handed as it is
    to every stage.  Its keys are held by the function that names them:
    [fk_point] the eight keywords of [_fit], [fk_bs_record_num] and
    [fk_bootstrap] those of [run_bootstrap] and [Bootstrap],
    [fk_convergence] those of [ConvergenceTester]; an absent key is [None]
    ([BUnspecified] for [bounds]).  [point_estimate], [replicates],
    [bootstrap] and [convergence_test] are parameters of [fit] itself and
    cannot be among them. *)
Record fit_call_kwargs := mk_fit_call_kwargs {
  fk_save_to : option (option string);
  fk_overwrite : option bool;
  fk_rnd_seed : option (option Z);
  fk_point : fit_kwargs;
  fk_bs_record_num : option Z;
  fk_bootstrap : bootstrap_kwargs;
  fk_convergence : convergence_kwargs
}.

Definition no_bootstrap_kwargs : bootstrap_kwargs :=
  mk_bootstrap_kwargs None None None None None None.
Definition no_convergence_kwargs : convergence_kwargs :=
  mk_convergence_kwargs None None None.
Definition no_fit_call_kwargs : fit_call_kwargs :=
  mk_fit_call_kwargs None None None no_kwargs None no_bootstrap_kwargs
    no_convergence_kwargs.

(** Does the dictionary hold a keyword of [_fit], of the bootstrap, of the
    convergence test? *)
Definition present {A} (o : option A) : bool :=
  match o with
  | Some _ => true
  | None => false
  end.

Definition names_fit (k : fit_kwargs) : bool :=
  present (kw_model k) || present (kw_x_data k) || present (kw_y_data k) ||
  present (kw_sigma k) ||
  match kw_bounds k with BUnspecified => false | BGiven _ => true end ||
  present (kw_metrics k) || present (kw_init_guess k) ||
  present (kw_curve_fit_kwargs k).

Definition names_bootstrap (k : bootstrap_kwargs) : bool :=
  present (kb_bs_method k) || present (kb_bootstrap_num k) ||
  present (kb_bs_record_num k) || present (kb_grouper k) ||
  present (kb_bs_stats k) || present (kb_record_full k).

Definition names_convergence (k : convergence_kwargs) : bool :=
  present (kc_conv_reps k) || present (kc_conv_init_range k) ||
  present (kc_conv_stats k).

(** ** The module, over its external collaborators *)

(** What the module takes from outside: scipy, numpy's seeding, the pandas
    JSON codec, and the classes of the sibling modules [bootstrap],
    [replicates] and [convergence], which are not part of the sources. *)
Class Externals := {
  (** [scipy.optimize.curve_fit]: fitted parameters and covariance, or an
      exception ([RuntimeError] when the optimisation does not converge,
      [ValueError] on invalid values, anything the model callable raises). *)
  curve_fit : solver_call → outcome (list float * list (list float));
  (** [np.random.seed]: the generator state a seed that numpy accepts
      determines. *)
  np_random_seed : Z → rng_state;
  (** [obj.to_json()] and [pd.read_json(text)]. *)
  series_to_json : Series → outcome string;
  frame_to_json : DataFrame → outcome string;
  read_series : string → outcome Series;
  read_frame : string → outcome DataFrame;
  Bootstrap_new : bootstrap_kwargs → outcome Bootstrap;
  Bootstrap_run : Bootstrap → SingleFitter → M (Series * DataFrame);
  Replicates_new : list (list string) → outcome Replicates;
  Replicates_run : Replicates → SingleFitter → M (Series * DataFrame);
  ConvergenceTester_new : convergence_kwargs → outcome ConvergenceTester;
  ConvergenceTester_run : ConvergenceTester → SingleFitter → M (Series * DataFrame);
  (** [Bootstrap(estimator=self, **kwargs)] and
      [ConvergenceTester(estimator=self, **kwargs)] when [kwargs], coming from
      [fit], also holds keywords of other stages: what the absent
      constructors make of them. *)
  Bootstrap_new_with : fit_call_kwargs → outcome Bootstrap;
  ConvergenceTester_new_with : fit_call_kwargs → outcome ConvergenceTester
}.

Section least_squares.
Context {ext : Externals}.

(** *** [FitResults.__init__] *)

(** [obj.copy()]: a fresh object with the same content. *)
Definition copy (l : loc) : M loc := o ← deref l; alloc o.

Definition FitResults_init (estimator : option SingleFitter) (m : option model_fn)
  : M FitResults :=
  match estimator with
  | None => mret (empty_results m)
  | Some est =>
      x ← copy (x_data est);
      y ← copy (y_data est);
      s ← copy (sigma (config est));
      mret (mk_FitResults (Some (model est)) (Some x) (Some y) (Some s)
              (x_label (config est)) (y_label (config est))
              None None None None None None None)
  end.

(** *** [SingleFitter.__init__] *)

(** [if isinstance(v, list): v = np.array(v)] *)
Definition as_array (l : loc) : M loc :=
  o ← deref l;
  match kind o with
  | KList => alloc (np_array o)
  | _ => mret l
  end.

(** The three branches on [sigma]: ones, a list, anything else. *)
Definition store_sigma (sg : option loc) (mask : mask_t) (n : nat) : M loc :=
  match sg with
  | None => alloc (np_ones n)
  | Some sl =>
      sl' ← as_array sl;
      s1 ← deref sl';
      sm ← lift (bool_index s1 mask);
      alloc sm
  end.

(** [if replicates is not None: self.replicates = Replicates(...)] *)
Definition new_replicates (r : option (list (list string)))
  : outcome (option Replicates) :=
  match r with
  | Some r =>
      match Replicates_new r with
      | Ok r' => Ok (Some r')
      | Raise e => Raise e
      end
  | None => Ok None
  end.

(** [if bootstrap_num > 0 and len(self.x_data) > 1: ...]: the bootstrap
    object and the value of the local [bs_record_num] afterwards. *)
Definition new_bootstrap (a : init_args) (positive_num enough_points : bool)
  : outcome (option Bootstrap * option Z) :=
  if positive_num && enough_points then
    let n := update_none (a_bs_record_num a) 0 in
    match Bootstrap_new
            (mk_bootstrap_kwargs (Some (a_bs_method a)) (Some (a_bootstrap_num a))
               (Some n) (a_grouper a) (a_bs_stats a) (Some (a_record_full a))) with
    | Ok b => Ok (Some b, Some n)
    | Raise e => Raise e
    end
  else Ok (None, a_bs_record_num a).

(** [if conv_reps > 0: self.converge_tester = ConvergenceTester(...)] *)
Definition new_tester (a : init_args) (positive_reps : bool)
  : outcome (option ConvergenceTester) :=
  if positive_reps then
    match ConvergenceTester_new
            (mk_convergence_kwargs (Some (a_conv_reps a)) (a_conv_init_range a)
               (a_conv_stats a)) with
    | Ok t => Ok (Some t)
    | Raise e => Raise e
    end
  else Ok None.

Definition set_verbose (verbose : Z) : M unit :=
  if verbose =? 0 then set_level WARNING
  else if verbose =? 1 then set_level INFO
  else if verbose =? 2 then set_level DEBUG
  else logging_error "verbose should be 0, 1, or 2" ValueError.

Definition SingleFitter_init (a : init_args) : M SingleFitter :=
  set_verbose (a_verbose a);;
  x0 ← deref (a_x_data a);
  y0 ← deref (a_y_data a);
  (if decide (len x0 ≠ len y0)
   then logging_error "Shapes of x and y do not match" ValueError
   else mret tt);;
  let parameters := tail (get_func_params (a_model a)) in
  xl ← as_array (a_x_data a);
  yl ← as_array (a_y_data a);
  x1 ← deref xl;
  y1 ← deref yl;
  let mask :=
    if a_exclude_zero a then ne_zero_mask y1
    else MArray (replicate (len x1) true) in
  xm ← lift (bool_index x1 mask);
  self_x ← alloc xm;
  ym ← lift (bool_index y1 mask);
  self_y ← alloc ym;
  self_sigma ← store_sigma (a_sigma a) mask (len ym);
  let cfg_bounds :=
    match a_bounds a with
    | None => Some infinite_bounds
    | Some b => Some b
    end in
  reps ← lift (new_replicates (a_replicates a));
  '(bs, bs_record_num') ←
    lift (new_bootstrap a (0 <? a_bootstrap_num a) (bool_decide (1 < len xm)%nat));
  ct ← lift (new_tester a (0 <? a_conv_reps a));
  let cfg :=
    mk_config (a_x_label a) (a_y_label a) (a_opt_method a) (a_exclude_zero a)
      (a_init_guess a) (a_rnd_seed a)
      (Some (update_none (a_curve_fit_kwargs a) ∅))
      self_sigma cfg_bounds (a_replicates a)
      (a_bootstrap_num a) bs_record_num' (a_bs_method a) (a_bs_stats a)
      (a_record_full a) (a_grouper a)
      (a_conv_reps a) (a_conv_init_range a) (a_conv_stats a) (a_metrics a) in
  let self0 :=
    mk_SingleFitter (a_model a) parameters (a_name a) cfg self_x self_y
      reps bs ct (empty_results None) (a_save_to a) (a_overwrite a) in
  res ← FitResults_init (Some self0) None;
  log_debug [Lit "Single estimator initiated"];;
  mret (with_results res self0).

(** *** [SingleFitter._fit] and [point_estimate] *)

(** [not init_guess]: [None] and the empty list are falsy. *)
Definition falsy (g : option (list float)) : bool :=
  match g with
  | None | Some [] => true
  | Some (_ :: _) => false
  end.

Definition call_curve_fit (c : solver_call) : M (list float * list (list float)) :=
  modify (add_call c);; lift (curve_fit c).

(** [{name: fn(params) for name, fn in metrics.items()}] *)
Fixpoint eval_metrics (ms : metrics_t) (params : list float)
  : outcome (list (string * float)) :=
  match ms with
  | [] => Ok []
  | (n, fn) :: ms' =>
      match fn params with
      | Raise e => Raise e
      | Ok v =>
          match eval_metrics ms' params with
          | Raise e => Raise e
          | Ok r => Ok ((n, v) :: r)
          end
      end
  end.

(** [pd.Series(dict)] *)
Definition series_of_dict (d : list (string * float)) : Series :=
  mk_Series d.*1 d.*2.

Definition nan_metrics (metrics : option metrics_t) : option Series :=
  match metrics with
  | Some ms => Some (series_of_dict ((λ nf, (nf.1, nan)) <$> ms))
  | None => None
  end.

Definition raw_fit : Type := list float * list (list float) * option Series.

(** The body of the [try] block. *)
Definition fit_try (mdl : model_fn) (parameters : list string)
    (x y : pyarr) (sg : option pyarr) (bnds : bounds_t)
    (metrics : option metrics_t) (init_guess : option (list float))
    (kwargs : option kwdict) : M raw_fit :=
  p0 ← (if falsy init_guess then draws (length parameters)
        else mret (update_none init_guess []));
  let kwargs' := update_none kwargs ∅ in
  '(params, pcov) ← call_curve_fit (mk_call mdl x y sg bnds p0 kwargs');
  metrics_res ←
    match metrics with
    | Some ms => d ← lift (eval_metrics ms params); mret (Some (series_of_dict d))
    | None => mret None
    end;
  mret (params, pcov, metrics_res).

Definition handler_title (e : exn) : string :=
  match e with
  | RuntimeError => "RuntimeError on"
  | ValueError | JSONDecodeError => "ValueError on"
  | _ => "Other error observed on"
  end.

(** The three [except] clauses: they differ in the title of the warning
    only. *)
Definition fit_except (parameters : list string) (x y : pyarr) (sg : option pyarr)
    (metrics : option metrics_t) (e : exn) : M raw_fit :=
  log_warning [Lit (handler_title e); Lit "x="; Val (Some x);
               Lit "y="; Val (Some y); Lit "sigma="; Val sg];;
  mret (np_full_nan (length parameters),
        np_full_nan2 (length parameters) (length parameters),
        nan_metrics metrics).

Definition _fit (self : SingleFitter) (kw : fit_kwargs) : M fit_output :=
  let mdl := update_none (kw_model kw) (model self) in
  let parameters := tail (get_func_params mdl) in
  x ← deref (update_none (kw_x_data kw) (x_data self));
  y ← deref (update_none (kw_y_data kw) (y_data self));
  sg0 ← deref (update_none (kw_sigma kw) (sigma (config self)));
  sg ← (if decide (len x ≠ len sg0)
        then log_debug [Lit "Sigma is ignored as it has different length as x_data"];;
             mret None
        else mret (Some sg0));
  let bnds :=
    match kw_bounds kw with
    | BUnspecified => bounds (config self)
    | BGiven b => b
    end in
  let bnds := update_none bnds infinite_bounds in
  let mtr := update_none (Some <$> kw_metrics kw) (metrics (config self)) in
  let guess := update_none (Some <$> kw_init_guess kw) (init_guess (config self)) in
  let kwargs :=
    update_none (Some <$> kw_curve_fit_kwargs kw) (curve_fit_kwargs (config self)) in
  '(params, pcov, metrics_res) ←
    try_except (fit_try mdl parameters x y sg bnds mtr guess kwargs)
               (fit_except parameters x y sg mtr);
  ps ← lift (pd_Series params parameters);
  pc ← lift (pd_DataFrame pcov parameters parameters);
  mret (mk_fit_output ps pc metrics_res).

Definition point_estimate (self : SingleFitter) (kw : fit_kwargs) : M fit_output :=
  r ← _fit self kw;
  log_debug [Lit "Point estimation finished"];;
  mret r.

(** *** [SingleFitter.run_bootstrap] *)

(** [DataFrame.sample(n=n, replace=False, axis=0)]: [n] rows drawn one
    after the other from the rows not yet taken; pandas raises
    [ValueError] when the population is exhausted. *)
Fixpoint sample_without_replacement {A} (n : nat) (pool : list A) : M (list A) :=
  match n with
  | O => mret []
  | S n' =>
      i ← np_random_index;
      let k := (i mod length pool)%nat in
      match pool !! k with
      | Some r =>
          rest ← sample_without_replacement n' (delete k pool);
          mret (r :: rest)
      | None => raise ValueError
      end
  end.

Definition df_sample (n : nat) (d : DataFrame) : M DataFrame :=
  rows ← sample_without_replacement n (df_rows d);
  mret (mk_DataFrame (df_columns d) rows).

Definition update_bootstrap (kwargs : bootstrap_kwargs) (b : Bootstrap) : Bootstrap :=
  mk_Bootstrap
    (update_none (kb_bs_method kwargs) (b_bs_method b))
    (update_none (kb_bootstrap_num kwargs) (b_bootstrap_num b))
    (b_bs_record_num b)
    (match kb_grouper kwargs with Some g => Some g | None => b_grouper b end)
    (b_bs_stats b) (b_record_full b).

Definition run_bootstrap (self : SingleFitter) (record_num : option Z)
    (kwargs : bootstrap_kwargs) : M (SingleFitter * (Series * DataFrame)) :=
  let record_num :=
    match record_num with
    | None => bs_record_num (config self)
    | Some n => Some n
    end in
  b ← match bootstrap self with
      | None => lift (Bootstrap_new kwargs)
      | Some b => mret (update_bootstrap kwargs b)
      end;
  let self' := with_bootstrap (Some b) self in
  '(summary, res) ← Bootstrap_run b self';
  res' ←
    match record_num with
    | None => raise TypeError
    | Some n =>
        if (0 <=? n) && (n <=? Z.of_nat (shape res).1)
        then df_sample (Z.to_nat n) res
        else mret res
    end;
  log_debug [Lit "Bootstrap finished"];;
  mret (self', (summary, res')).

(** *** [run_replicates] and [convergence_test] *)

Definition run_replicates (self : SingleFitter) (reps : option (list (list string)))
  : M (Series * DataFrame) :=
  r ← match reps with
      | None =>
          match replicates_obj self with
          | Some r => mret r
          | None => raise AttributeError
          end
      | Some l => lift (Replicates_new l)
      end;
  res ← Replicates_run r self;
  log_debug [Lit "Uncertainty estimation from replicates"];;
  mret res.

Definition update_tester (kwargs : convergence_kwargs) (t : ConvergenceTester)
  : ConvergenceTester :=
  mk_ConvergenceTester
    (update_none (kc_conv_reps kwargs) (t_conv_reps t))
    (match kc_conv_init_range kwargs with
     | Some r => Some r | None => t_conv_init_range t end)
    (match kc_conv_stats kwargs with
     | Some r => Some r | None => t_conv_stats t end).

Definition convergence_test (self : SingleFitter) (kwargs : convergence_kwargs)
  : M (SingleFitter * (Series * DataFrame)) :=
  t ← match converge_tester self with
      | None => lift (ConvergenceTester_new kwargs)
      | Some t => mret (update_tester kwargs t)
      end;
  let self' := with_converge_tester (Some t) self in
  res ← ConvergenceTester_run t self';
  mret (self', res).

(** *** [FitResults.to_json] *)

(** [jsonfy]: [target.to_json()], and [None] on any exception; [None],
    strings, lists and numpy arrays have no [to_json]. *)
Definition jsonfy_series (t : option Series) : option string :=
  match t with
  | Some s => match series_to_json s with Ok j => Some j | Raise _ => None end
  | None => None
  end.

Definition jsonfy_frame (t : option DataFrame) : option string :=
  match t with
  | Some d => match frame_to_json d with Ok j => Some j | Raise _ => None end
  | None => None
  end.

Definition jsonfy_array (t : option loc) : M (option string) :=
  match t with
  | Some l =>
      o ← deref l;
      match kind o with
      | KSeries => mret (jsonfy_series (Some (mk_Series (labels o) (items o))))
      | _ => mret None
      end
  | None => mret None
  end.

Definition jsonfy_str (t : option string) : option string := None.

Definition data_to_dump (r : FitResults) : M jdoc :=
  jx ← jsonfy_array (data_x_data r);
  jy ← jsonfy_array (data_y_data r);
  js ← jsonfy_array (data_sigma r);
  mret ({[ "point_estimation" :=
             {[ "params" := jsonfy_series (pe_params r);
                "pcov" := jsonfy_frame (pe_pcov r) ]};
           "uncertainty" :=
             {[ "summary" := jsonfy_series (unc_summary r);
                "bs_records" := jsonfy_frame (unc_bs_records r);
                "rep_results" := jsonfy_frame (unc_rep_results r) ]};
           "convergence" :=
             {[ "summary" := jsonfy_series (conv_summary r);
                "records" := jsonfy_frame (conv_records r) ]};
           "data" :=
             {[ "x_data" := jx; "y_data" := jy; "sigma" := js;
                "x_label" := jsonfy_str (data_x_label r);
                "y_label" := jsonfy_str (data_y_label r) ]} ]} : jdoc).

(** With a path the document is written and nothing is returned; without
    one it is returned. *)
Definition to_json (r : FitResults) (path : option string) : M (option jdoc) :=
  d ← data_to_dump r;
  match path with
  | None => mret (Some d)
  | Some p => dump_json d p;; mret None
  end.

(** *** [FitResults.from_json] (the [tarfile=None] path) *)

(** [if block[key] is not None: slot = reader(block[key])] *)
Definition load_leaf {T} (block : gmap string (option string)) (key : string)
    (reader : string → outcome T) (store : option T → FitResults → FitResults)
    (result : FitResults) : M FitResults :=
  leaf ← lift (getitem block key);
  match leaf with
  | Some j => v ← lift (reader j); mret (store (Some v) result)
  | None => mret result
  end.

Definition uncertainty_label (block : gmap string (option string)) : M string :=
  if has_key block "record" then mret "record"
  else if has_key block "records" then mret "records"
  else if has_key block "bs_records" then mret "bs_records"
  else logging_error "Unknown json tag for bootstrap records" ValueError.

Definition convergence_label (block : gmap string (option string)) : string :=
  if has_key block "record" then "record" else "records".

Definition load_array (block : gmap string (option string)) (key : string)
    (old : option loc) : M (option loc) :=
  leaf ← lift (getitem block key);
  match leaf with
  | Some j =>
      s ← lift (read_series j);
      l ← alloc (mk_pyarr KSeries (s_index s) (s_values s));
      mret (Some l)
  | None => mret old
  end.

Definition load_label (block : gmap string (option string)) (key : string)
    (old : option string) : M (option string) :=
  leaf ← lift (getitem block key);
  match leaf with
  | Some j => mret (Some j)
  | None => mret old
  end.

Definition from_json (json_path : string) (estimator : option SingleFitter)
    (data : option data_dict) : M FitResults :=
  json_data ← read_json json_path;
  result ← FitResults_init estimator None;
  result ←
    match json_data !! "point_estimation" with
    | Some block =>
        result ← load_leaf block "params" read_series set_pe_params result;
        load_leaf block "pcov" read_frame set_pe_pcov result
    | None => mret result
    end;
  result ←
    match json_data !! "uncertainty" with
    | Some block =>
        result ← load_leaf block "summary" read_series set_unc_summary result;
        label ← uncertainty_label block;
        result ← load_leaf block label read_frame set_unc_bs_records result;
        if has_key block "rep_results"
        then load_leaf block "rep_results" read_frame set_unc_rep_results result
        else mret result
    | None => mret result
    end;
  result ←
    match json_data !! "convergence" with
    | Some block =>
        result ← load_leaf block "summary" read_series set_conv_summary result;
        load_leaf block (convergence_label block) read_frame set_conv_records result
    | None => mret result
    end;
  match json_data !! "data" with
  | Some block =>
      x ← load_array block "x_data" (data_x_data result);
      y ← load_array block "y_data" (data_y_data result);
      sg ← load_array block "sigma" (data_sigma result);
      xl ← load_label block "x_label" (data_x_label result);
      yl ← load_label block "y_label" (data_y_label result);
      mret (set_data x y sg xl yl result)
  | None =>
      match data with
      | Some d =>
          mret (set_data (dd_x_data d) (dd_y_data d) (dd_sigma d)
                  (dd_x_label d) (dd_y_label d) result)
      | None => mret result
      end
  end.

(** *** [SingleFitter.fit] *)

Definition truthy_seed (s : option Z) : option Z :=
  match s with
  | Some 0 => None
  | o => o
  end.

(** [np.random.seed(sd)]: numpy takes the seeds 0 to 2**32 - 1 and raises
    [ValueError] for any other integer. *)
Definition seed_call (sd : Z) : M unit :=
  if decide (0 ≤ sd < 2 ^ 32) then modify (set_rng (np_random_seed sd))
  else raise ValueError.

(** The calls of [point_estimate], [run_bootstrap], [run_replicates] and
    [convergence_test] in [fit], each with the whole dictionary as its
    keywords.  Python binds the keywords to the parameters of the callee: a
    keyword it does not name is a [TypeError] of the call, before its body
    runs, unless the callee takes further keywords. *)

(** [_fit] names its eight keywords and takes no others. *)
Definition fit_point_estimate (self : SingleFitter) (kwargs : fit_call_kwargs)
  : M fit_output :=
  if present (fk_bs_record_num kwargs) || names_bootstrap (fk_bootstrap kwargs) ||
     names_convergence (fk_convergence kwargs)
  then raise TypeError
  else point_estimate self (fk_point kwargs).

(** [run_bootstrap] names [bs_record_num] and takes any further keywords:
    an estimator that has a bootstrap object reads its three keys from
    them; one that has none hands them all to the constructor (in the model
    the object just built goes through the update of [run_bootstrap] with
    an empty dictionary, which leaves it as it is). *)
Definition fit_run_bootstrap (self : SingleFitter) (kwargs : fit_call_kwargs)
  : M (SingleFitter * (Series * DataFrame)) :=
  match bootstrap self with
  | None =>
      if names_fit (fk_point kwargs) || names_convergence (fk_convergence kwargs)
      then
        b ← lift (Bootstrap_new_with kwargs);
        run_bootstrap (with_bootstrap (Some b) self) (fk_bs_record_num kwargs)
          no_bootstrap_kwargs
      else run_bootstrap self (fk_bs_record_num kwargs) (fk_bootstrap kwargs)
  | Some _ => run_bootstrap self (fk_bs_record_num kwargs) (fk_bootstrap kwargs)
  end.

(** [run_replicates] names [replicates] only, which [fit] keeps for
    itself. *)
Definition fit_run_replicates (self : SingleFitter) (kwargs : fit_call_kwargs)
  : M (Series * DataFrame) :=
  if names_fit (fk_point kwargs) || present (fk_bs_record_num kwargs) ||
     names_bootstrap (fk_bootstrap kwargs) ||
     names_convergence (fk_convergence kwargs)
  then raise TypeError
  else run_replicates self None.

(** [convergence_test] takes any keywords, like [run_bootstrap]. *)
Definition fit_convergence_test (self : SingleFitter) (kwargs : fit_call_kwargs)
  : M (SingleFitter * (Series * DataFrame)) :=
  match converge_tester self with
  | None =>
      if names_fit (fk_point kwargs) || present (fk_bs_record_num kwargs) ||
         names_bootstrap (fk_bootstrap kwargs)
      then
        t ← lift (ConvergenceTester_new_with kwargs);
        convergence_test (with_converge_tester (Some t) self) no_convergence_kwargs
      else convergence_test self (fk_convergence kwargs)
  | Some _ => convergence_test self (fk_convergence kwargs)
  end.

(** Everything after the resume check.  The directory of [save_to] is not
    modelled ([check_dir]). *)
Definition perform_fitting (self : SingleFitter)
    (do_point do_replicates do_bootstrap do_convergence : bool)
    (kwargs : fit_call_kwargs) : M SingleFitter :=
  log_debug [Lit "Perform fitting..."];;
  match truthy_seed (update_none (fk_rnd_seed kwargs) (rnd_seed (config self))) with
  | Some sd => seed_call sd
  | None => mret tt
  end;;
  self ←
    (if do_point then
       res ← fit_point_estimate self kwargs;
       let params :=
         match o_metrics res with
         | Some m => series_append (o_params res) m
         | None => o_params res
         end in
       mret (with_results
               (set_pe_pcov (Some (o_pcov res))
                  (set_pe_params (Some params) (results self))) self)
     else mret self);
  x ← deref (x_data self);
  '(self, summary) ←
    (if do_bootstrap && bool_decide (2 ≤ len x)%nat then
       '(self', (bs_summary, bs_records)) ← fit_run_bootstrap self kwargs;
       mret (with_results (set_unc_bs_records (Some bs_records) (results self')) self',
             bs_summary)
     else mret (self, mk_Series [] []));
  '(self, summary) ←
    (if do_replicates then
       '(rep_summary, rep_results) ← fit_run_replicates self kwargs;
       mret (with_results (set_unc_rep_results (Some rep_results) (results self)) self,
             series_append summary rep_summary)
     else mret (self, summary));
  let self :=
    if bool_decide (0 < length (s_values summary))%nat
    then with_results (set_unc_summary (Some summary) (results self)) self
    else self in
  self ←
    (if do_convergence then
       '(self', (c_summary, c_records)) ← fit_convergence_test self kwargs;
       mret (with_results
               (set_conv_records (Some c_records)
                  (set_conv_summary (Some c_summary) (results self'))) self')
     else mret self);
  match nonempty (save_to self) with
  | Some p => to_json (results self) (Some p);; mret self
  | None => mret self
  end.

(** The [try] block of the resume check with its [except JSONDecodeError]:
    the estimator holding the loaded results, or [None] to go on. *)
Definition try_resume (self : SingleFitter) (p : string) : M (option SingleFitter) :=
  try_except
    (log_debug [Lit "Try to recover info from the saved file..."];;
     res ← from_json p (Some self) None;
     log_debug [Lit "Found, skip fitting..."];;
     mret (Some (with_results res self)))
    (λ e, match e with
          | JSONDecodeError =>
              log_debug [Lit "Can not parse JSON file, continue fitting..."];;
              mret None
          | _ => raise e
          end).

(** [fit]: the estimator after the call, and whether the fitting stages
    were entered ([false] when a saved result was loaded instead). *)
Definition fit (self : SingleFitter)
    (do_point do_replicates do_bootstrap do_convergence : bool)
    (kwargs : fit_call_kwargs) : M (SingleFitter * bool) :=
  let save_to' := update_none (fk_save_to kwargs) (save_to self) in
  let overwrite' := update_none (fk_overwrite kwargs) (overwrite self) in
  let go : M (SingleFitter * bool) :=
    self' ← perform_fitting self do_point do_replicates do_bootstrap do_convergence
              kwargs;
    mret (self', true) in
  match nonempty save_to' with
  | Some p =>
      ex ← (if overwrite' then mret false else path_exists p) : M bool;
      if ex : bool then
        r ← try_resume self p;
        match r with
        | Some self' => mret (self', false)
        | None => go
        end
      else go
  | None => go
  end.

(** *** [FitResults.to_series] and [SingleFitter.summary] *)

(** The flattened results: the stored parameters, the uncertainty summary
    and the convergence summary, each when present. *)
Definition to_series (r : FitResults) : Series :=
  let res := mk_Series [] [] in
  let res := match pe_params r with
             | Some p => series_append res p
             | None => res
             end in
  let res := match unc_summary r with
             | Some s => series_append res s
             | None => res
             end in
  match conv_summary r with
  | Some s => series_append res s
  | None => res
  end.

(** [summary]: the series, under the name of the estimator (the estimator
    of its results is the estimator itself). *)
Definition summary (self : SingleFitter) : option string * Series :=
  (name self, to_series (results self)).

End least_squares.

(** ** A concrete setting for the examples *)

Definition ex_model : model_fn := mk_model ["x"; "A"; "k"] (λ x p, Ok x).

Definition ex_rng : rng_state :=
  mk_rng (λ n, if Nat.even n then 0.25%float else 0.75%float) (λ n, n) 0.

Definition ex_params : Series := mk_Series ["A"; "k"] [0.5%float; 0.25%float].

Definition ex_records : DataFrame :=
  mk_DataFrame ["A"; "k"]
    [("0", [0.5%float; 0.25%float]); ("1", [0.5%float; 0.5%float]);
     ("2", [1%float; 0.25%float])].

(** A solver that returns its starting point with a zero covariance, a
    codec that knows the two example tables, and sibling classes that store
    their arguments and refuse keywords that are not theirs. *)
Definition ex_externals : Externals := {|
  curve_fit := λ c,
    Ok (c_p0 c, replicate (length (c_p0 c)) (replicate (length (c_p0 c)) 0%float));
  np_random_seed := λ _, ex_rng;
  series_to_json := λ s, Ok (String.concat "," (s_index s));
  frame_to_json := λ d, Ok (String.concat ";" (df_columns d));
  read_series := λ t, if String.eqb t "A,k" then Ok ex_params else Raise ValueError;
  read_frame := λ t, if String.eqb t "A;k" then Ok ex_records else Raise ValueError;
  Bootstrap_new := λ k,
    Ok (mk_Bootstrap (update_none (kb_bs_method k) "pct_res")
          (update_none (kb_bootstrap_num k) 0) (update_none (kb_bs_record_num k) 0)
          (kb_grouper k) (kb_bs_stats k) (update_none (kb_record_full k) false));
  Bootstrap_run := λ _ _, mret (mk_Series [] [], ex_records);
  Replicates_new := λ r, Ok (mk_Replicates r);
  Replicates_run := λ _ _, mret (mk_Series [] [], ex_records);
  ConvergenceTester_new := λ k,
    Ok (mk_ConvergenceTester (update_none (kc_conv_reps k) 0) (kc_conv_init_range k)
          (kc_conv_stats k));
  ConvergenceTester_run := λ _ _, mret (mk_Series [] [], ex_records);
  Bootstrap_new_with := λ _, Raise TypeError;
  ConvergenceTester_new_with := λ _, Raise TypeError
|}.

(** The same setting with a solver that never converges. *)
Definition ex_failing : Externals := {|
  curve_fit := λ _, Raise RuntimeError;
  np_random_seed := @np_random_seed ex_externals;
  series_to_json := @series_to_json ex_externals;
  frame_to_json := @frame_to_json ex_externals;
  read_series := @read_series ex_externals;
  read_frame := @read_frame ex_externals;
  Bootstrap_new := @Bootstrap_new ex_externals;
  Bootstrap_run := @Bootstrap_run ex_externals;
  Replicates_new := @Replicates_new ex_externals;
  Replicates_run := @Replicates_run ex_externals;
  ConvergenceTester_new := @ConvergenceTester_new ex_externals;
  ConvergenceTester_run := @ConvergenceTester_run ex_externals;
  Bootstrap_new_with := @Bootstrap_new_with ex_externals;
  ConvergenceTester_new_with := @ConvergenceTester_new_with ex_externals
|}.

(** *** The series codec of pandas with its defaults

    [Series.to_json()] writes an object of label and value pairs, a finite
    value with at most ten decimals ([double_precision=10]) and any other
    value as [null]; [pd.read_json(text, typ='series')] reads the float
    nearest to each number written. *)
















(** The scenario of the specification: x = [0, 1, 2, 3] and
    y = [0, 0.5, 0.8, 0.9], both Python lists of the caller, and a sigma of
    the wrong length. *)
Definition ex_x : pyarr := mk_pyarr KList [] [0%float; 1%float; 2%float; 3%float].
Definition ex_y : pyarr := mk_pyarr KList [] [0%float; 0.5%float; 0.8%float; 0.9%float].
Definition ex_short : pyarr := mk_pyarr KList [] [1%float; 2%float].
Definition ex_ones : pyarr := mk_pyarr KNdarray [] [1%float; 1%float; 1%float; 1%float].

Definition ex_world : world :=
  mk_world
    (<[1%positive := ex_x]> (<[2%positive := ex_y]> (<[3%positive := ex_short]>
       (<[4%positive := ex_ones]> ∅))))
    ex_rng INFO [] [] ∅.

(** The measurements as pandas series: y on the index a, b, c, d, a sigma
    on the index a, b only, and x on an index of its own. *)
Definition ex_y_series : pyarr :=
  mk_pyarr KSeries ["a"; "b"; "c"; "d"] [0%float; 0.5%float; 0.8%float; 0.9%float].
Definition ex_sigma_series : pyarr := mk_pyarr KSeries ["a"; "b"] [1%float; 2%float].
Definition ex_x_series : pyarr :=
  mk_pyarr KSeries ["p"; "q"; "r"; "s"] [0%float; 1%float; 2%float; 3%float].

Definition ex_world_series : world :=
  set_heap
    (<[5%positive := ex_y_series]> (<[6%positive := ex_sigma_series]>
       (<[7%positive := ex_x_series]> (heap ex_world))))
    ex_world.

Definition ex_metrics : metrics_t := [("kA", λ p, Ok (hd 0%float p))].

(** An estimator over the example data whose sigma is the object at [sg]. *)
Definition ex_self (sg : loc) : SingleFitter :=
  mk_SingleFitter ex_model ["A"; "k"] None
    (mk_config None None "trf" false None None (Some ∅) sg (Some infinite_bounds)
       None 0 (Some 0) "pct_res" None false None 0 None None (Some ex_metrics))
    1%positive 2%positive None None None (empty_results (Some ex_model)) None false.

(** The example estimator, saving to [fit.json]. *)
Definition ex_saving : SingleFitter :=
  mk_SingleFitter ex_model ["A"; "k"] None (config (ex_self 4%positive))
    1%positive 2%positive None None None (empty_results (Some ex_model))
    (Some "fit.json") false.

Definition ex_world_with (f : file) : world :=
  set_fs {[ "fit.json" := f ]} ex_world.

(** A saved result holding point-estimate parameters only, and a document
    that is JSON but not a saved result. *)
Definition ex_saved : file :=
  Json {[ "point_estimation" := {[ "params" := Some "A,k"; "pcov" := None ]} ]}.

Definition ex_corrupt : file :=
  Json {[ "point_estimation" := ∅ ]}.

(** Results holding parameters and a bootstrap record table. *)
Definition ex_results : FitResults :=
  set_unc_bs_records (Some ex_records)
    (set_pe_params (Some ex_params) (empty_results (Some ex_model))).

(** [SingleFitter(x, y, model, bootstrap_num=3)]: the defaults otherwise, in
    particular [bs_record_num=0]. *)
Definition ex_bootstrap_args : init_args :=
  mk_init_args 1%positive 2%positive ex_model None None None None None None "trf"
    false None None None None 3 (Some 0) "pct_res" None None false 0 None None None
    false 1.

Definition ex_bootstrap : Bootstrap := mk_Bootstrap "pct_res" 0 0 None None false.

(** The number of record rows a call of [run_bootstrap] returned. *)
Definition stored_rows (o : outcome (SingleFitter * (Series * DataFrame)))
  : option nat :=
  match o with
  | Ok (_, (_, records)) => Some (length (df_rows records))
  | Raise _ => None
  end.

(** [SingleFitter(x_data, y_data, model, exclude_zero=..., sigma=...)] with
    every other argument at its default. *)
Definition default_args (x y : loc) (m : model_fn) (ez : bool) (sg : option loc)
  : init_args :=
  mk_init_args x y m None None None sg None None "trf" ez None None None
    None 0 (Some 0) "pct_res" None None false 0 None None None false 1.


(** The lengths of the three arrays a construction stored. *)
Definition stored_lengths (r : outcome SingleFitter * world) : option (nat * nat * nat) :=
  match r with
  | (Ok self, w) =>
      Some (len (heap w !!! x_data self), len (heap w !!! y_data self),
            len (heap w !!! sigma (config self)))
  | (Raise _, _) => None
  end.

(** [SingleFitter(x, y, model, bs_record_num=None)]: no bootstrap, and no
    record number. *)
Definition ex_unset_args : init_args :=
  mk_init_args 1%positive 2%positive ex_model None None None None None None "trf"
    false None None None None 0 None "pct_res" None None false 0 None None None
    false 1.

(** The example estimator with a starting point of its own and no metric,
    saving to [fit.json]. *)
Definition ex_guessing : SingleFitter :=
  mk_SingleFitter ex_model ["A"; "k"] (Some "seq1")
    (mk_config None None "trf" false (Some [0.5%float; 0.25%float]) None (Some ∅)
       4%positive (Some infinite_bounds)
       None 0 (Some 0) "pct_res" None false None 0 None None None)
    1%positive 2%positive None None None (empty_results (Some ex_model))
    (Some "fit.json") false.

(** The first run of [ex_guessing], with no file to resume from. *)
Definition ex_first_run : outcome (SingleFitter * bool) * world :=
  @fit ex_externals ex_guessing true false false false no_fit_call_kwargs ex_world.

Definition ex_fitted : SingleFitter :=
  match ex_first_run.1 with
  | Ok (self, _) => self
  | Raise _ => ex_guessing
  end.

(** A world with a single measurement, and an estimator over it. *)
Definition ex_point : pyarr := mk_pyarr KNdarray [] [1%float].

Definition ex_world_single : world :=
  set_heap (<[5%positive := ex_point]> (heap ex_world)) ex_world.

Definition ex_lonely : SingleFitter :=
  mk_SingleFitter ex_model ["A"; "k"] None
    (config (ex_self 5%positive)) 5%positive 5%positive None None None
    (empty_results (Some ex_model)) None false.

(** Keyword arguments of [fit]: a seed, [overwrite=True], a path. *)
Definition ex_seed_kwargs (sd : Z) : fit_call_kwargs :=
  mk_fit_call_kwargs None None (Some (Some sd)) no_kwargs None no_bootstrap_kwargs
    no_convergence_kwargs.

Definition ex_overwrite_kwargs : fit_call_kwargs :=
  mk_fit_call_kwargs None (Some true) None no_kwargs None no_bootstrap_kwargs
    no_convergence_kwargs.

Definition ex_path_kwargs : fit_call_kwargs :=
  mk_fit_call_kwargs (Some (Some "other.json")) None None no_kwargs None
    no_bootstrap_kwargs no_convergence_kwargs.


(** Results that carry labels and the arrays of the caller. *)
Definition ex_labelled : FitResults :=
  set_data (Some 1%positive) (Some 2%positive) (Some 4%positive)
    (Some "concentration") (Some "fraction") ex_results.

Definition ex_data : data_dict :=
  mk_data_dict (Some 1%positive) (Some 2%positive) (Some 4%positive)
    (Some "concentration") None.

(** Saved results whose uncertainty block has no record table, and one that
    names it twice. *)
Definition ex_untagged : file :=
  Json {[ "uncertainty" := {[ "summary" := None ]} ]}.

(** A saved result that is a data block only. *)
Definition ex_bare_data : file :=
  Json {[ "data" := {[ "x_data" := None; "y_data" := None; "sigma" := None;
                       "x_label" := Some "time"; "y_label" := None ]} ]}.

Definition ex_twice_tagged : file :=
  Json {[ "uncertainty" :=
            {[ "summary" := None; "record" := Some "A;k"; "bs_records" := Some "old" ]} ]}.

(** ** Vocabulary of the statements *)

(** A step that only allocates (and logs): every object of [w] is unchanged
    in [w'], and the solver, the generator and the files are untouched. *)
Record heap_grows (w w' : world) : Prop := mk_heap_grows {
  grows_heap : heap w ⊆ heap w';
  grows_calls : solver_calls w' = solver_calls w;
  grows_rng : rng w' = rng w;
  grows_fs : fs w' = fs w
}.

Definition live (w : world) (l : loc) : Prop := is_Some (heap w !! l).

Definition valid_verbose (a : init_args) : Prop :=
  a_verbose a = 0 ∨ a_verbose a = 1 ∨ a_verbose a = 2.

(** [np.array(o)] for a list, [o] itself otherwise. *)
Definition as_ndarray (o : pyarr) : pyarr :=
  match kind o with
  | KList => np_array o
  | _ => o
  end.

(** The mask [__init__] computes from the caller's data. *)
Definition init_mask (a : init_args) (w : world) : mask_t :=
  if a_exclude_zero a then ne_zero_mask (heap w !!! a_y_data a)
  else MArray (replicate (len (heap w !!! a_x_data a)) true).

(** The entries of [o] that [o[key]] keeps (none where the indexing
    raises). *)
Definition kept (key : mask_t) (o : pyarr) : list float :=
  match bool_index (as_ndarray o) key with
  | Ok r => items r
  | Raise _ => []
  end.

(** The arrays [__init__] indexes by the mask. *)
Definition init_targets (a : init_args) : list loc :=
  a_x_data a :: a_y_data a :: option_list (a_sigma a).

(** The estimator [self] holds, in fresh objects, what the mask keeps of
    the caller's data (ones as sigma when none is given), and every object
    of the caller is as it was. *)
Definition stores_masked (a : init_args) (w : world) (self : SingleFitter) (w' : world)
  : Prop :=
  heap_grows w w' ∧
  ∃ ox oy os,
    heap w' !! x_data self = Some ox ∧ heap w !! x_data self = None ∧
    heap w' !! y_data self = Some oy ∧ heap w !! y_data self = None ∧
    heap w' !! sigma (config self) = Some os ∧ heap w !! sigma (config self) = None ∧
    bool_index (as_ndarray (heap w !!! a_x_data a)) (init_mask a w) = Ok ox ∧
    bool_index (as_ndarray (heap w !!! a_y_data a)) (init_mask a w) = Ok oy ∧
    match a_sigma a with
    | None => os = np_ones (len oy)
    | Some s => bool_index (as_ndarray (heap w !!! s)) (init_mask a w) = Ok os
    end.

(** The mask [y != 0] is applied by position: y is no pandas series, or the
    pandas series among x and sigma are on the index of y. *)
Definition by_position (a : init_args) (w : world) : Prop :=
  a_exclude_zero a = true → kind (heap w !!! a_y_data a) = KSeries →
  ∀ l, l ∈ a_x_data a :: option_list (a_sigma a) →
       kind (heap w !!! l) = KSeries →
       labels (heap w !!! l) = labels (heap w !!! a_y_data a).

(** *** What one attempt consists of *)

(** [n] consecutive values of the generator, from position [p]. *)
Fixpoint draws_from (f : nat → float) (p n : nat) : list float :=
  match n with
  | O => []
  | S n' => f p :: draws_from f (S p) n'
  end.

Definition advance (n : nat) (r : rng_state) : rng_state :=
  mk_rng (draw_float r) (draw_index r) (pos r + n).

(** The sigma that reaches the solver. *)
Definition effective_sigma (self : SingleFitter) (kw : fit_kwargs) (w : world)
  : pyarr :=
  heap w !!! update_none (kw_sigma kw) (sigma (config self)).

Definition effective_x (self : SingleFitter) (kw : fit_kwargs) (w : world) : pyarr :=
  heap w !!! update_none (kw_x_data kw) (x_data self).

Definition effective_y (self : SingleFitter) (kw : fit_kwargs) (w : world) : pyarr :=
  heap w !!! update_none (kw_y_data kw) (y_data self).

Definition effective_parameters (self : SingleFitter) (kw : fit_kwargs) : list string :=
  tail (get_func_params (update_none (kw_model kw) (model self))).

Definition effective_metrics (self : SingleFitter) (kw : fit_kwargs)
  : option metrics_t :=
  update_none (Some <$> kw_metrics kw) (metrics (config self)).

Definition effective_bounds (self : SingleFitter) (kw : fit_kwargs) : bounds_t :=
  update_none
    (match kw_bounds kw with
     | BUnspecified => bounds (config self)
     | BGiven b => b
     end) infinite_bounds.

Definition effective_guess (self : SingleFitter) (kw : fit_kwargs)
  : option (list float) :=
  update_none (Some <$> kw_init_guess kw) (init_guess (config self)).

Definition effective_kwargs (self : SingleFitter) (kw : fit_kwargs) : kwdict :=
  update_none
    (update_none (Some <$> kw_curve_fit_kwargs kw) (curve_fit_kwargs (config self))) ∅.

(** [None] when the lengths of x and sigma differ. *)
Definition sigma_for_solver (x sg : pyarr) : option pyarr :=
  if decide (len x ≠ len sg) then None else Some sg.

Definition sigma_note : log_entry :=
  (DEBUG, [Lit "Sigma is ignored as it has different length as x_data"]).

(** The warning of the [except] clauses. *)
Definition failure_warning (e : exn) (x y : pyarr) (sg : option pyarr) : log_entry :=
  (WARNING, [Lit (match e with
                  | RuntimeError => "RuntimeError on"
                  | ValueError | JSONDecodeError => "ValueError on"
                  | _ => "Other error observed on"
                  end);
             Lit "x="; Val (Some x); Lit "y="; Val (Some y); Lit "sigma="; Val sg]).

(** The all-NaN result: parameters, a square covariance and the metrics. *)
Definition nan_output (parameters : list string) (mtr : option metrics_t) : fit_output :=
  mk_fit_output
    (mk_Series parameters (replicate (length parameters) nan))
    (mk_DataFrame parameters
       (zip parameters (replicate (length parameters)
                          (replicate (length parameters) nan))))
    (match mtr with
     | Some ms => Some (mk_Series ms.*1 (replicate (length ms) nan))
     | None => None
     end).

(** The labelling of the raw solver output at the end of [_fit]. *)
Definition finalize (parameters : list string) (raw : list float * list (list float) * option Series)
  : outcome fit_output :=
  match pd_Series raw.1.1 parameters with
  | Raise e => Raise e
  | Ok ps =>
      match pd_DataFrame raw.1.2 parameters parameters with
      | Raise e => Raise e
      | Ok pc => Ok (mk_fit_output ps pc raw.2)
      end
  end.

(** The arrays an estimator holds, and the arrays a result holds. *)
Definition estimator_arrays (est : SingleFitter) : list loc :=
  [x_data est; y_data est; sigma (config est)].

Definition result_arrays (r : FitResults) : list loc :=
  omap id [data_x_data r; data_y_data r; data_sigma r].

Section vocabulary.
Context {ext : Externals}.

(** Why a construction can fail. *)
Definition init_failure (a : init_args) (w : world) : Prop :=
  ¬ valid_verbose a ∨
  len (heap w !!! a_x_data a) ≠ len (heap w !!! a_y_data a) ∨
  (∃ l e, l ∈ init_targets a ∧
          bool_index (as_ndarray (heap w !!! l)) (init_mask a w) = Raise e) ∨
  (∃ r e, Replicates_new r = Raise e) ∨
  (∃ k e, Bootstrap_new k = Raise e) ∨
  (∃ k e, ConvergenceTester_new k = Raise e).

(** The sibling constructors accept their arguments. *)
Definition siblings_total : Prop :=
  (∀ r, ∃ v, Replicates_new r = Ok v) ∧
  (∀ k, ∃ v, Bootstrap_new k = Ok v) ∧
  (∀ k, ∃ v, ConvergenceTester_new k = Ok v).

(** The solver call followed by the evaluation of the metrics: the part of
    the [try] block that can raise. *)
Definition attempt (c : solver_call) (mtr : option metrics_t) : outcome raw_fit :=
  match curve_fit c with
  | Raise e => Raise e
  | Ok (params, pcov) =>
      match mtr with
      | None => Ok (params, pcov, None)
      | Some ms =>
          match eval_metrics ms params with
          | Ok d => Ok (params, pcov, Some (series_of_dict d))
          | Raise e => Raise e
          end
      end
  end.

(** The starting point handed to the solver, read off the world in which
    [_fit] starts. *)
Definition start_point (self : SingleFitter) (kw : fit_kwargs) (w : world) : list float :=
  if falsy (effective_guess self kw)
  then draws_from (draw_float (rng w)) (pos (rng w))
         (length (effective_parameters self kw))
  else update_none (effective_guess self kw) [].

(** The call [_fit] makes to the solver. *)
Definition the_call (self : SingleFitter) (kw : fit_kwargs) (w : world) : solver_call :=
  mk_call (update_none (kw_model kw) (model self))
    (effective_x self kw w) (effective_y self kw w)
    (sigma_for_solver (effective_x self kw w) (effective_sigma self kw w))
    (effective_bounds self kw) (start_point self kw w) (effective_kwargs self kw).

(** The world just after the solver has been called. *)
Definition after_call (self : SingleFitter) (kw : fit_kwargs) (w : world) : world :=
  let w0 :=
    if decide (len (effective_x self kw w) ≠ len (effective_sigma self kw w))
    then add_log sigma_note w else w in
  let w1 :=
    if falsy (effective_guess self kw) then
      match length (effective_parameters self kw) with
      | O => w0
      | S _ => set_rng (advance (length (effective_parameters self kw)) (rng w)) w0
      end
    else w0 in
  add_call (the_call self kw w) w1.

(** The shape the solver promises: as many parameters as the model has, and
    a square covariance of that size. *)
Definition solver_shape_ok (n : nat) (o : outcome (list float * list (list float)))
  : Prop :=
  match o with
  | Ok (params, pcov) =>
      length params = n ∧ length pcov = n ∧ Forall (λ row, length row = n) pcov
  | Raise _ => True
  end.

(** The bootstrap object [run_bootstrap] runs: a new one when the estimator
    has none, the estimator's own, updated, otherwise. *)
Definition bootstrap_object (self : SingleFitter) (kwargs : bootstrap_kwargs)
  : outcome Bootstrap :=
  match bootstrap self with
  | None => Bootstrap_new kwargs
  | Some b => Ok (update_bootstrap kwargs b)
  end.

(** The value [run_bootstrap] compares with the number of rows. *)
Definition effective_record_num (self : SingleFitter) (record_num : option Z)
  : option Z :=
  match record_num with
  | None => bs_record_num (config self)
  | Some n => Some n
  end.

(** A step that neither calls the solver, nor draws, nor writes a file. *)
Definition quiet {A} (m : M A) : Prop :=
  ∀ w, solver_calls (m w).2 = solver_calls w ∧ rng (m w).2 = rng w ∧
       fs (m w).2 = fs w.

(** What [jsonfy] makes of an array slot, read off the heap. *)
Definition array_leaf (w : world) (o : option loc) : option string :=
  match o with
  | Some l =>
      match kind (heap w !!! l) with
      | KSeries =>
          jsonfy_series (Some (mk_Series (labels (heap w !!! l)) (items (heap w !!! l))))
      | _ => None
      end
  | None => None
  end.

(** The document [to_json] writes for [r] in the world [w]. *)
Definition document (w : world) (r : FitResults) : jdoc :=
  {[ "point_estimation" :=
       {[ "params" := jsonfy_series (pe_params r);
          "pcov" := jsonfy_frame (pe_pcov r) ]};
     "uncertainty" :=
       {[ "summary" := jsonfy_series (unc_summary r);
          "bs_records" := jsonfy_frame (unc_bs_records r);
          "rep_results" := jsonfy_frame (unc_rep_results r) ]};
     "convergence" :=
       {[ "summary" := jsonfy_series (conv_summary r);
          "records" := jsonfy_frame (conv_records r) ]};
     "data" :=
       {[ "x_data" := array_leaf w (data_x_data r);
          "y_data" := array_leaf w (data_y_data r);
          "sigma" := array_leaf w (data_sigma r);
          "x_label" := None; "y_label" := None ]} ]}.

(** The codec reproduces this series. *)
Definition series_round_trip (o : option Series) : Prop :=
  ∀ s, o = Some s → ∃ t, series_to_json s = Ok t ∧ read_series t = Ok s.


(** What was written for this slot can be read. *)
Definition leaf_readable {T} (reader : string → outcome T) (leaf : option string)
  : Prop :=
  ∀ t, leaf = Some t → ∃ v, reader t = Ok v.

(** What [from_json] makes of a slot of the document: nothing where [null]
    was written, what the reader returns otherwise. *)
Definition reread {T} (reader : string → outcome T) (leaf : option string)
  : outcome (option T) :=
  match leaf with
  | None => Ok None
  | Some t => match reader t with Ok v => Ok (Some v) | Raise e => Raise e end
  end.

(** A series, a table: written by [to_json], then read. *)
Definition reread_series (o : option Series) : outcome (option Series) :=
  reread read_series (jsonfy_series o).

Definition reread_frame (o : option DataFrame) : outcome (option DataFrame) :=
  reread read_frame (jsonfy_frame o).

(** Every text [to_json] writes for [r] can be read. *)
Definition leaves_readable (w : world) (r : FitResults) : Prop :=
  leaf_readable read_series (jsonfy_series (pe_params r)) ∧
  leaf_readable read_frame (jsonfy_frame (pe_pcov r)) ∧
  leaf_readable read_series (jsonfy_series (unc_summary r)) ∧
  leaf_readable read_frame (jsonfy_frame (unc_bs_records r)) ∧
  leaf_readable read_frame (jsonfy_frame (unc_rep_results r)) ∧
  leaf_readable read_series (jsonfy_series (conv_summary r)) ∧
  leaf_readable read_frame (jsonfy_frame (conv_records r)) ∧
  leaf_readable read_series (array_leaf w (data_x_data r)) ∧
  leaf_readable read_series (array_leaf w (data_y_data r)) ∧
  leaf_readable read_series (array_leaf w (data_sigma r)).


(** *** Construction, fitting stages and documents *)

(** What [__init__] leaves in the estimator besides its arrays: the
    attributes, the configuration and the sibling objects; [n] is the
    number of stored points. *)
Definition configured (a : init_args) (n : nat) (self : SingleFitter) : Prop :=
  model self = a_model a ∧
  parameters self = tail (func_args (a_model a)) ∧
  save_to self = a_save_to a ∧ overwrite self = a_overwrite a ∧
  bounds (config self) = Some (update_none (a_bounds a) infinite_bounds) ∧
  init_guess (config self) = a_init_guess a ∧
  metrics (config self) = a_metrics a ∧
  rnd_seed (config self) = a_rnd_seed a ∧
  x_label (config self) = a_x_label a ∧ y_label (config self) = a_y_label a ∧
  new_replicates (a_replicates a) = Ok (replicates_obj self) ∧
  new_bootstrap a (0 <? a_bootstrap_num a) (bool_decide (1 < n)%nat) =
    Ok (bootstrap self, bs_record_num (config self)) ∧
  new_tester a (0 <? a_conv_reps a) = Ok (converge_tester self).

(** The results of a new estimator: copies of its three arrays, its labels,
    and no estimate. *)
Definition fresh_results (self : SingleFitter) (w w' : world) : Prop :=
  ∃ rx ry rs,
    results self =
      mk_FitResults (Some (model self)) (Some rx) (Some ry) (Some rs)
        (x_label (config self)) (y_label (config self))
        None None None None None None None ∧
    heap w' !! rx = heap w' !! x_data self ∧
    heap w' !! ry = heap w' !! y_data self ∧
    heap w' !! rs = heap w' !! sigma (config self) ∧
    Forall (λ l, (l ∉ estimator_arrays self) ∧ heap w !! l = None) [rx; ry; rs].

Definition init_details (a : init_args) (w : world) (self : SingleFitter) (w' : world)
  : Prop :=
  len (heap w !!! a_x_data a) = len (heap w !!! a_y_data a) ∧
  configured a (length (kept (init_mask a w) (heap w !!! a_x_data a))) self ∧
  fresh_results self w w'.

(** The dictionary of [fit] holds a keyword that [_fit] does not name:
    [bs_record_num], or one of the bootstrap or of the convergence test. *)
Definition stage_keywords (kwargs : fit_call_kwargs) : bool :=
  present (fk_bs_record_num kwargs) || names_bootstrap (fk_bootstrap kwargs) ||
  names_convergence (fk_convergence kwargs).

(** The dictionary of [fit] holds keywords of [_fit] only. *)
Definition fit_keywords_only (kwargs : fit_call_kwargs) : Prop :=
  stage_keywords kwargs = false.

(** The seed in effect, from the keywords or else from the configuration. *)
Definition seed_in_effect (self : SingleFitter) (kwargs : fit_call_kwargs) : option Z :=
  truthy_seed (update_none (fk_rnd_seed kwargs) (rnd_seed (config self))).

(** It is one numpy accepts. *)
Definition seed_accepted (self : SingleFitter) (kwargs : fit_call_kwargs) : Prop :=
  ∀ sd, seed_in_effect self kwargs = Some sd → 0 ≤ sd < 2 ^ 32.

(** The world in which the stages of [fit] start: the entry of the log, and
    the generator a truthy seed determines. *)
Definition seeded (self : SingleFitter) (kwargs : fit_call_kwargs) (w : world) : world :=
  let w0 := add_log (DEBUG, [Lit "Perform fitting..."]) w in
  match truthy_seed (update_none (fk_rnd_seed kwargs) (rnd_seed (config self))) with
  | Some sd => set_rng (np_random_seed sd) w0
  | None => w0
  end.

(** The parameters [fit] stores: the fitted ones, then the metrics. *)
Definition stored_params (res : fit_output) : Series :=
  match o_metrics res with
  | Some m => series_append (o_params res) m
  | None => o_params res
  end.

(** The estimator after the point-estimate stage of [fit]. *)
Definition with_point (res : fit_output) (self : SingleFitter) : SingleFitter :=
  with_results
    (set_pe_pcov (Some (o_pcov res))
       (set_pe_params (Some (stored_params res)) (results self))) self.


(** [fit] has nothing to resume from: no path, or [overwrite], or no file at
    the path. *)
Definition nothing_to_resume (self : SingleFitter) (kwargs : fit_call_kwargs)
    (w : world) : Prop :=
  match nonempty (update_none (fk_save_to kwargs) (save_to self)) with
  | None => True
  | Some p =>
      update_none (fk_overwrite kwargs) (overwrite self) = true ∨ fs w !! p = None
  end.

(** A step that leaves every existing object as it is (it may allocate and
    log), calls no solver, draws nothing and writes no file. *)
Definition allocating {A} (m : M A) : Prop := ∀ w, heap_grows w (m w).2.

(** The five slots of the data scope agree. *)
Definition same_data (r1 r2 : FitResults) : Prop :=
  data_x_data r1 = data_x_data r2 ∧ data_y_data r1 = data_y_data r2 ∧
  data_sigma r1 = data_sigma r2 ∧
  data_x_label r1 = data_x_label r2 ∧ data_y_label r1 = data_y_label r2.

(** The last step of [from_json]: the data block of the file, or else the
    dictionary handed over. *)
Definition load_data (json_data : jdoc) (data : option data_dict)
    (result : FitResults) : M FitResults :=
  match json_data !! "data" with
  | Some block =>
      x ← load_array block "x_data" (data_x_data result);
      y ← load_array block "y_data" (data_y_data result);
      sg ← load_array block "sigma" (data_sigma result);
      xl ← load_label block "x_label" (data_x_label result);
      yl ← load_label block "y_label" (data_y_label result);
      mret (set_data x y sg xl yl result)
  | None =>
      match data with
      | Some d =>
          mret (set_data (dd_x_data d) (dd_y_data d) (dd_sigma d)
                  (dd_x_label d) (dd_y_label d) result)
      | None => mret result
      end
  end.

(** The slot holds a pandas series. *)
Definition is_series (w : world) (o : option loc) : Prop :=
  ∃ l, o = Some l ∧ kind (heap w !!! l) = KSeries.

(** No estimate is held. *)
Definition no_estimates (r : FitResults) : Prop :=
  pe_params r = None ∧ pe_pcov r = None ∧ unc_summary r = None ∧
  unc_bs_records r = None ∧ unc_rep_results r = None ∧
  conv_summary r = None ∧ conv_records r = None.

End vocabulary.

(** ** Reasoning about runs *)

Lemma bind_run {A B} (m : M A) (k : A → M B) (w : world) :
  (m ≫= k) w =
  match m w with
  | (Ok a, w') => k a w'
  | (Raise e, w') => (Raise e, w')
  end.
Proof. reflexivity. Qed.

Lemma alloc_spec (o : pyarr) (w : world) :
  ∃ l, alloc o w = (Ok l, set_heap (<[l := o]> (heap w)) w) ∧ heap w !! l = None.
Proof.
  exists (fresh (dom (heap w))). split; [done|].
  apply not_elem_of_dom, is_fresh.
Qed.

Lemma heap_grows_lookup w w' l o :
  heap_grows w w' → heap w !! l = Some o → heap w' !! l = Some o.
Proof. intros [Hg _ _ _] Hl. eapply lookup_weaken; eauto. Qed.

Lemma heap_grows_total w w' l :
  heap_grows w w' → is_Some (heap w !! l) → heap w' !!! l = heap w !!! l.
Proof.
  intros Hg [o Hl]. rewrite (lookup_total_correct _ _ _ Hl).
  apply lookup_total_correct. eapply heap_grows_lookup; eauto.
Qed.

Lemma heap_grows_refl w : heap_grows w w.
Proof. by split. Qed.

Lemma heap_grows_log w e : heap_grows w (add_log e w).
Proof. by split. Qed.

Lemma heap_grows_verbosity w l : heap_grows w (set_verbosity l w).
Proof. by split. Qed.

Lemma heap_grows_trans w1 w2 w3 :
  heap_grows w1 w2 → heap_grows w2 w3 → heap_grows w1 w3.
Proof.
  intros [] []. split; [by etrans | congruence..].
Qed.

Lemma deref_run l w : deref l w = (Ok (heap w !!! l), w).
Proof. reflexivity. Qed.

Lemma lift_run {A} (o : outcome A) w : lift o w = (o, w).
Proof. reflexivity. Qed.

(** Masking two sequences of the same length by the same mask leaves the
    same number of entries. *)
Lemma select_length_eq {A B} (mask : list bool) (l : list A) (k : list B) :
  length mask = length l → length mask = length k →
  length (select mask l) = length (select mask k).
Proof.
  revert l k. induction mask as [|b mask IH]; intros [|a l] [|c k]; simpl; try done.
  intros [= Hl] [= Hk]. destruct b; simpl; auto.
Qed.

(** What survives a mask computed from [y != 0] is non-zero. *)
Lemma select_ne_zero (ys : list float) :
  Forall (λ v, ne_zero v = true) (select (ne_zero <$> ys) ys).
Proof.
  induction ys as [|y ys IH]; simpl; [constructor|].
  destruct (ne_zero y) eqn:E; [constructor|]; done.
Qed.

(** Entry by entry: an entry is kept exactly when its mask bit is set. *)
Lemma select_filter_zip {A} (mask : list bool) (l : list A) :
  select mask l = (filter (λ p, p.1 = true) (zip mask l)).*2.
Proof.
  revert l. induction mask as [|b mask IH]; intros [|a l]; simpl; try done.
  rewrite filter_cons. simpl. destruct b; simpl.
  - destruct (decide (true = true)); [|done]. simpl. by rewrite IH.
  - destruct (decide (false = true)); [done|]. by rewrite IH.
Qed.

Section properties.
Context {ext : Externals}.

Lemma copy_spec l w :
  ∃ l', copy l w = (Ok l', set_heap (<[l' := heap w !!! l]> (heap w)) w) ∧
        heap w !! l' = None.
Proof.
  unfold copy. rewrite bind_run, deref_run.
  destruct (alloc_spec (heap w !!! l) w) as (l' & E & Hf). eauto.
Qed.

Lemma set_heap_grows w o l :
  heap w !! l = None → heap_grows w (set_heap (<[l := o]> (heap w)) w).
Proof. intros. split; simpl; [by apply insert_subseteq | done..]. Qed.

Lemma FitResults_init_grows est m w r w' :
  FitResults_init est m w = (Ok r, w') → heap_grows w w'.
Proof.
  destruct est as [est|]; simpl.
  - destruct (copy_spec (x_data est) w) as (lx & Ex & Hx).
    rewrite bind_run, Ex.
    set (w1 := set_heap _ w).
    destruct (copy_spec (y_data est) w1) as (ly & Ey & Hy).
    rewrite bind_run, Ey.
    set (w2 := set_heap _ w1).
    destruct (copy_spec (sigma (config est)) w2) as (ls & Es & Hs).
    rewrite bind_run, Es. intros [= <- <-].
    apply (heap_grows_trans w w1); [by apply set_heap_grows|].
    apply (heap_grows_trans w1 w2); by apply set_heap_grows.
  - intros [= <- <-]. apply heap_grows_refl.
Qed.

Lemma set_verbose_cases a w :
  (valid_verbose a ∧ ∃ L, set_verbose (a_verbose a) w = (Ok tt, set_verbosity L w)) ∨
  (¬ valid_verbose a ∧
   set_verbose (a_verbose a) w =
     (Raise ValueError, add_log (ERROR, [Lit "verbose should be 0, 1, or 2"]) w)).
Proof.
  unfold set_verbose, valid_verbose.
  destruct (a_verbose a =? 0) eqn:E0; [left; split; [lia | by eexists] |].
  destruct (a_verbose a =? 1) eqn:E1; [left; split; [lia | by eexists] |].
  destruct (a_verbose a =? 2) eqn:E2; [left; split; [lia | by eexists] |].
  right. split; [lia | done].
Qed.

Lemma FitResults_init_total est m w :
  ∃ r w', FitResults_init est m w = (Ok r, w') ∧ heap_grows w w'.
Proof.
  assert (∃ r w', FitResults_init est m w = (Ok r, w')) as (r & w' & E).
  { destruct est as [est|]; simpl; [|by eauto].
    destruct (copy_spec (x_data est) w) as (lx & Ex & _).
    rewrite bind_run, Ex.
    set (w1 := set_heap _ w).
    destruct (copy_spec (y_data est) w1) as (ly & Ey & _).
    rewrite bind_run, Ey.
    set (w2 := set_heap _ w1).
    destruct (copy_spec (sigma (config est)) w2) as (ls & Es & _).
    rewrite bind_run, Es. by eauto. }
  exists r, w'. split; [done|]. by eapply FitResults_init_grows.
Qed.

Lemma heap_grows_fresh w w' l :
  heap_grows w w' → heap w' !! l = None → heap w !! l = None.
Proof.
  intros Hg Hn. destruct (heap w !! l) as [o|] eqn:E; [|done].
  apply (heap_grows_lookup _ _ _ _ Hg) in E. congruence.
Qed.

Lemma setitem_frame l i v w w'' l' :
  setitem l i v w = (Ok tt, w'') → l' ≠ l → heap w'' !! l' = heap w !! l'.
Proof.
  unfold setitem. destruct (heap w !! l) as [o|]; [|done].
  destruct (decide _); [|done]. intros [= <-] Hne. simpl.
  by rewrite lookup_insert_ne.
Qed.

Lemma FitResults_init_Some est m w :
  live w (x_data est) → live w (y_data est) → live w (sigma (config est)) →
  ∃ lx ly ls w',
    FitResults_init (Some est) m w =
      (Ok (mk_FitResults (Some (model est)) (Some lx) (Some ly) (Some ls)
             (x_label (config est)) (y_label (config est))
             None None None None None None None), w') ∧
    heap_grows w w' ∧
    heap w !! lx = None ∧ heap w !! ly = None ∧ heap w !! ls = None ∧
    heap w' !! lx = heap w !! x_data est ∧
    heap w' !! ly = heap w !! y_data est ∧
    heap w' !! ls = heap w !! sigma (config est).
Proof.
  intros [ox Hx] [oy Hy] [os Hs]. unfold FitResults_init.
  destruct (copy_spec (x_data est) w) as (lx & Ex & Fx).
  rewrite bind_run, Ex. set (w1 := set_heap _ w).
  assert (heap_grows w w1) as G1 by (by apply set_heap_grows).
  destruct (copy_spec (y_data est) w1) as (ly & Ey & Fy).
  rewrite bind_run, Ey. set (w2 := set_heap _ w1).
  assert (heap_grows w1 w2) as G2 by (by apply set_heap_grows).
  destruct (copy_spec (sigma (config est)) w2) as (ls & Es & Fs).
  rewrite bind_run, Es. set (w3 := set_heap _ w2).
  assert (heap_grows w2 w3) as G3 by (by apply set_heap_grows).
  assert (heap_grows w w2) as G02 by (by apply (heap_grows_trans w w1)).
  exists lx, ly, ls, w3. split_and!.
  - done.
  - by apply (heap_grows_trans w w2).
  - done.
  - by apply (heap_grows_fresh w w1).
  - by apply (heap_grows_fresh w w2).
  - rewrite Hx. apply (heap_grows_lookup w1 w3).
    { by apply (heap_grows_trans w1 w2). }
    subst w1. simpl. rewrite lookup_insert_eq.
    by rewrite (lookup_total_correct _ _ _ Hx).
  - rewrite Hy. apply (heap_grows_lookup w2 w3); [done|].
    subst w2. simpl. rewrite lookup_insert_eq.
    rewrite (heap_grows_total w w1) by (done || by exists oy).
    by rewrite (lookup_total_correct _ _ _ Hy).
  - rewrite Hs. subst w3. simpl. rewrite lookup_insert_eq.
    rewrite (heap_grows_total w w2) by (done || by exists os).
    by rewrite (lookup_total_correct _ _ _ Hs).
Qed.

(** *** Construction *)

Lemma as_ndarray_kind o : kind (as_ndarray o) ≠ KList.
Proof. unfold as_ndarray. by destruct (kind o) eqn:E; simpl; rewrite ?E. Qed.

Lemma as_ndarray_items o : items (as_ndarray o) = items o.
Proof. unfold as_ndarray. by destruct (kind o). Qed.

Lemma as_ndarray_series o :
  kind (as_ndarray o) = KSeries → kind o = KSeries ∧ as_ndarray o = o.
Proof. unfold as_ndarray. by destruct (kind o) eqn:E; simpl; rewrite ?E. Qed.

Lemma ne_zero_mask_as_ndarray y : ne_zero_mask (as_ndarray y) = ne_zero_mask y.
Proof. unfold ne_zero_mask, as_ndarray. by destruct (kind y) eqn:E; simpl; rewrite ?E. Qed.

Lemma as_array_run l w o :
  heap w !! l = Some o →
  ∃ l' w',
    as_array l w = (Ok l', w') ∧ heap_grows w w' ∧
    heap w' !! l' = Some (as_ndarray o).
Proof.
  intros Hl. unfold as_array, as_ndarray. rewrite bind_run, deref_run.
  rewrite (lookup_total_correct _ _ _ Hl).
  destruct (kind o) eqn:Hk.
  - destruct (alloc_spec (np_array o) w) as (l' & E & Hf).
    exists l', (set_heap (<[l' := np_array o]> (heap w)) w).
    rewrite E. split_and!; [done | by apply set_heap_grows |].
    simpl. by rewrite lookup_insert_eq.
  - exists l, w. split_and!; [done | apply heap_grows_refl | done].
  - exists l, w. split_and!; [done | apply heap_grows_refl | done].
Qed.

Lemma bool_index_inv o key r :
  bool_index o key = Ok r →
  ∃ bits, selector o key = Ok bits ∧ length bits = length (items o) ∧
          r = mk_pyarr (kind o) (select bits (labels o)) (select bits (items o)).
Proof.
  unfold bool_index.
  destruct (kind o) eqn:Hk; [done | |];
    (destruct (selector o key) as [bits|e]; [|done]);
    (destruct (decide (length bits = length (items o))); [|done]);
    intros [= <-]; by exists bits.
Qed.

Lemma bool_index_Ok o key bits :
  kind o ≠ KList → selector o key = Ok bits → length bits = length (items o) →
  bool_index o key =
    Ok (mk_pyarr (kind o) (select bits (labels o)) (select bits (items o))).
Proof.
  intros Hk Hs Hl. unfold bool_index. rewrite Hs.
  destruct (kind o); [done | |]; by destruct (decide _).
Qed.

(** An array of booleans selects by position, on arrays and series alike. *)
Lemma selector_array o bits : selector o (MArray bits) = Ok bits.
Proof. unfold selector. by destruct (kind o). Qed.

Lemma init_mask_bits a w :
  mask_bits (init_mask a w) =
  if a_exclude_zero a then ne_zero <$> items (heap w !!! a_y_data a)
  else replicate (len (heap w !!! a_x_data a)) true.
Proof.
  unfold init_mask, ne_zero_mask. destruct (a_exclude_zero a); [|done].
  by destruct (kind (heap w !!! a_y_data a)).
Qed.

(** Where the mask is applied by position, every target is indexed by the
    booleans of the mask as they are. *)
Lemma selector_by_position a w l :
  by_position a w → l ∈ init_targets a →
  selector (as_ndarray (heap w !!! l)) (init_mask a w) = Ok (mask_bits (init_mask a w)).
Proof.
  intros Hpos Hl. unfold selector.
  destruct (kind (as_ndarray (heap w !!! l))) eqn:Hk; [done | done |].
  apply as_ndarray_series in Hk as [Hk ->].
  unfold init_mask in *. destruct (a_exclude_zero a) eqn:Hez; [|done].
  unfold ne_zero_mask.
  destruct (kind (heap w !!! a_y_data a)) eqn:Hy; [done | done |].
  simpl. unfold init_targets in Hl.
  apply elem_of_cons in Hl as [-> | Hl].
  - rewrite (Hpos Hez Hy (a_x_data a)) by (done || apply list_elem_of_here).
    by destruct (decide _).
  - apply elem_of_cons in Hl as [-> | Hl]; [by destruct (decide _)|].
    rewrite (Hpos Hez Hy l) by (done || by apply list_elem_of_further).
    by destruct (decide _).
Qed.

Lemma store_sigma_cases sg mask n w :
  (∀ s, sg = Some s → live w s) →
  match store_sigma sg mask n w with
  | (Ok l, w') =>
      heap_grows w w' ∧ heap w !! l = None ∧
      ∃ o, heap w' !! l = Some o ∧
           match sg with
           | None => o = np_ones n
           | Some s => bool_index (as_ndarray (heap w !!! s)) mask = Ok o
           end
  | (Raise e, _) =>
      ∃ s, sg = Some s ∧ bool_index (as_ndarray (heap w !!! s)) mask = Raise e
  end.
Proof.
  intros Hs. destruct sg as [s|]; unfold store_sigma.
  - destruct (Hs s eq_refl) as [o Ho].
    rewrite (lookup_total_correct _ _ _ Ho).
    destruct (as_array_run s w o Ho) as (sl & w1 & E1 & G1 & L1).
    rewrite bind_run, E1, bind_run, deref_run, (lookup_total_correct _ _ _ L1).
    rewrite bind_run, lift_run.
    destruct (bool_index (as_ndarray o) mask) as [sm|e] eqn:Eb.
    2:{ exists s. split; [done|]. by rewrite (lookup_total_correct _ _ _ Ho). }
    destruct (alloc_spec sm w1) as (l & E2 & F2). rewrite E2.
    split_and!.
    + apply (heap_grows_trans w w1); [done | by apply set_heap_grows].
    + by eapply heap_grows_fresh.
    + exists sm. simpl. by rewrite lookup_insert_eq.
  - destruct (alloc_spec (np_ones n) w) as (l & E & F). rewrite E.
    split_and!; [by apply set_heap_grows | done |].
    eexists. simpl. by rewrite lookup_insert_eq.
Qed.

(** The construction, step by step. *)
Lemma init_cases a w :
  live w (a_x_data a) → live w (a_y_data a) →
  (∀ s, a_sigma a = Some s → live w s) →
  match SingleFitter_init a w with
  | (Ok self, w') => stores_masked a w self w' ∧ init_details a w self w'
  | (Raise e, _) => init_failure a w
  end.
Proof.
  intros [x Hx] [y Hy] Hs. unfold SingleFitter_init.
  rewrite bind_run.
  destruct (set_verbose_cases a w) as [(Hv & L & ->) | (Hv & ->)];
    [| by left].
  set (w0 := set_verbosity L w).
  assert (heap_grows w w0) as G0 by apply heap_grows_verbosity.
  rewrite bind_run, deref_run, bind_run, deref_run.
  change (heap w0) with (heap w).
  rewrite bind_run.
  destruct (decide (len (heap w !!! a_x_data a) ≠ len (heap w !!! a_y_data a)))
    as [Hne | Heq]; [by right; left |].
  apply dec_stable in Heq.
  change ((mret tt : M unit) w0) with (Ok tt, w0). cbv iota beta.
  unfold stores_masked, init_details, init_failure, kept, init_targets.
  assert (init_mask a w =
          if a_exclude_zero a then ne_zero_mask (as_ndarray y)
          else MArray (replicate (len (as_ndarray x)) true)) as Hmask.
  { unfold init_mask.
    rewrite (lookup_total_correct _ _ _ Hx), (lookup_total_correct _ _ _ Hy).
    by rewrite ne_zero_mask_as_ndarray; unfold len; rewrite as_ndarray_items. }
  rewrite (lookup_total_correct _ _ _ Hx), (lookup_total_correct _ _ _ Hy) in *.
  (* the arrays *)
  destruct (as_array_run (a_x_data a) w0 x Hx) as (xl & w1 & E1 & G1 & Lx).
  rewrite bind_run, E1.
  assert (heap w1 !! a_y_data a = Some y) as Hy1
    by (eapply heap_grows_lookup; [exact G1 | exact Hy]).
  destruct (as_array_run (a_y_data a) w1 y Hy1) as (yl & w2 & E2 & G2 & Ly).
  rewrite bind_run, E2, bind_run, deref_run, bind_run, deref_run.
  assert (heap w2 !! xl = Some (as_ndarray x)) as Lx2
    by (eapply heap_grows_lookup; eauto).
  rewrite (lookup_total_correct _ _ _ Lx2), (lookup_total_correct _ _ _ Ly).
  rewrite <- Hmask. set (mask := init_mask a w) in *.
  rewrite bind_run, lift_run.
  destruct (bool_index (as_ndarray x) mask) as [xm|e] eqn:Bx.
  2:{ right; right; left. exists (a_x_data a), e. split; [apply list_elem_of_here|].
      by rewrite (lookup_total_correct _ _ _ Hx). }
  rewrite bind_run.
  destruct (alloc_spec xm w2) as (sx & E3 & Fx). rewrite E3.
  set (w3 := set_heap _ w2).
  assert (heap_grows w2 w3) as G3 by (by apply set_heap_grows).
  rewrite bind_run, lift_run.
  destruct (bool_index (as_ndarray y) mask) as [ym|e] eqn:By.
  2:{ right; right; left. exists (a_y_data a), e.
      split; [apply list_elem_of_further, list_elem_of_here|].
      by rewrite (lookup_total_correct _ _ _ Hy). }
  rewrite bind_run.
  destruct (alloc_spec ym w3) as (sy & E4 & Fy). rewrite E4.
  set (w4 := set_heap _ w3).
  assert (heap_grows w3 w4) as G4 by (by apply set_heap_grows).
  assert (heap_grows w w2) as G02.
  { apply (heap_grows_trans w w0); [done|].
    apply (heap_grows_trans w0 w1); done. }
  assert (heap_grows w w4) as G04.
  { apply (heap_grows_trans w w2); [done|].
    apply (heap_grows_trans w2 w3); done. }
  (* sigma *)
  rewrite bind_run.
  pose proof (store_sigma_cases (a_sigma a) mask (len ym) w4) as Hsg.
  assert (∀ s, a_sigma a = Some s → heap w4 !!! s = heap w !!! s) as Hsame.
  { intros s Es. by apply heap_grows_total, Hs. }
  destruct (store_sigma (a_sigma a) mask (len ym) w4) as [[ss|e] w5].
  2:{ destruct Hsg as (s & Es & Hb).
      { intros s Es. destruct (Hs s Es) as [o Ho]. exists o.
        eapply heap_grows_lookup; eauto. }
      right; right; left. exists s, e. rewrite Es. split.
      - simpl. by do 2 apply list_elem_of_further; apply list_elem_of_here.
      - by rewrite <- (Hsame s Es). }
  destruct Hsg as (G5 & F5 & os & L5 & Hos).
  { intros s Es. destruct (Hs s Es) as [o Ho]. exists o.
    eapply heap_grows_lookup; eauto. }
  (* the sibling objects *)
  rewrite bind_run, lift_run.
  destruct (new_replicates (a_replicates a)) as [reps|e] eqn:ER.
  2:{ right; right; right; left. unfold new_replicates in ER.
      destruct (a_replicates a) as [r|]; [|done].
      destruct (Replicates_new r) eqn:E'; [done | eauto]. }
  rewrite bind_run, lift_run.
  destruct (new_bootstrap a (0 <? a_bootstrap_num a) (bool_decide (1 < len xm)%nat))
    as [[bs rn]|e] eqn:EB.
  2:{ right; right; right; right; left. unfold new_bootstrap in EB.
      destruct (_ && _); [|done].
      match type of EB with context [Bootstrap_new ?k] =>
        destruct (Bootstrap_new k) eqn:E'; [done | eauto] end. }
  rewrite bind_run, lift_run.
  destruct (new_tester a (0 <? a_conv_reps a)) as [ct|e] eqn:EC.
  2:{ do 5 right. unfold new_tester in EC.
      destruct (0 <? a_conv_reps a); [|done].
      match type of EC with context [ConvergenceTester_new ?k] =>
        destruct (ConvergenceTester_new k) eqn:E'; [done | eauto] end. }
  (* the result object *)
  assert (heap w3 !! sx = Some xm) as Lsx by (simpl; by rewrite lookup_insert_eq).
  assert (heap w4 !! sy = Some ym) as Lsy by (simpl; by rewrite lookup_insert_eq).
  assert (heap w5 !! sx = Some xm) as Lsx5.
  { eapply (heap_grows_lookup w4 w5); [done|].
    eapply (heap_grows_lookup w3 w4); [done|]. exact Lsx. }
  assert (heap w5 !! sy = Some ym) as Lsy5
    by (eapply (heap_grows_lookup w4 w5); [done | exact Lsy]).
  rewrite bind_run.
  match goal with |- context [FitResults_init (Some ?e) ?m w5] =>
    destruct (FitResults_init_Some e m w5)
      as (lx & ly & ls & w6 & E6 & G6 & Fx6 & Fy6 & Fs6 & Cx & Cy & Cs);
      [by eexists | by eexists | by eexists | rewrite E6] end.
  rewrite bind_run.
  change (log_debug [Lit "Single estimator initiated"] w6)
    with (Ok tt, add_log (DEBUG, [Lit "Single estimator initiated"]) w6).
  cbv iota beta.
  set (w7 := add_log _ w6).
  assert (heap_grows w6 w7) as G7 by apply heap_grows_log.
  unfold mret, M_ret.
  cbn [x_data y_data config sigma] in Cx, Cy, Cs, Fx6, Fy6, Fs6.
  assert (heap_grows w w5) as G05 by (by apply (heap_grows_trans w w4)).
  assert (heap_grows w5 w7) as G57 by (by apply (heap_grows_trans w5 w6)).
  cbn [with_results x_data y_data config sigma results].
  split.
  - split; [by apply (heap_grows_trans w w5)|].
    exists xm, ym, os. split_and!; try done.
    + by eapply (heap_grows_lookup w5 w7).
    + by apply (heap_grows_fresh w w2).
    + by eapply (heap_grows_lookup w5 w7).
    + apply (heap_grows_fresh w w3); [|done]. by apply (heap_grows_trans w w2).
    + by eapply (heap_grows_lookup w5 w7).
    + by apply (heap_grows_fresh w w4).
    + destruct (a_sigma a) as [s|]; [|done]. by rewrite <- (Hsame s eq_refl).
  - split; [done|]. split.
    { unfold configured. cbn. split_and!; try done.
      by destruct (a_bounds a). }
    exists lx, ly, ls. cbn. split; [done|].
    split_and!.
    + rewrite Cx, Lsx5. symmetry. by apply (heap_grows_lookup w5 w6).
    + rewrite Cy, Lsy5. symmetry. by apply (heap_grows_lookup w5 w6).
    + rewrite Cs, L5. symmetry. by apply (heap_grows_lookup w5 w6).
    + assert (∀ l, heap w5 !! l = None → (l ∉ [sx; sy; ss]) ∧ heap w !! l = None)
        as Hfresh.
      { intros l Hl. split; [|by apply (heap_grows_fresh w w5)].
        rewrite !elem_of_cons, elem_of_nil. intros [->|[->|[->|[]]]]; congruence. }
      unfold estimator_arrays. cbn.
      repeat (apply Forall_cons_2; [by apply Hfresh|]). apply Forall_nil_2.
Qed.

Lemma init_succeeds a w :
  valid_verbose a → live w (a_x_data a) → live w (a_y_data a) →
  len (heap w !!! a_x_data a) = len (heap w !!! a_y_data a) →
  (∀ s, a_sigma a = Some s →
        live w s ∧ len (heap w !!! s) = len (heap w !!! a_y_data a)) →
  by_position a w →
  siblings_total →
  ∃ self w', SingleFitter_init a w = (Ok self, w') ∧ stores_masked a w self w'.
Proof.
  intros Hv Hx Hy Hxy Hs Hpos (HR & HB & HC).
  pose proof (init_cases a w Hx Hy) as Hc.
  destruct (SingleFitter_init a w) as [[self|e] w'].
  - exists self, w'. split; [done|]. apply Hc. intros s Es. by apply Hs.
  - exfalso.
    destruct Hc as [?|[?|[(l & e' & Hl & Hb)|[(r & e' & E)|[(k & e' & E)|(k & e' & E)]]]]].
    + intros s Es. by apply Hs.
    + done.
    + done.
    + assert (len (heap w !!! l) = len (heap w !!! a_y_data a)) as Hlen.
      { unfold init_targets in Hl.
        apply elem_of_cons in Hl as [-> | Hl]; [done|].
        apply elem_of_cons in Hl as [-> | Hl]; [done|].
        destruct (a_sigma a) as [s|] eqn:Es; simpl in Hl.
        - apply list_elem_of_singleton in Hl as ->. by apply Hs.
        - by apply elem_of_nil in Hl. }
      rewrite (bool_index_Ok _ _ _ (as_ndarray_kind _) (selector_by_position a w l Hpos Hl))
        in Hb; [done|].
      rewrite init_mask_bits, as_ndarray_items. unfold len in *.
      destruct (a_exclude_zero a).
      * by rewrite length_fmap.
      * rewrite length_replicate. congruence.
    + destruct (HR r). congruence.
    + destruct (HB k). congruence.
    + destruct (HC k). congruence.
Qed.



(** C2 (amended). Where the mask is applied by position (y is no pandas
    series, or the pandas series among x and sigma are on the index of y),
    a construction with [exclude_zero=True] stores, in objects of its own,
    exactly the entries of x, y and sigma at the positions where [y != 0];
    the three stored sequences have the same length; every object the
    caller had is unchanged; and no solver call has been made yet. *)
Theorem init_exclude_zero (a : init_args) (w : world) (self : SingleFitter)
    (w' : world) :
  a_exclude_zero a = true →
  by_position a w →
  live w (a_x_data a) → live w (a_y_data a) →
  (∀ s, a_sigma a = Some s → live w s) →
  SingleFitter_init a w = (Ok self, w') →
  let xs := items (heap w !!! a_x_data a) in
  let ys := items (heap w !!! a_y_data a) in
  let keep := ne_zero <$> ys in
  ∃ ox oy os,
    heap w' !! x_data self = Some ox ∧
    heap w' !! y_data self = Some oy ∧
    heap w' !! sigma (config self) = Some os ∧
    items ox = select keep xs ∧
    items oy = select keep ys ∧
    items os = match a_sigma a with
               | None => replicate (length (items oy)) 1%float
               | Some s => select keep (items (heap w !!! s))
               end ∧
    Forall (λ v, ne_zero v = true) (items oy) ∧
    length (items ox) = length (items oy) ∧
    length (items oy) = length (items os) ∧
    (∀ l o, heap w !! l = Some o → heap w' !! l = Some o) ∧
    heap w !! x_data self = None ∧ heap w !! y_data self = None ∧
    heap w !! sigma (config self) = None ∧
    solver_calls w' = solver_calls w.
Proof.
  intros Hez Hpos Hx Hy Hs E xs ys keep.
  pose proof (init_cases a w Hx Hy Hs) as Hc. rewrite E in Hc.
  destruct Hc as ((G & ox & oy & os & Lx & Fx & Ly & Fy & Lsg & Fsg & Bx & By & Bs) & _).
  assert (mask_bits (init_mask a w) = keep) as Hbits
    by (by rewrite init_mask_bits, Hez).
  assert (∀ l o, l ∈ init_targets a →
            bool_index (as_ndarray (heap w !!! l)) (init_mask a w) = Ok o →
            items o = select keep (items (heap w !!! l)) ∧
            length keep = length (items (heap w !!! l))) as Hsel.
  { intros l o Hl Hb. apply bool_index_inv in Hb as (bits & Hb & Hlen & ->).
    rewrite (selector_by_position a w l Hpos Hl), Hbits in Hb. injection Hb as <-.
    rewrite as_ndarray_items in *. by split. }
  destruct (Hsel _ _ (list_elem_of_here _ _) Bx) as [Ix Kx].
  destruct (Hsel (a_y_data a) _ (list_elem_of_further _ _ _ (list_elem_of_here _ _)) By)
    as [Iy Ky].
  fold xs in Ix, Kx. fold ys in Iy, Ky.
  assert (items os = match a_sigma a with
                     | None => replicate (length (items oy)) 1%float
                     | Some s => select keep (items (heap w !!! s))
                     end ∧ length (items oy) = length (items os)) as [Is Ls].
  { unfold init_targets in Hsel. destruct (a_sigma a) as [s|].
    - destruct (Hsel s os) as [Is Ks]; [|done|].
      { by do 2 apply list_elem_of_further; apply list_elem_of_here. }
      split; [done|]. rewrite Iy, Is. apply select_length_eq; congruence.
    - subst os. simpl. split; [done|]. by rewrite length_replicate. }
  exists ox, oy, os. split_and!; try done.
  - rewrite Iy. apply select_ne_zero.
  - rewrite Ix, Iy. apply select_length_eq; congruence.
  - intros l o Hl. by eapply heap_grows_lookup.
  - by destruct G.
Qed.


(** C9. The [x_data], [y_data] and [sigma] of a [FitResults] created from
    an estimator are fresh objects with the content of the estimator's
    arrays: an assignment into an array of the estimator leaves every array
    of the result as it was, and an assignment into an array of the result
    leaves every array of the estimator as it was. *)
Theorem FitResults_init_copies (est : SingleFitter) (m : option model_fn) (w : world) :
  live w (x_data est) → live w (y_data est) → live w (sigma (config est)) →
  ∃ r w' lx ly ls,
    FitResults_init (Some est) m w = (Ok r, w') ∧
    data_x_data r = Some lx ∧ data_y_data r = Some ly ∧ data_sigma r = Some ls ∧
    heap w' !! lx = heap w !! x_data est ∧
    heap w' !! ly = heap w !! y_data est ∧
    heap w' !! ls = heap w !! sigma (config est) ∧
    (∀ l, l ∈ estimator_arrays est → heap w' !! l = heap w !! l) ∧
    ∀ le lr i v w'',
      le ∈ estimator_arrays est → lr ∈ result_arrays r →
      (setitem le i v w' = (Ok tt, w'') → heap w'' !! lr = heap w' !! lr) ∧
      (setitem lr i v w' = (Ok tt, w'') → heap w'' !! le = heap w' !! le).
Proof.
  intros Hx Hy Hs.
  destruct (FitResults_init_Some est m w Hx Hy Hs)
    as (lx & ly & ls & w' & E & G & Fx & Fy & Fs & Cx & Cy & Cs).
  eexists _, w', lx, ly, ls. split; [exact E|]. simpl.
  split_and!; try done.
  - intros l Hl. unfold estimator_arrays in Hl.
    assert (live w l) as [o Ho].
    { repeat (apply elem_of_cons in Hl as [-> | Hl]; [done|]).
      by apply elem_of_nil in Hl. }
    rewrite Ho. by apply (heap_grows_lookup w w').
  - intros le lr i v w'' Hle Hlr.
    assert (live w le) as [o Ho].
    { unfold estimator_arrays in Hle.
      repeat (apply elem_of_cons in Hle as [-> | Hle]; [done|]).
      by apply elem_of_nil in Hle. }
    assert (heap w !! lr = None) as Hr.
    { unfold result_arrays in Hlr. simpl in Hlr.
      repeat (apply elem_of_cons in Hlr as [-> | Hlr]; [done|]).
      by apply elem_of_nil in Hlr. }
    assert (lr ≠ le) as Hne by congruence.
    split; intros Hset; eapply setitem_frame; eauto.
Qed.

Lemma draws_run n w :
  draws n w =
  (Ok (draws_from (draw_float (rng w)) (pos (rng w)) n),
   match n with O => w | S _ => set_rng (advance n (rng w)) w end).
Proof.
  revert w. induction n as [|n IH]; intros w; [done|].
  cbn [draws]. rewrite bind_run. unfold np_random_random at 1. cbv zeta.
  rewrite bind_run, IH. cbn [draws_from]. simpl rng. simpl pos. simpl draw_float.
  unfold mret, M_ret. f_equal.
  destruct n as [|n]; unfold advance, set_rng; simpl.
  - do 2 f_equal. lia.
  - do 2 f_equal. lia.
Qed.

Lemma draws_from_length f p n : length (draws_from f p n) = n.
Proof. revert p. induction n; intros p; simpl; auto. Qed.

Lemma nan_series_of_dict (ms : metrics_t) :
  series_of_dict ((λ nf, (nf.1, nan)) <$> ms) = mk_Series ms.*1 (replicate (length ms) nan).
Proof.
  unfold series_of_dict. f_equal.
  - induction ms as [|[n f] ms IH]; simpl; [done|]. by f_equal.
  - induction ms as [|[n f] ms IH]; simpl; [done|]. by f_equal.
Qed.

Lemma finalize_nan ps mtr :
  finalize ps (np_full_nan (length ps), np_full_nan2 (length ps) (length ps),
               nan_metrics mtr) = Ok (nan_output ps mtr).
Proof.
  unfold finalize, pd_Series, pd_DataFrame, np_full_nan, np_full_nan2; simpl.
  rewrite !length_replicate.
  destruct (decide (length ps = length ps)); [|done].
  assert (forallb (λ r : list float, bool_decide (length r = length ps))
            (replicate (length ps) (replicate (length ps) nan)) = true) as ->.
  { apply forallb_forall. intros r Hr. apply list_elem_of_In in Hr.
    apply elem_of_replicate in Hr as [-> _]. rewrite length_replicate.
    by apply bool_decide_eq_true. }
  unfold nan_output. do 2 f_equal.
  destruct mtr as [ms|]; simpl; [|done]. by rewrite nan_series_of_dict.
Qed.

Lemma try_block_run mdl ps x y sg bnds mtr guess kwargs w :
  let p0 := if falsy guess
            then draws_from (draw_float (rng w)) (pos (rng w)) (length ps)
            else update_none guess [] in
  let w1 := if falsy guess
            then match length ps with
                 | O => w
                 | S _ => set_rng (advance (length ps) (rng w)) w
                 end
            else w in
  let c := mk_call mdl x y sg bnds p0 (update_none kwargs ∅) in
  try_except (fit_try mdl ps x y sg bnds mtr guess kwargs) (fit_except ps x y sg mtr) w =
  match attempt c mtr with
  | Ok raw => (Ok raw, add_call c w1)
  | Raise e =>
      (Ok (np_full_nan (length ps), np_full_nan2 (length ps) (length ps), nan_metrics mtr),
       add_log (failure_warning e x y sg) (add_call c w1))
  end.
Proof.
  intros p0 w1 c. unfold try_except, fit_try. rewrite bind_run.
  assert ((if falsy guess then draws (length ps) else mret (update_none guess [])) w
          = (Ok p0, w1)) as ->.
  { subst p0 w1. destruct (falsy guess); [apply draws_run | done]. }
  rewrite bind_run. unfold call_curve_fit. rewrite bind_run.
  change (modify (add_call (mk_call mdl x y sg bnds p0 (update_none kwargs ∅))) w1)
    with (Ok tt, add_call c w1).
  cbv iota beta. rewrite lift_run. fold c. unfold attempt.
  destruct (curve_fit c) as [[params pcov]|e]; [|done].
  destruct mtr as [ms|]; [|done].
  rewrite bind_run, bind_run, lift_run.
  destruct (eval_metrics ms params) as [d|e]; done.
Qed.

Lemma labelling_run ps (raw : raw_fit) w :
  (let '(params, pcov, metrics_res) := raw in
   s ← lift (pd_Series params ps);
   pc ← lift (pd_DataFrame pcov ps ps);
   mret (mk_fit_output s pc metrics_res)) w = (finalize ps raw, w).
Proof.
  destruct raw as [[params pcov] m]. unfold finalize. simpl.
  rewrite bind_run, lift_run. destruct (pd_Series params ps); [|done].
  rewrite bind_run, lift_run. destruct (pd_DataFrame pcov ps ps); done.
Qed.

Lemma _fit_run self kw w :
  _fit self kw w =
  match attempt (the_call self kw w) (effective_metrics self kw) with
  | Ok raw => (finalize (effective_parameters self kw) raw, after_call self kw w)
  | Raise e =>
      (Ok (nan_output (effective_parameters self kw) (effective_metrics self kw)),
       add_log (failure_warning e (effective_x self kw w) (effective_y self kw w)
                  (sigma_for_solver (effective_x self kw w) (effective_sigma self kw w)))
         (after_call self kw w))
  end.
Proof.
  unfold _fit. rewrite bind_run, deref_run, bind_run, deref_run, bind_run, deref_run.
  fold (effective_x self kw w) (effective_y self kw w) (effective_sigma self kw w).
  fold (effective_parameters self kw) (effective_metrics self kw) (effective_guess self kw).
  rewrite bind_run.
  set (w0 := if decide (len (effective_x self kw w) ≠ len (effective_sigma self kw w))
             then add_log sigma_note w else w).
  assert ((if decide (len (effective_x self kw w) ≠ len (effective_sigma self kw w))
           then log_debug [Lit "Sigma is ignored as it has different length as x_data"];;
                mret None
           else mret (Some (effective_sigma self kw w))) w
          = (Ok (sigma_for_solver (effective_x self kw w) (effective_sigma self kw w)), w0))
    as ->.
  { subst w0. unfold sigma_for_solver. by destruct (decide _). }
  assert (rng w0 = rng w) as Hr by (subst w0; by destruct (decide _)).
  rewrite bind_run, try_block_run. rewrite Hr.
  unfold the_call, after_call, start_point, effective_bounds, effective_kwargs.
  fold w0.
  match goal with |- context [attempt ?c ?m] => destruct (attempt c m) as [raw|e] end.
  - apply labelling_run.
  - etrans; [apply (labelling_run _ (_, _, _))|]. by rewrite finalize_nan.
Qed.

Lemma point_estimate_run self kw w :
  point_estimate self kw w =
  match _fit self kw w with
  | (Ok r, w') => (Ok r, add_log (DEBUG, [Lit "Point estimation finished"]) w')
  | (Raise e, w') => (Raise e, w')
  end.
Proof.
  unfold point_estimate. rewrite bind_run. by destruct (_fit self kw w) as [[r|e] w'].
Qed.

Lemma after_call_calls self kw w :
  solver_calls (after_call self kw w) = solver_calls w ++ [the_call self kw w].
Proof.
  unfold after_call. simpl. f_equal.
  destruct (falsy _); [destruct (length _)|]; simpl; try case_decide; done.
Qed.

Lemma after_call_logs self kw w :
  logs (after_call self kw w) =
  logs w ++ (if decide (len (effective_x self kw w) ≠ len (effective_sigma self kw w))
             then [sigma_note] else []).
Proof.
  unfold after_call. simpl.
  destruct (falsy _); [destruct (length _)|]; simpl; case_decide; simpl;
    by rewrite ?app_nil_r.
Qed.

Lemma after_call_rng self kw w :
  rng (after_call self kw w) =
  if falsy (effective_guess self kw) then
    match length (effective_parameters self kw) with
    | O => rng w
    | S _ => advance (length (effective_parameters self kw)) (rng w)
    end
  else rng w.
Proof.
  unfold after_call. simpl.
  destruct (falsy _); [destruct (length _)|]; simpl; try case_decide; done.
Qed.

Lemma attempt_Raise c mtr e :
  attempt c mtr = Raise e ↔
  curve_fit c = Raise e ∨
  ∃ params pcov ms, curve_fit c = Ok (params, pcov) ∧ mtr = Some ms ∧
                    eval_metrics ms params = Raise e.
Proof.
  unfold attempt. destruct (curve_fit c) as [[params pcov]|e'].
  - destruct mtr as [ms|].
    + destruct (eval_metrics ms params) as [d|e'] eqn:E.
      * split; [done|]. intros [?|(? & ? & ? & [= <- <-] & [= <-] & ?)]; congruence.
      * split.
        -- intros [= <-]. right. eauto 10.
        -- intros [?|(? & ? & ? & [= <- <-] & [= <-] & ?)]; congruence.
    + split; [done|]. intros [?|(? & ? & ? & ? & ? & ?)]; congruence.
  - split.
    + intros [= <-]. by left.
    + intros [?|(? & ? & ? & ? & ? & ?)]; congruence.
Qed.

(** The all-NaN result, spelled out. *)
Lemma nan_output_spec ps mtr :
  let r := nan_output ps mtr in
  s_index (o_params r) = ps ∧
  s_values (o_params r) = replicate (length ps) nan ∧
  shape (o_pcov r) = (length ps, length ps) ∧
  df_index (o_pcov r) = ps ∧ df_columns (o_pcov r) = ps ∧
  df_data (o_pcov r) = replicate (length ps) (replicate (length ps) nan) ∧
  match mtr with
  | Some ms =>
      ∃ m, o_metrics r = Some m ∧ s_index m = ms.*1 ∧
           s_values m = replicate (length ms) nan
  | None => o_metrics r = None
  end.
Proof.
  simpl. unfold shape, df_index, df_data. simpl.
  rewrite length_zip, length_replicate, Nat.min_id.
  rewrite fst_zip, snd_zip by (rewrite length_replicate; lia).
  split_and!; try done.
  destruct mtr; [eexists; split_and!; done | done].
Qed.

(** C1. When the solver call or the evaluation of a metric raises (the
    solver's [RuntimeError] for non-convergence, a [ValueError], or any other
    exception), [point_estimate] returns normally: parameters that are all
    NaN, one per declared parameter, a P-by-P covariance that is all NaN,
    one NaN per metric, and the log holds a warning with the x, y and sigma
    of the attempt. *)
Theorem point_estimate_failure_is_nan (self : SingleFitter) (kw : fit_kwargs)
    (w : world) (e : exn) :
  let c := the_call self kw w in
  let ps := effective_parameters self kw in
  let mtr := effective_metrics self kw in
  (curve_fit c = Raise e ∨
   ∃ params pcov ms, curve_fit c = Ok (params, pcov) ∧ mtr = Some ms ∧
                     eval_metrics ms params = Raise e) →
  ∃ r w',
    point_estimate self kw w = (Ok r, w') ∧
    solver_calls w' = solver_calls w ++ [c] ∧
    s_index (o_params r) = ps ∧
    s_values (o_params r) = replicate (length ps) nan ∧
    shape (o_pcov r) = (length ps, length ps) ∧
    df_data (o_pcov r) = replicate (length ps) (replicate (length ps) nan) ∧
    match mtr with
    | Some ms =>
        ∃ m, o_metrics r = Some m ∧ s_index m = ms.*1 ∧
             s_values m = replicate (length ms) nan
    | None => o_metrics r = None
    end ∧
    ∃ title,
      (WARNING, [Lit title; Lit "x="; Val (Some (c_xdata c));
                 Lit "y="; Val (Some (c_ydata c)); Lit "sigma="; Val (c_sigma c)])
      ∈ logs w'.
Proof.
  intros c ps mtr Hfail. apply attempt_Raise in Hfail.
  rewrite point_estimate_run, _fit_run. fold c ps mtr. rewrite Hfail.
  destruct (nan_output_spec ps mtr) as (Hi & Hv & Hs & _ & _ & Hd & Hm).
  eexists _, _. split; [done|]. split_and!; try done.
  - simpl. apply after_call_calls.
  - eexists. simpl. rewrite elem_of_app. left. rewrite elem_of_app. right.
    apply list_elem_of_singleton. reflexivity.
Qed.

Lemma finalize_shape ps params pcov m :
  length params = length ps → length pcov = length ps →
  Forall (λ row, length row = length ps) pcov →
  finalize ps (params, pcov, m) =
    Ok (mk_fit_output (mk_Series ps params) (mk_DataFrame ps (zip ps pcov)) m).
Proof.
  intros Hp Hc Hr. unfold finalize, pd_Series, pd_DataFrame. simpl.
  destruct (decide (length params = length ps)); [|done].
  destruct (decide (length pcov = length ps)); [|done].
  assert (forallb (λ r, bool_decide (length r = length ps)) pcov = true) as ->; [|done].
  apply forallb_forall. intros r Hin. apply bool_decide_eq_true.
  rewrite Forall_forall in Hr. apply Hr. by apply list_elem_of_In.
Qed.

(** C7. Whether the solver succeeds or fails, [point_estimate] returns
    parameters labelled by the declared parameter names and a square
    covariance whose row labels and column labels are those names. *)
Theorem point_estimate_labels (self : SingleFitter) (kw : fit_kwargs) (w : world) :
  let ps := effective_parameters self kw in
  solver_shape_ok (length ps) (curve_fit (the_call self kw w)) →
  ∃ r w',
    point_estimate self kw w = (Ok r, w') ∧
    s_index (o_params r) = ps ∧
    length (s_values (o_params r)) = length ps ∧
    df_index (o_pcov r) = ps ∧
    df_columns (o_pcov r) = ps ∧
    shape (o_pcov r) = (length ps, length ps) ∧
    Forall (λ row, length row = length ps) (df_data (o_pcov r)).
Proof.
  intros ps Hshape. rewrite point_estimate_run, _fit_run. fold ps.
  destruct (attempt (the_call self kw w) (effective_metrics self kw))
    as [[[params pcov] m]|e] eqn:Ea.
  - assert (curve_fit (the_call self kw w) = Ok (params, pcov)) as Hc.
    { unfold attempt in Ea.
      destruct (curve_fit (the_call self kw w)) as [[p' c']|]; [|done].
      destruct (effective_metrics self kw); [|congruence].
      destruct (eval_metrics _ _); congruence. }
    rewrite Hc in Hshape. destruct Hshape as (Hp & Hl & Hr).
    rewrite (finalize_shape ps params pcov m Hp Hl Hr).
    eexists _, _. split; [done|]. unfold shape, df_index, df_data. simpl.
    rewrite length_zip, fst_zip, snd_zip by lia.
    split_and!; try done. f_equal. lia.
  - destruct (nan_output_spec ps (effective_metrics self kw))
      as (Hi & Hv & Hs & Hx & Hcol & Hd & _).
    eexists _, _. split; [done|]. split_and!; try done.
    + rewrite Hv. by rewrite length_replicate.
    + rewrite Hd. apply Forall_forall. intros row Hin.
      apply elem_of_replicate in Hin as [-> _]. by rewrite length_replicate.
Qed.

Lemma point_estimate_world self kw w :
  ∃ r rest,
    point_estimate self kw w =
      (r, mk_world (heap w) (rng (after_call self kw w)) (verbosity w)
            (logs (after_call self kw w) ++ rest)
            (solver_calls w ++ [the_call self kw w]) (fs w)) ∧
    r = match attempt (the_call self kw w) (effective_metrics self kw) with
        | Ok raw => finalize (effective_parameters self kw) raw
        | Raise _ =>
            Ok (nan_output (effective_parameters self kw) (effective_metrics self kw))
        end.
Proof.
  rewrite point_estimate_run, _fit_run.
  assert (∀ w1 : world, w1 = mk_world (heap w1) (rng w1) (verbosity w1) (logs w1)
                                (solver_calls w1) (fs w1)) as Heta by (by intros []).
  assert (heap (after_call self kw w) = heap w ∧
          verbosity (after_call self kw w) = verbosity w ∧
          fs (after_call self kw w) = fs w) as (Hh & Hv & Hf).
  { unfold after_call. simpl.
    destruct (falsy _); [destruct (length _)|]; simpl; try case_decide; done. }
  destruct (attempt _ _) as [raw|e].
  - destruct (finalize _ raw) as [r|e].
    + eexists _, [_]. split; [|done].
      f_equal. unfold add_log. by rewrite Hh, Hv, Hf, after_call_calls.
    + eexists _, []. split; [|done]. f_equal.
      rewrite app_nil_r, <- Hh, <- Hv, <- Hf, <- after_call_calls. apply Heta.
  - eexists _, [_; _]. split; [|done]. f_equal. unfold add_log.
    cbn [heap rng verbosity logs solver_calls fs].
    rewrite Hh, Hv, Hf, after_call_calls. by rewrite <- app_assoc.
Qed.

(** C8. With no initial guess in the arguments and none in the
    configuration, the starting point handed to the solver consists of one
    value of [np.random.random()] per model parameter, drawn one after the
    other (the generator advances by exactly that many values); a supplied
    non-empty guess, from the arguments or else from the configuration, is
    handed over as it is and the generator is not touched. *)
Theorem point_estimate_initial_guess (self : SingleFitter) (kw : fit_kwargs) (w : world) :
  let ps := effective_parameters self kw in
  ∃ c r w',
    point_estimate self kw w = (r, w') ∧
    solver_calls w' = solver_calls w ++ [c] ∧
    (kw_init_guess kw = None → init_guess (config self) = None →
     c_p0 c = draws_from (draw_float (rng w)) (pos (rng w)) (length ps) ∧
     length (c_p0 c) = length ps ∧
     pos (rng w') = (pos (rng w) + length ps)%nat ∧
     draw_float (rng w') = draw_float (rng w)) ∧
    (∀ g, kw_init_guess kw = Some g → g ≠ [] → c_p0 c = g ∧ rng w' = rng w) ∧
    (∀ g, kw_init_guess kw = None → init_guess (config self) = Some g → g ≠ [] →
          c_p0 c = g ∧ rng w' = rng w).
Proof.
  intros ps. destruct (point_estimate_world self kw w) as (r & rest & E & _).
  eexists (the_call self kw w), r, _. split; [exact E|].
  cbn [solver_calls rng]. split; [done|].
  rewrite after_call_rng. unfold the_call, start_point, effective_guess.
  cbn [c_p0]. fold ps. split_and!.
  - intros -> ->. simpl. rewrite draws_from_length.
    split_and!; [done | done | |]; destruct (length ps); simpl; auto with lia.
  - intros g -> Hg. simpl. by destruct g.
  - intros g -> -> Hg. simpl. by destruct g.
Qed.

(** C10. When the effective sigma and the effective x differ in length, the
    attempt goes on: the solver is called with the data as they are and with
    [sigma=None], the result is that of this unweighted call, and the
    mismatch is recorded as a DEBUG entry of the log. *)
Theorem point_estimate_sigma_mismatch (self : SingleFitter) (kw : fit_kwargs)
    (w : world) :
  len (effective_x self kw w) ≠ len (effective_sigma self kw w) →
  ∃ c r w' rest,
    point_estimate self kw w = (r, w') ∧
    solver_calls w' = solver_calls w ++ [c] ∧
    c_sigma c = None ∧
    c_xdata c = effective_x self kw w ∧
    c_ydata c = effective_y self kw w ∧
    r = match attempt c (effective_metrics self kw) with
        | Ok raw => finalize (effective_parameters self kw) raw
        | Raise _ =>
            Ok (nan_output (effective_parameters self kw) (effective_metrics self kw))
        end ∧
    logs w' =
      logs w ++
      (DEBUG, [Lit "Sigma is ignored as it has different length as x_data"]) :: rest.
Proof.
  intros Hne. destruct (point_estimate_world self kw w) as (r & rest & E & Hr).
  eexists (the_call self kw w), r, _, rest. split; [exact E|].
  cbn [solver_calls logs]. split_and!; try done.
  - unfold the_call, sigma_for_solver. cbn [c_sigma]. by destruct (decide _).
  - rewrite after_call_logs. destruct (decide _); [|done].
    by rewrite <- app_assoc.
Qed.

(** *** Sampling rows *)

Lemma sample_without_replacement_spec {A} (n : nat) (pool : list A) (w : world) :
  (n ≤ length pool)%nat →
  ∃ picked rest,
    sample_without_replacement n pool w =
      (Ok picked, match n with O => w | S _ => set_rng (advance n (rng w)) w end) ∧
    length picked = n ∧ picked ++ rest ≡ₚ pool.
Proof.
  revert pool w. induction n as [|n IH]; intros pool w Hn.
  - exists [], pool. by split_and!.
  - cbn [sample_without_replacement]. rewrite bind_run.
    unfold np_random_index at 1. cbv zeta.
    set (k := (draw_index (rng w) (pos (rng w)) mod length pool)%nat).
    assert (k < length pool)%nat as Hk by (apply Nat.mod_upper_bound; lia).
    destruct (lookup_lt_is_Some_2 pool k Hk) as [r Hr]. rewrite Hr.
    set (w1 := set_rng _ w).
    destruct (IH (delete k pool) w1) as (picked & rest & E & Hl & Hp).
    { rewrite length_delete by eauto. lia. }
    rewrite bind_run, E. exists (r :: picked), rest. split_and!.
    + unfold mret, M_ret. f_equal. subst w1.
      destruct n; unfold advance, set_rng; simpl; do 2 f_equal; lia.
    + simpl. by rewrite Hl.
    + simpl. rewrite Hp. symmetry. by apply delete_Permutation.
Qed.

(** C5 (amended). Let the bootstrap run return a record table of N rows.
    If the effective [bs_record_num] k satisfies 0 <= k <= N, the table
    [run_bootstrap] returns has k rows, drawn without replacement from the N
    rows (together with the rows left out they are a rearrangement of the N
    rows) and the same columns; if k is negative all N rows are returned.
    The effective value is the argument, and the configured value when no
    argument is given. *)
Theorem run_bootstrap_subsamples (self : SingleFitter) (record_num : option Z)
    (kwargs : bootstrap_kwargs) (w w1 : world) (b : Bootstrap)
    (summary : Series) (records : DataFrame) (k : Z) :
  bootstrap_object self kwargs = Ok b →
  Bootstrap_run b (with_bootstrap (Some b) self) w = (Ok (summary, records), w1) →
  effective_record_num self record_num = Some k →
  (0 ≤ k ≤ Z.of_nat (length (df_rows records)) →
   ∃ kept rest w',
     run_bootstrap self record_num kwargs w =
       (Ok (with_bootstrap (Some b) self, (summary, kept)), w') ∧
     Z.of_nat (length (df_rows kept)) = k ∧
     df_columns kept = df_columns records ∧
     df_rows kept ++ rest ≡ₚ df_rows records) ∧
  (k < 0 →
   ∃ w',
     run_bootstrap self record_num kwargs w =
       (Ok (with_bootstrap (Some b) self, (summary, records)), w')).
Proof.
  intros Hb Hrun Hk. unfold run_bootstrap.
  fold (effective_record_num self record_num). rewrite Hk.
  assert (match bootstrap self with
          | Some b0 => mret (update_bootstrap kwargs b0)
          | None => lift (Bootstrap_new kwargs)
          end w = (Ok b, w)) as Hstep.
  { unfold bootstrap_object in Hb. destruct (bootstrap self).
    - by injection Hb as ->.
    - by rewrite lift_run, Hb. }
  rewrite bind_run, Hstep, bind_run, Hrun. cbv iota beta.
  split.
  - intros [Hlo Hhi].
    assert ((0 <=? k) && (k <=? Z.of_nat (shape records).1) = true) as ->.
    { apply andb_true_iff. split; [by apply Z.leb_le | by apply Z.leb_le]. }
    rewrite bind_run. unfold df_sample. rewrite bind_run.
    destruct (sample_without_replacement_spec (Z.to_nat k) (df_rows records) w1)
      as (picked & rest & E & Hl & Hp); [lia|].
    rewrite E. unfold mret at 1, M_ret at 1. cbv iota beta.
    rewrite bind_run.
    eexists (mk_DataFrame (df_columns records) picked), rest, _.
    split_and!; [reflexivity | simpl; lia | done | done].
  - intros Hneg.
    assert ((0 <=? k) && (k <=? Z.of_nat (shape records).1) = false) as ->.
    { apply andb_false_iff. left. by apply Z.leb_gt. }
    rewrite bind_run. eexists. reflexivity.
Qed.

(** *** Steps that neither fit, nor draw, nor write *)

Lemma quiet_ret {A} (a : A) : quiet (mret a : M A).
Proof. by intros w. Qed.

Lemma quiet_raise {A} (e : exn) : quiet (raise e : M A).
Proof. by intros w. Qed.

Lemma quiet_lift {A} (o : outcome A) : quiet (lift o).
Proof. by intros w. Qed.

Lemma quiet_bind {A B} (m : M A) (k : A → M B) :
  quiet m → (∀ a, quiet (k a)) → quiet (m ≫= k).
Proof.
  intros Hm Hk w. rewrite bind_run. destruct (Hm w) as (Hc & Hr & Hf).
  destruct (m w) as [[a|e] w1]; simpl in *.
  - destruct (Hk a w1) as (Hc' & Hr' & Hf'). split_and!; congruence.
  - done.
Qed.

Lemma quiet_deref l : quiet (deref l).
Proof. by intros w. Qed.

Lemma quiet_alloc o : quiet (alloc o).
Proof. by intros w. Qed.

Lemma quiet_log_debug msg : quiet (log_debug msg).
Proof. by intros w. Qed.

Lemma quiet_logging_error {A} msg e : quiet (logging_error msg e : M A).
Proof. by intros w. Qed.

Lemma quiet_read_json path : quiet (read_json path).
Proof. intros w. unfold read_json. by destruct (fs w !! path) as [[|d]|]. Qed.

Lemma quiet_FitResults_init est m : quiet (FitResults_init est m).
Proof.
  destruct est as [est|]; [|apply quiet_ret]. unfold FitResults_init, copy.
  repeat (apply quiet_bind; [|intros ?]);
    auto using quiet_deref, quiet_alloc, quiet_ret.
Qed.

Lemma quiet_load_leaf {T} block key (reader : string → outcome T) store result :
  quiet (load_leaf block key reader store result).
Proof.
  unfold load_leaf. apply quiet_bind; [apply quiet_lift|]. intros [j|].
  - apply quiet_bind; [apply quiet_lift | intros; apply quiet_ret].
  - apply quiet_ret.
Qed.

Lemma quiet_load_array block key old : quiet (load_array block key old).
Proof.
  unfold load_array. apply quiet_bind; [apply quiet_lift|]. intros [j|].
  - apply quiet_bind; [apply quiet_lift | intros s].
    apply quiet_bind; [apply quiet_alloc | intros; apply quiet_ret].
  - apply quiet_ret.
Qed.

Lemma quiet_load_label block key old : quiet (load_label block key old).
Proof.
  unfold load_label. apply quiet_bind; [apply quiet_lift|].
  intros [j|]; apply quiet_ret.
Qed.

Lemma quiet_uncertainty_label block : quiet (uncertainty_label block).
Proof.
  unfold uncertainty_label.
  repeat (destruct (has_key _ _); [apply quiet_ret|]). apply quiet_logging_error.
Qed.

Lemma quiet_from_json path est data : quiet (from_json path est data).
Proof.
  unfold from_json.
  apply quiet_bind; [apply quiet_read_json | intros json_data].
  apply quiet_bind; [apply quiet_FitResults_init | intros r0].
  apply quiet_bind.
  { destruct (json_data !! "point_estimation"); [|apply quiet_ret].
    apply quiet_bind; [apply quiet_load_leaf | intros; apply quiet_load_leaf]. }
  intros r1. apply quiet_bind.
  { destruct (json_data !! "uncertainty"); [|apply quiet_ret].
    apply quiet_bind; [apply quiet_load_leaf | intros r].
    apply quiet_bind; [apply quiet_uncertainty_label | intros label].
    apply quiet_bind; [apply quiet_load_leaf | intros r'].
    destruct (has_key _ _); [apply quiet_load_leaf | apply quiet_ret]. }
  intros r2. apply quiet_bind.
  { destruct (json_data !! "convergence"); [|apply quiet_ret].
    apply quiet_bind; [apply quiet_load_leaf | intros; apply quiet_load_leaf]. }
  intros r3. destruct (json_data !! "data").
  - repeat (apply quiet_bind;
            [first [apply quiet_load_array | apply quiet_load_label] | intros ?]).
    apply quiet_ret.
  - destruct data; apply quiet_ret.
Qed.

(** C4 (amended). With a [save_to] path set, [overwrite] false and a file at
    that path: when the file loads, [fit] installs the loaded results and
    returns without entering the fitting stages: no solver call, no draw,
    no write; when the file is not parseable as JSON, [fit] goes on to the
    fitting stages exactly as it does when there is nothing to resume. *)
Theorem fit_resumes_or_refits (self : SingleFitter)
    (do_point do_replicates do_bootstrap do_convergence : bool)
    (kwargs : fit_call_kwargs) (w : world) (p : string) :
  nonempty (update_none (fk_save_to kwargs) (save_to self)) = Some p →
  update_none (fk_overwrite kwargs) (overwrite self) = false →
  is_Some (fs w !! p) →
  let w0 := add_log (DEBUG, [Lit "Try to recover info from the saved file..."]) w in
  (∀ res w1,
     from_json p (Some self) None w0 = (Ok res, w1) →
     ∃ w',
       fit self do_point do_replicates do_bootstrap do_convergence kwargs w =
         (Ok (with_results res self, false), w') ∧
       solver_calls w' = solver_calls w ∧ rng w' = rng w ∧ fs w' = fs w) ∧
  (fs w !! p = Some Unparseable →
   fit self do_point do_replicates do_bootstrap do_convergence kwargs w =
     (self' ← perform_fitting self do_point do_replicates do_bootstrap do_convergence
                kwargs;
      mret (self', true))
       (add_log (DEBUG, [Lit "Can not parse JSON file, continue fitting..."]) w0)).
Proof.
  intros Hp Ho Hex w0. unfold fit. rewrite Hp, Ho. rewrite bind_run.
  unfold path_exists. rewrite (bool_decide_eq_true_2 _ Hex). cbv iota beta.
  rewrite bind_run. unfold try_resume, try_except. rewrite bind_run.
  change (log_debug [Lit "Try to recover info from the saved file..."] w)
    with (Ok tt, w0). cbv iota beta. rewrite bind_run.
  split.
  - intros res w1 E. rewrite E. rewrite bind_run.
    change (log_debug [Lit "Found, skip fitting..."] w1)
      with (Ok tt, add_log (DEBUG, [Lit "Found, skip fitting..."]) w1).
    cbv iota beta. unfold mret at 1, M_ret at 1. cbv iota beta.
    eexists. split; [reflexivity|].
    destruct (quiet_from_json p (Some self) None w0) as (Hc & Hr & Hf).
    rewrite E in Hc, Hr, Hf. simpl in *. done.
  - intros Hbad.
    assert (from_json p (Some self) None w0 = (Raise JSONDecodeError, w0)) as ->.
    { unfold from_json. rewrite bind_run. unfold read_json.
      change (fs w0) with (fs w). by rewrite Hbad. }
    reflexivity.
Qed.

(** *** Serialisation *)

Lemma jsonfy_array_run o w : jsonfy_array o w = (Ok (array_leaf w o), w).
Proof.
  unfold jsonfy_array, array_leaf. destruct o as [l|]; [|done].
  rewrite bind_run, deref_run. by destruct (kind (heap w !!! l)).
Qed.

Lemma to_json_run r path w :
  to_json r (Some path) w =
  (Ok None, set_fs (<[path := Json (document w r)]> (fs w)) w).
Proof.
  unfold to_json, data_to_dump.
  rewrite !bind_run, jsonfy_array_run. cbv iota beta.
  rewrite !bind_run, jsonfy_array_run. cbv iota beta.
  rewrite !bind_run, jsonfy_array_run. cbv iota beta.
  reflexivity.
Qed.

Lemma load_leaf_run {T} block key (reader : string → outcome T) store result w leaf :
  block !! key = Some leaf →
  load_leaf block key reader store result w =
  match leaf with
  | None => (Ok result, w)
  | Some j =>
      match reader j with
      | Ok v => (Ok (store (Some v) result), w)
      | Raise e => (Raise e, w)
      end
  end.
Proof.
  intros Hk. unfold load_leaf, getitem. rewrite bind_run, lift_run, Hk.
  destruct leaf as [j|]; [|done]. rewrite bind_run, lift_run.
  by destruct (reader j).
Qed.

Lemma load_label_run block key old w leaf :
  block !! key = Some leaf →
  ∃ l, load_label block key old w = (Ok l, w).
Proof.
  intros Hk. unfold load_label, getitem. rewrite bind_run, lift_run, Hk.
  destruct leaf; by eauto.
Qed.

Lemma FitResults_init_blank est m w :
  ∃ r0 w', FitResults_init est m w = (Ok r0, w') ∧
           pe_params r0 = None ∧ unc_bs_records r0 = None ∧ conv_records r0 = None ∧
           fs w' = fs w.
Proof.
  destruct est as [est|]; [|by eexists _, _].
  unfold FitResults_init.
  destruct (copy_spec (x_data est) w) as (lx & Ex & _).
  rewrite bind_run, Ex. set (w1 := set_heap _ w).
  destruct (copy_spec (y_data est) w1) as (ly & Ey & _).
  rewrite bind_run, Ey. set (w2 := set_heap _ w1).
  destruct (copy_spec (sigma (config est)) w2) as (ls & Es & _).
  rewrite bind_run, Es. by eexists _, _.
Qed.

Ltac key_lookup := vm_compute; reflexivity.

Lemma has_key_lookup {V} (d : gmap string V) k v : d !! k = Some v → has_key d k = true.
Proof. intros E. unfold has_key. apply bool_decide_eq_true. by rewrite E. Qed.

Lemma has_key_missing {V} (d : gmap string V) k : d !! k = None → has_key d k = false.
Proof.
  intros E. unfold has_key. apply bool_decide_eq_false. rewrite E.
  by intros [? ?].
Qed.

Lemma load_leaf_reread {T} block key (reader : string → outcome T) store result w leaf :
  block !! key = Some leaf →
  load_leaf block key reader store result w =
  match reread reader leaf with
  | Ok o => (Ok (match o with Some v => store (Some v) result | None => result end), w)
  | Raise e => (Raise e, w)
  end.
Proof.
  intros Hk. rewrite (load_leaf_run _ _ _ _ _ _ leaf Hk). unfold reread.
  destruct leaf as [j|]; [|done]. by destruct (reader j).
Qed.

Lemma load_array_reread block key old w leaf :
  block !! key = Some leaf →
  match reread read_series leaf with
  | Ok _ => ∃ l w', load_array block key old w = (Ok l, w')
  | Raise e => load_array block key old w = (Raise e, w)
  end.
Proof.
  intros Hk. unfold load_array, getitem, reread. rewrite bind_run, lift_run, Hk.
  destruct leaf as [j|]; [|by eauto].
  rewrite bind_run, lift_run. destruct (read_series j) as [v|e]; [|done].
  destruct (alloc_spec (mk_pyarr KSeries (s_index v) (s_values v)) w) as (l & E & _).
  rewrite bind_run, E. by eauto.
Qed.

Lemma leaf_readable_reread {T} (reader : string → outcome T) leaf :
  leaf_readable reader leaf ↔ ∃ o, reread reader leaf = Ok o.
Proof.
  unfold leaf_readable, reread. split.
  - intros H. destruct leaf as [t|]; [|by eauto].
    destruct (H t eq_refl) as [v ->]. by eauto.
  - intros [o Ho] t ->. destruct (reader t); [by eauto | done].
Qed.

Ltac unreadable H E :=
  apply leaf_readable_reread in H as [? H]; rewrite E in H; discriminate H.

(** Loading a file that holds the document of [r]: the load returns exactly
    when every text of the document can be read, and the three tables are
    then what the readers make of those texts. *)
Lemma from_json_document r path est data w w0 :
  fs w !! path = Some (Json (document w0 r)) →
  match from_json path est data w with
  | (Ok r', _) =>
      leaves_readable w0 r ∧
      reread_series (pe_params r) = Ok (pe_params r') ∧
      reread_frame (unc_bs_records r) = Ok (unc_bs_records r') ∧
      reread_frame (conv_records r) = Ok (conv_records r')
  | (Raise _, _) => ¬ leaves_readable w0 r
  end.
Proof.
  intros Hf. unfold from_json. rewrite bind_run.
  assert (read_json path w = (Ok (document w0 r), w)) as ->.
  { unfold read_json. by rewrite Hf. }
  destruct (FitResults_init_blank est None w) as (r0 & w2 & E0 & P0 & B0 & C0 & _).
  rewrite bind_run, E0, bind_run.
  unfold reread_series, reread_frame.
  (* point_estimation *)
  set (pe := {[ "params" := jsonfy_series (pe_params r);
                "pcov" := jsonfy_frame (pe_pcov r) ]} : gmap string (option string)).
  assert (document w0 r !! "point_estimation" = Some pe) as -> by key_lookup.
  rewrite bind_run.
  assert (pe !! "params" = Some (jsonfy_series (pe_params r))) as Kp by key_lookup.
  rewrite (load_leaf_reread _ _ _ _ _ _ _ Kp).
  destruct (reread read_series (jsonfy_series (pe_params r))) as [o1|e] eqn:E1.
  2:{ intros (H & _). unreadable H E1. }
  assert (pe !! "pcov" = Some (jsonfy_frame (pe_pcov r))) as Kc by key_lookup.
  rewrite (load_leaf_reread _ _ _ _ _ _ _ Kc).
  destruct (reread read_frame (jsonfy_frame (pe_pcov r))) as [o2|e] eqn:E2.
  2:{ intros (_ & H & _). unreadable H E2. }
  rewrite bind_run.
  (* uncertainty *)
  set (un := {[ "summary" := jsonfy_series (unc_summary r);
                "bs_records" := jsonfy_frame (unc_bs_records r);
                "rep_results" := jsonfy_frame (unc_rep_results r) ]}
             : gmap string (option string)).
  assert (document w0 r !! "uncertainty" = Some un) as -> by key_lookup.
  rewrite bind_run.
  assert (un !! "summary" = Some (jsonfy_series (unc_summary r))) as Ks by key_lookup.
  rewrite (load_leaf_reread _ _ _ _ _ _ _ Ks).
  destruct (reread read_series (jsonfy_series (unc_summary r))) as [o3|e] eqn:E3.
  2:{ intros (_ & _ & H & _). unreadable H E3. }
  rewrite bind_run.
  assert (un !! "bs_records" = Some (jsonfy_frame (unc_bs_records r))) as Kb
    by key_lookup.
  assert (uncertainty_label un w2 = (Ok "bs_records", w2)) as ->.
  { unfold uncertainty_label.
    rewrite (has_key_missing un "record") by key_lookup.
    rewrite (has_key_missing un "records") by key_lookup.
    by rewrite (has_key_lookup _ _ _ Kb). }
  rewrite bind_run.
  rewrite (load_leaf_reread _ _ _ _ _ _ _ Kb).
  destruct (reread read_frame (jsonfy_frame (unc_bs_records r))) as [o4|e] eqn:E4.
  2:{ intros (_ & _ & _ & H & _). unreadable H E4. }
  cbv iota beta.
  assert (un !! "rep_results" = Some (jsonfy_frame (unc_rep_results r))) as Kr
    by key_lookup.
  rewrite (has_key_lookup _ _ _ Kr).
  rewrite (load_leaf_reread _ _ _ _ _ _ _ Kr).
  destruct (reread read_frame (jsonfy_frame (unc_rep_results r))) as [o5|e] eqn:E5.
  2:{ intros (_ & _ & _ & _ & H & _). unreadable H E5. }
  cbv iota beta.
  (* convergence *)
  set (cv := {[ "summary" := jsonfy_series (conv_summary r);
                "records" := jsonfy_frame (conv_records r) ]}
             : gmap string (option string)).
  assert (document w0 r !! "convergence" = Some cv) as -> by key_lookup.
  rewrite bind_run.
  assert (cv !! "summary" = Some (jsonfy_series (conv_summary r))) as Kcs by key_lookup.
  rewrite bind_run.
  rewrite (load_leaf_reread _ _ _ _ _ _ _ Kcs).
  destruct (reread read_series (jsonfy_series (conv_summary r))) as [o6|e] eqn:E6.
  2:{ intros (_ & _ & _ & _ & _ & H & _). unreadable H E6. }
  cbv iota beta.
  assert (convergence_label cv = "records") as ->.
  { unfold convergence_label. by rewrite (has_key_missing cv "record") by key_lookup. }
  assert (cv !! "records" = Some (jsonfy_frame (conv_records r))) as Kcr by key_lookup.
  rewrite (load_leaf_reread _ _ _ _ _ _ _ Kcr).
  destruct (reread read_frame (jsonfy_frame (conv_records r))) as [o7|e] eqn:E7.
  2:{ intros (_ & _ & _ & _ & _ & _ & H & _). unreadable H E7. }
  cbv iota beta.
  (* data *)
  set (dt := {[ "x_data" := array_leaf w0 (data_x_data r);
                "y_data" := array_leaf w0 (data_y_data r);
                "sigma" := array_leaf w0 (data_sigma r);
                "x_label" := None; "y_label" := None ]}
             : gmap string (option string)).
  assert (document w0 r !! "data" = Some dt) as -> by key_lookup.
  assert (dt !! "x_data" = Some (array_leaf w0 (data_x_data r))) as Kx by key_lookup.
  assert (dt !! "y_data" = Some (array_leaf w0 (data_y_data r))) as Ky by key_lookup.
  assert (dt !! "sigma" = Some (array_leaf w0 (data_sigma r))) as Kg by key_lookup.
  assert (dt !! "x_label" = Some None) as Kxl by key_lookup.
  assert (dt !! "y_label" = Some None) as Kyl by key_lookup.
  set (r7 := match o7 with Some v => set_conv_records (Some v) _ | None => _ end).
  rewrite bind_run.
  pose proof (load_array_reread dt "x_data" (data_x_data r7) w2 _ Kx) as Hx.
  destruct (reread read_series (array_leaf w0 (data_x_data r))) as [o8|e] eqn:E8.
  2:{ rewrite Hx. intros (_ & _ & _ & _ & _ & _ & _ & H & _). unreadable H E8. }
  destruct Hx as (lx & w3 & ->). rewrite bind_run.
  pose proof (load_array_reread dt "y_data" (data_y_data r7) w3 _ Ky) as Hy.
  destruct (reread read_series (array_leaf w0 (data_y_data r))) as [o9|e] eqn:E9.
  2:{ rewrite Hy. intros (_ & _ & _ & _ & _ & _ & _ & _ & H & _). unreadable H E9. }
  destruct Hy as (ly & w4 & ->). rewrite bind_run.
  pose proof (load_array_reread dt "sigma" (data_sigma r7) w4 _ Kg) as Hg.
  destruct (reread read_series (array_leaf w0 (data_sigma r))) as [o10|e] eqn:E10.
  2:{ rewrite Hg. intros (_ & _ & _ & _ & _ & _ & _ & _ & _ & H). unreadable H E10. }
  destruct Hg as (ls & w5 & ->). rewrite bind_run.
  destruct (load_label_run dt "x_label" (data_x_label r7) w5 _ Kxl) as (xl & ->).
  rewrite bind_run.
  destruct (load_label_run dt "y_label" (data_y_label r7) w5 _ Kyl) as (yl & ->).
  cbv iota beta. unfold mret, M_ret.
  split.
  { unfold leaves_readable. rewrite !leaf_readable_reread.
    split_and!; by eexists. }
  subst r7.
  destruct o1, o2, o3, o4, o5, o6, o7; cbn; rewrite ?P0, ?B0, ?C0; done.
Qed.

Lemma series_round_trip_reread o o' :
  series_round_trip o → reread_series o = Ok o' → o' = o.
Proof.
  intros H. unfold reread_series, reread, jsonfy_series.
  destruct o as [s|]; [|by intros [= <-]].
  destruct (H s eq_refl) as (t & -> & ->). by intros [= <-].
Qed.




End properties.

(** ** Further properties of the module *)

Section construction_properties.
Context {ext : Externals}.

Lemma select_all {A} (l : list A) : select (replicate (length l) true) l = l.
Proof. induction l as [|a l IH]; simpl; [done | by rewrite IH]. Qed.

Lemma mask_all_selects (o r : pyarr) n :
  bool_index o (MArray (replicate n true)) = Ok r →
  items r = items o ∧ n = length (items o).
Proof.
  intros Hb. apply bool_index_inv in Hb as (bits & Hs & Hl & ->).
  rewrite selector_array in Hs. injection Hs as <-.
  rewrite length_replicate in Hl. subst n. split; [|done].
  cbn. apply select_all.
Qed.

(** X1. Without [exclude_zero] nothing is filtered: the estimator stores, in
    objects of its own, the caller's x and y entry for entry (zeros
    included), and as sigma the caller's sigma, or one 1.0 per point when
    none is given. *)
Theorem init_keeps_all_points (a : init_args) (w : world) (self : SingleFitter)
    (w' : world) :
  a_exclude_zero a = false →
  live w (a_x_data a) → live w (a_y_data a) →
  (∀ s, a_sigma a = Some s → live w s) →
  SingleFitter_init a w = (Ok self, w') →
  ∃ ox oy os,
    heap w' !! x_data self = Some ox ∧
    heap w' !! y_data self = Some oy ∧
    heap w' !! sigma (config self) = Some os ∧
    items ox = items (heap w !!! a_x_data a) ∧
    items oy = items (heap w !!! a_y_data a) ∧
    items os = match a_sigma a with
               | None => replicate (len (heap w !!! a_y_data a)) 1%float
               | Some s => items (heap w !!! s)
               end ∧
    heap w !! x_data self = None ∧ heap w !! y_data self = None ∧
    heap w !! sigma (config self) = None.
Proof.
  intros Hez Hx Hy Hs E.
  pose proof (init_cases a w Hx Hy Hs) as Hc. rewrite E in Hc.
  destruct Hc as ((_ & ox & oy & os & Lx & Fx & Ly & Fy & Lsg & Fsg & Bx & By & Bs) & _).
  unfold init_mask in *. rewrite Hez in *.
  apply mask_all_selects in Bx as [Ix _]. apply mask_all_selects in By as [Iy Hxy].
  rewrite as_ndarray_items in *.
  exists ox, oy, os. split_and!; try done.
  destruct (a_sigma a) as [s|].
  - apply mask_all_selects in Bs as [Is _]. by rewrite as_ndarray_items in Is.
  - subst os. unfold len. by rewrite Iy.
Qed.

(** X2. A sigma whose length differs from the length of y makes the
    construction raise (the mask being a numpy array: [exclude_zero] is off
    or y is not a pandas series): no estimator is built around a sigma that
    does not match its data. *)
Theorem init_rejects_sigma_length (a : init_args) (w : world) (s : loc) :
  live w (a_x_data a) → live w (a_y_data a) → live w s →
  a_exclude_zero a = false ∨ kind (heap w !!! a_y_data a) ≠ KSeries →
  a_sigma a = Some s →
  len (heap w !!! s) ≠ len (heap w !!! a_y_data a) →
  ∃ e w', SingleFitter_init a w = (Raise e, w').
Proof.
  intros Hx Hy Hs Hmask Es Hne.
  assert (∀ s', a_sigma a = Some s' → live w s') as Hs'
    by (intros s' E'; rewrite Es in E'; by injection E' as <-).
  pose proof (init_cases a w Hx Hy Hs') as Hc.
  destruct (SingleFitter_init a w) as [[self|e] w']; [|by eauto].
  exfalso. apply Hne.
  destruct Hc as ((_ & ox & oy & os & _ & _ & _ & _ & _ & _ & _ & _ & Bs) & Hxy & _).
  rewrite Es in Bs. apply bool_index_inv in Bs as (bits & Hsel & Hl & _).
  assert (∃ m, init_mask a w = MArray m) as [m Hm].
  { unfold init_mask, ne_zero_mask. destruct (a_exclude_zero a); [|by eexists].
    destruct Hmask as [? | Hk]; [done|].
    destruct (kind (heap w !!! a_y_data a)); [by eexists | by eexists | done]. }
  pose proof (init_mask_bits a w) as Hbits.
  rewrite Hm, selector_array in *. injection Hsel as <-. cbn in Hbits.
  rewrite as_ndarray_items in Hl. unfold len in *. rewrite <- Hl, Hbits.
  destruct (a_exclude_zero a).
  - by rewrite length_fmap.
  - by rewrite length_replicate.
Qed.

(** X3. The results of a newly constructed estimator hold copies of the
    three stored (filtered) arrays, in objects distinct from the
    estimator's and from every object of the caller, together with the
    axis labels; every estimate slot is empty. *)
Theorem init_results_snapshot (a : init_args) (w : world) (self : SingleFitter)
    (w' : world) :
  live w (a_x_data a) → live w (a_y_data a) →
  (∀ s, a_sigma a = Some s → live w s) →
  SingleFitter_init a w = (Ok self, w') →
  ∃ rx ry rs,
    data_x_data (results self) = Some rx ∧
    data_y_data (results self) = Some ry ∧
    data_sigma (results self) = Some rs ∧
    heap w' !! rx = heap w' !! x_data self ∧
    heap w' !! ry = heap w' !! y_data self ∧
    heap w' !! rs = heap w' !! sigma (config self) ∧
    is_Some (heap w' !! rx) ∧ is_Some (heap w' !! ry) ∧ is_Some (heap w' !! rs) ∧
    Forall (λ l, (l ∉ estimator_arrays self) ∧ heap w !! l = None) [rx; ry; rs] ∧
    data_x_label (results self) = a_x_label a ∧
    data_y_label (results self) = a_y_label a ∧
    fr_model (results self) = Some (a_model a) ∧
    pe_params (results self) = None ∧ pe_pcov (results self) = None ∧
    unc_summary (results self) = None ∧ unc_bs_records (results self) = None ∧
    unc_rep_results (results self) = None ∧
    conv_summary (results self) = None ∧ conv_records (results self) = None.
Proof.
  intros Hx Hy Hs E.
  pose proof (init_cases a w Hx Hy Hs) as Hc. rewrite E in Hc.
  destruct Hc as ((_ & ox & oy & os & Lx & _ & Ly & _ & Lsg & _) & Hd).
  destruct Hd as (_ & Hcfg & rx & ry & rs & -> & Cx & Cy & Cs & Hfresh).
  destruct Hcfg as (Hm & _ & _ & _ & _ & _ & _ & _ & Hxl & Hyl & _).
  exists rx, ry, rs. cbn.
  split_and!; try done; try congruence.
  - rewrite Cx, Lx. by eexists.
  - rewrite Cy, Ly. by eexists.
  - rewrite Cs, Lsg. by eexists.
Qed.

(** X4. A bootstrap object is set up at construction exactly when
    [bootstrap_num] is positive and at least two points are stored (after
    the zeros have been dropped, if they are); only then does an absent
    [bs_record_num] become 0 in the configuration, otherwise it stays as
    given. *)
Theorem init_bootstrap_setup (a : init_args) (w : world) (self : SingleFitter)
    (w' : world) :
  live w (a_x_data a) → live w (a_y_data a) →
  (∀ s, a_sigma a = Some s → live w s) →
  SingleFitter_init a w = (Ok self, w') →
  let n := length (kept (init_mask a w) (heap w !!! a_x_data a)) in
  (∃ ox, heap w' !! x_data self = Some ox ∧ len ox = n) ∧
  (a_bootstrap_num a ≤ 0 ∨ (n ≤ 1)%nat →
   bootstrap self = None ∧ bs_record_num (config self) = a_bs_record_num a) ∧
  (0 < a_bootstrap_num a → (2 ≤ n)%nat →
   ∃ b, bootstrap self = Some b ∧
        Bootstrap_new
          (mk_bootstrap_kwargs (Some (a_bs_method a)) (Some (a_bootstrap_num a))
             (Some (update_none (a_bs_record_num a) 0)) (a_grouper a) (a_bs_stats a)
             (Some (a_record_full a))) = Ok b ∧
        bs_record_num (config self) = Some (update_none (a_bs_record_num a) 0)).
Proof.
  intros Hx Hy Hs E n.
  pose proof (init_cases a w Hx Hy Hs) as Hc. rewrite E in Hc.
  destruct Hc as ((_ & ox & oy & os & Lx & _ & _ & _ & _ & _ & Bx & _) & Hd).
  destruct Hd as (_ & Hcfg & _).
  destruct Hcfg as (_ & _ & _ & _ & _ & _ & _ & _ & _ & _ & _ & HB & _).
  fold n in HB. unfold new_bootstrap in HB. split_and!.
  - exists ox. split; [done|]. unfold n, kept, len. by rewrite Bx.
  - intros Hno.
    assert ((0 <? a_bootstrap_num a) && bool_decide (1 < n)%nat = false) as Hf.
    { apply andb_false_iff. destruct Hno as [Hb | Hn].
      - left. by apply Z.ltb_ge.
      - right. apply bool_decide_eq_false. lia. }
    rewrite Hf in HB. by injection HB as <- <-.
  - intros Hb Hn.
    assert ((0 <? a_bootstrap_num a) && bool_decide (1 < n)%nat = true) as Ht.
    { apply andb_true_iff. split; [by apply Z.ltb_lt|].
      apply bool_decide_eq_true. lia. }
    rewrite Ht in HB.
    match type of HB with context [Bootstrap_new ?k] =>
      destruct (Bootstrap_new k) as [b|e] eqn:EB; [|done] end.
    injection HB as <- <-. by exists b.
Qed.

(** X5. An estimator constructed with [bs_record_num=None] and without a
    bootstrap ([bootstrap_num <= 0]) has no record number at all: a later
    [run_bootstrap] that is not given one builds and runs the bootstrap and
    then raises [TypeError] at the comparison with the number of rows, so
    that the results of the run are lost. *)
Theorem run_bootstrap_without_record_num (a : init_args) (w : world)
    (self : SingleFitter) (w' : world) (kwargs : bootstrap_kwargs) (w1 w2 : world)
    (b : Bootstrap) (summary : Series) (records : DataFrame) :
  live w (a_x_data a) → live w (a_y_data a) →
  (∀ s, a_sigma a = Some s → live w s) →
  SingleFitter_init a w = (Ok self, w') →
  a_bs_record_num a = None → a_bootstrap_num a ≤ 0 →
  Bootstrap_new kwargs = Ok b →
  Bootstrap_run b (with_bootstrap (Some b) self) w1 = (Ok (summary, records), w2) →
  run_bootstrap self None kwargs w1 = (Raise TypeError, w2).
Proof.
  intros Hx Hy Hs E Hnone Hnum Hnew Hrun.
  pose proof (init_cases a w Hx Hy Hs) as Hd. rewrite E in Hd.
  destruct Hd as (_ & _ & Hcfg & _).
  destruct Hcfg as (_ & _ & _ & _ & _ & _ & _ & _ & _ & _ & _ & HB & _).
  unfold new_bootstrap in HB.
  assert ((0 <? a_bootstrap_num a) = false) as Hf by (by apply Z.ltb_ge).
  rewrite Hf in HB. cbn in HB. injection HB as HB1 HB2.
  unfold run_bootstrap. rewrite <- HB1, <- HB2, Hnone.
  rewrite bind_run, lift_run, Hnew, bind_run, Hrun. cbv iota beta.
  by rewrite bind_run.
Qed.

(** X6. An estimator constructed without [replicates] has no replicates
    object: [run_replicates] without an argument raises [AttributeError]
    before anything is run, while with an argument it builds the object
    from that argument. *)
Theorem run_replicates_without_replicates (a : init_args) (w : world)
    (self : SingleFitter) (w' : world) :
  live w (a_x_data a) → live w (a_y_data a) →
  (∀ s, a_sigma a = Some s → live w s) →
  SingleFitter_init a w = (Ok self, w') →
  a_replicates a = None →
  (∀ w1, run_replicates self None w1 = (Raise AttributeError, w1)) ∧
  (∀ reps r w1,
     Replicates_new reps = Ok r →
     run_replicates self (Some reps) w1 =
       (res ← Replicates_run r self;
        log_debug [Lit "Uncertainty estimation from replicates"];; mret res) w1).
Proof.
  intros Hx Hy Hs E Hnone.
  pose proof (init_cases a w Hx Hy Hs) as Hd. rewrite E in Hd.
  destruct Hd as (_ & _ & Hcfg & _).
  destruct Hcfg as (_ & _ & _ & _ & _ & _ & _ & _ & _ & _ & HR & _).
  rewrite Hnone in HR. cbn in HR. injection HR as HR.
  split.
  - intros w1. unfold run_replicates. by rewrite <- HR.
  - intros reps r w1 Hnew. unfold run_replicates.
    by rewrite !bind_run, lift_run, Hnew.
Qed.

End construction_properties.

Section fitting_properties.
Context {ext : Externals}.

Lemma eval_metrics_spec (ms : metrics_t) (params : list float) d :
  eval_metrics ms params = Ok d →
  d.*1 = ms.*1 ∧ Forall2 (λ nf v, nf.2 params = Ok v) ms d.*2.
Proof.
  revert d. induction ms as [|[n fn] ms IH]; intros d; simpl.
  - intros [= <-]. split; [done | constructor].
  - destruct (fn params) as [v|e] eqn:Ev; [|done].
    destruct (eval_metrics ms params) as [r|e]; [|done].
    intros [= <-]. destruct (IH r eq_refl) as [Hn Hv].
    rewrite !fmap_cons. cbn. split; [by f_equal | by constructor].
Qed.

(** X7. When the solver returns parameters of the declared shape and every
    metric can be evaluated, [point_estimate] returns exactly the solver's
    parameters and covariance under the declared parameter names, and the
    value of each metric on the fitted parameters under the metric's name,
    in the order of the metrics; the log gains DEBUG entries only. *)
Theorem point_estimate_success (self : SingleFitter) (kw : fit_kwargs) (w : world)
    (params : list float) (pcov : list (list float)) :
  let ps := effective_parameters self kw in
  curve_fit (the_call self kw w) = Ok (params, pcov) →
  solver_shape_ok (length ps) (Ok (params, pcov)) →
  (∀ ms, effective_metrics self kw = Some ms → ∃ d, eval_metrics ms params = Ok d) →
  ∃ r w' new,
    point_estimate self kw w = (Ok r, w') ∧
    o_params r = mk_Series ps params ∧
    df_columns (o_pcov r) = ps ∧ df_index (o_pcov r) = ps ∧
    df_data (o_pcov r) = pcov ∧
    match effective_metrics self kw with
    | Some ms =>
        ∃ m, o_metrics r = Some m ∧ s_index m = ms.*1 ∧
             Forall2 (λ nf v, nf.2 params = Ok v) ms (s_values m)
    | None => o_metrics r = None
    end ∧
    logs w' = logs w ++ new ∧ Forall (λ entry, entry.1 = DEBUG) new.
Proof.
  intros ps Hc (Hp & Hl & Hr) Hm.
  rewrite point_estimate_run, _fit_run. fold ps. unfold attempt. rewrite Hc.
  assert (∀ w1, logs (add_log (DEBUG, [Lit "Point estimation finished"])
                        (after_call self kw w)) = w1 →
                ∃ new, w1 = logs w ++ new ∧ Forall (λ entry, entry.1 = DEBUG) new)
    as Hlog.
  { intros w1 <-. unfold add_log. cbn [logs].
    rewrite after_call_logs, <- app_assoc.
    eexists. split; [done|]. destruct (decide _); repeat constructor. }
  destruct (effective_metrics self kw) as [ms|].
  - destruct (Hm ms eq_refl) as [d Hd]. rewrite Hd.
    rewrite (finalize_shape ps params pcov _ Hp Hl Hr).
    destruct (Hlog _ eq_refl) as (new & Hn & Hall).
    destruct (eval_metrics_spec ms params d Hd) as [Hd1 Hd2].
    eexists _, _, new. split; [done|]. unfold df_index, df_data. simpl.
    rewrite fst_zip, snd_zip by lia. split_and!; try done.
    eexists. split_and!; done.
  - rewrite (finalize_shape ps params pcov _ Hp Hl Hr).
    destruct (Hlog _ eq_refl) as (new & Hn & Hall).
    eexists _, _, new. split; [done|]. unfold df_index, df_data. simpl.
    rewrite fst_zip, snd_zip by lia. by split_and!.
Qed.

(** X8. Every argument of the solver call comes from the keyword of
    [point_estimate] when it is given and from the estimator otherwise;
    for the bounds, leaving the keyword out uses the configured bounds
    while passing [None] makes the fit unbounded.  The call changes no
    array and no file, and the verbosity stays. *)
Theorem point_estimate_overrides (self : SingleFitter) (kw : fit_kwargs) (w : world) :
  ∃ c r w',
    point_estimate self kw w = (r, w') ∧
    solver_calls w' = solver_calls w ++ [c] ∧
    c_f c = update_none (kw_model kw) (model self) ∧
    c_xdata c = heap w !!! update_none (kw_x_data kw) (x_data self) ∧
    c_ydata c = heap w !!! update_none (kw_y_data kw) (y_data self) ∧
    c_bounds c = match kw_bounds kw with
                 | BUnspecified => update_none (bounds (config self)) infinite_bounds
                 | BGiven None => infinite_bounds
                 | BGiven (Some b) => b
                 end ∧
    c_kwargs c = match kw_curve_fit_kwargs kw with
                 | Some k => k
                 | None => update_none (curve_fit_kwargs (config self)) ∅
                 end ∧
    heap w' = heap w ∧ fs w' = fs w ∧ verbosity w' = verbosity w.
Proof.
  destruct (point_estimate_world self kw w) as (r & rest & E & _).
  eexists (the_call self kw w), r, _. split; [exact E|].
  cbn. split_and!; try done.
  - unfold effective_bounds. by destruct (kw_bounds kw) as [|[b|]].
  - unfold effective_kwargs. by destruct (kw_curve_fit_kwargs kw).
Qed.

(** X9. Whatever the record number is, [run_bootstrap] returns once the
    bootstrap has run: a record number k with 0 <= k <= N keeps k of the N
    rows; any other k (negative, or larger than N) hands the table back as
    it is, without drawing anything.  The kept rows are rows of the run,
    the columns are unchanged, and neither the arrays, the files nor the
    record of solver calls are touched after the run. *)
Theorem run_bootstrap_draws (self : SingleFitter) (record_num : option Z)
    (kwargs : bootstrap_kwargs) (w w1 : world) (b : Bootstrap)
    (summary : Series) (records : DataFrame) (k : Z) :
  bootstrap_object self kwargs = Ok b →
  Bootstrap_run b (with_bootstrap (Some b) self) w = (Ok (summary, records), w1) →
  effective_record_num self record_num = Some k →
  let N := length (df_rows records) in
  let sampled := bool_decide (0 ≤ k ≤ Z.of_nat N) in
  ∃ kept w',
    run_bootstrap self record_num kwargs w =
      (Ok (with_bootstrap (Some b) self, (summary, kept)), w') ∧
    length (df_rows kept) = (if sampled then Z.to_nat k else N) ∧
    (sampled = false → kept = records ∧ rng w' = rng w1) ∧
    df_columns kept = df_columns records ∧
    (∀ row, row ∈ df_rows kept → row ∈ df_rows records) ∧
    heap w' = heap w1 ∧ fs w' = fs w1 ∧ solver_calls w' = solver_calls w1.
Proof.
  intros Hb Hrun Hk N sampled. unfold run_bootstrap.
  fold (effective_record_num self record_num). rewrite Hk.
  assert (match bootstrap self with
          | Some b0 => mret (update_bootstrap kwargs b0)
          | None => lift (Bootstrap_new kwargs)
          end w = (Ok b, w)) as Hstep.
  { unfold bootstrap_object in Hb. destruct (bootstrap self).
    - by injection Hb as ->.
    - by rewrite lift_run, Hb. }
  rewrite bind_run, Hstep, bind_run, Hrun. cbv iota beta.
  assert ((0 <=? k) && (k <=? Z.of_nat (shape records).1) = sampled) as ->.
  { subst sampled. unfold shape. cbn [fst]. fold N.
    destruct (bool_decide (0 ≤ k ≤ Z.of_nat N)) eqn:Ed.
    - apply bool_decide_eq_true in Ed. apply andb_true_iff.
      split; apply Z.leb_le; lia.
    - apply bool_decide_eq_false in Ed. apply andb_false_iff.
      destruct (decide (0 ≤ k)); [right | left]; [apply Z.leb_gt | apply Z.leb_gt]; lia. }
  destruct sampled eqn:Es.
  - apply bool_decide_eq_true in Es.
    rewrite bind_run. unfold df_sample. rewrite bind_run.
    destruct (sample_without_replacement_spec (Z.to_nat k) (df_rows records) w1)
      as (picked & rest & E & Hl & Hp); [fold N; lia|].
    rewrite E. unfold mret at 1, M_ret at 1. cbv iota beta.
    rewrite bind_run.
    eexists (mk_DataFrame (df_columns records) picked), _.
    split; [reflexivity|]. cbn. split_and!; try done.
    all: try (destruct (Z.to_nat k); simpl; done || lia).
    intros row Hin. rewrite <- Hp. apply elem_of_app. by left.
  - rewrite bind_run. eexists records, _. split; [reflexivity|].
    cbn. by split_and!.
Qed.

End fitting_properties.

Section fit_properties.
Context {ext : Externals}.

Lemma seed_step self kwargs w :
  match truthy_seed (update_none (fk_rnd_seed kwargs) (rnd_seed (config self))) with
  | Some sd => seed_call sd
  | None => mret tt
  end (add_log (DEBUG, [Lit "Perform fitting..."]) w) =
  match seed_in_effect self kwargs with
  | Some sd =>
      if decide (0 ≤ sd < 2 ^ 32) then (Ok tt, seeded self kwargs w)
      else (Raise ValueError, add_log (DEBUG, [Lit "Perform fitting..."]) w)
  | None => (Ok tt, seeded self kwargs w)
  end.
Proof.
  unfold seeded, seed_in_effect, seed_call.
  destruct (truthy_seed _) as [sd|]; [|done]. by destruct (decide _).
Qed.

Lemma seed_cases self kwargs :
  seed_accepted self kwargs ∨
  ∃ sd, seed_in_effect self kwargs = Some sd ∧ ¬ (0 ≤ sd < 2 ^ 32).
Proof.
  unfold seed_accepted. destruct (seed_in_effect self kwargs) as [sd|]; [|by left].
  destruct (decide (0 ≤ sd < 2 ^ 32)); [left | right; by eauto].
  by intros ? [= <-].
Qed.

Lemma seed_step_accepted self kwargs w :
  seed_accepted self kwargs →
  match truthy_seed (update_none (fk_rnd_seed kwargs) (rnd_seed (config self))) with
  | Some sd => seed_call sd
  | None => mret tt
  end (add_log (DEBUG, [Lit "Perform fitting..."]) w) = (Ok tt, seeded self kwargs w).
Proof.
  intros Hsd. rewrite seed_step. unfold seed_accepted in Hsd.
  destruct (seed_in_effect self kwargs) as [sd|]; [|done].
  by rewrite decide_True by (by apply Hsd).
Qed.

(** A seed numpy refuses: [fit] stops at the seeding. *)
Lemma perform_fitting_bad_seed self dp dr db dc kwargs w sd :
  seed_in_effect self kwargs = Some sd → ¬ (0 ≤ sd < 2 ^ 32) →
  perform_fitting self dp dr db dc kwargs w =
  (Raise ValueError, add_log (DEBUG, [Lit "Perform fitting..."]) w).
Proof.
  intros Hsd Hno. unfold perform_fitting. rewrite bind_run.
  change (log_debug [Lit "Perform fitting..."] w)
    with (Ok tt, add_log (DEBUG, [Lit "Perform fitting..."]) w).
  cbv iota beta. rewrite bind_run, seed_step, Hsd.
  by rewrite decide_False.
Qed.

(** A keyword of another stage: the call of [point_estimate] raises. *)
Lemma perform_fitting_stage_keyword self dr db dc kwargs w :
  seed_accepted self kwargs → stage_keywords kwargs = true →
  perform_fitting self true dr db dc kwargs w = (Raise TypeError, seeded self kwargs w).
Proof.
  intros Hsd Hk. unfold perform_fitting. rewrite bind_run.
  change (log_debug [Lit "Perform fitting..."] w)
    with (Ok tt, add_log (DEBUG, [Lit "Perform fitting..."]) w).
  cbv iota beta. rewrite bind_run, (seed_step_accepted _ _ _ Hsd).
  cbv iota beta. rewrite bind_run, bind_run. unfold fit_point_estimate.
  unfold stage_keywords in Hk. by rewrite Hk.
Qed.

Lemma perform_fitting_point self kwargs w :
  fit_keywords_only kwargs → seed_accepted self kwargs →
  perform_fitting self true false false false kwargs w =
  match point_estimate self (fk_point kwargs) (seeded self kwargs w) with
  | (Ok res, w1) =>
      (Ok (with_point res self),
       match nonempty (save_to self) with
       | Some p =>
           set_fs (<[p := Json (document w1 (results (with_point res self)))]> (fs w1)) w1
       | None => w1
       end)
  | (Raise e, w1) => (Raise e, w1)
  end.
Proof.
  intros Hk Hsd. unfold perform_fitting. rewrite bind_run.
  change (log_debug [Lit "Perform fitting..."] w)
    with (Ok tt, add_log (DEBUG, [Lit "Perform fitting..."]) w).
  cbv iota beta. rewrite bind_run, (seed_step_accepted _ _ _ Hsd).
  cbv iota beta. rewrite bind_run, bind_run. unfold fit_point_estimate.
  unfold fit_keywords_only, stage_keywords in Hk. rewrite Hk.
  destruct (point_estimate self (fk_point kwargs) (seeded self kwargs w))
    as [[res|e] w1]; [|done].
  cbv iota beta. unfold mret at 1, M_ret at 1. cbv iota beta.
  rewrite bind_run, deref_run. cbv iota beta.
  cbn [andb]. rewrite bind_run. unfold mret at 1, M_ret at 1. cbv iota beta.
  rewrite bind_run. unfold mret at 1, M_ret at 1. cbv iota beta.
  cbn [s_values length]. rewrite bool_decide_eq_false_2 by lia.
  rewrite bind_run. unfold mret at 1, M_ret at 1. cbv iota beta.
  fold (stored_params res). fold (with_point res self).
  change (save_to (with_point res self)) with (save_to self).
  destruct (nonempty (save_to self)) as [p|]; [|done].
  by rewrite bind_run, to_json_run.
Qed.

(** The point estimate of [fit], whatever the keywords: it raises at the
    seeding or at the call, or runs. *)
Lemma perform_fitting_point_cases self kwargs w :
  (∃ e w', perform_fitting self true false false false kwargs w = (Raise e, w') ∧
           fs w' = fs w ∧ solver_calls w' = solver_calls w ∧ heap w' = heap w) ∨
  (fit_keywords_only kwargs ∧ seed_accepted self kwargs).
Proof.
  destruct (seed_cases self kwargs) as [Hsd | (sd & Hsd & Hno)].
  - destruct (stage_keywords kwargs) eqn:Hk; [|by right].
    left. rewrite (perform_fitting_stage_keyword _ _ _ _ _ _ Hsd Hk).
    eexists _, _. split; [done|]. unfold seeded. by destruct (truthy_seed _).
  - left. rewrite (perform_fitting_bad_seed _ _ _ _ _ _ _ _ Hsd Hno).
    by eexists _, _.
Qed.


Lemma fit_enters self dp dr db dc kwargs w :
  nothing_to_resume self kwargs w →
  fit self dp dr db dc kwargs w =
  (self' ← perform_fitting self dp dr db dc kwargs; mret (self', true)) w.
Proof.
  unfold nothing_to_resume, fit.
  destruct (nonempty (update_none (fk_save_to kwargs) (save_to self))) as [p|]; [|done].
  intros [-> | Hno]; [done|]. rewrite bind_run.
  destruct (update_none (fk_overwrite kwargs) (overwrite self)); [done|].
  unfold path_exists. rewrite bool_decide_eq_false_2; [done|].
  rewrite Hno. by intros [? ?].
Qed.

Lemma attempt_Ok c mtr raw :
  attempt c mtr = Ok raw →
  curve_fit c = Ok (raw.1.1, raw.1.2) ∧
  match mtr with
  | None => raw.2 = None
  | Some ms => ∃ d, eval_metrics ms raw.1.1 = Ok d ∧ raw.2 = Some (series_of_dict d)
  end.
Proof.
  unfold attempt. destruct (curve_fit c) as [[params pcov]|e]; [|done].
  destruct mtr as [ms|].
  - destruct (eval_metrics ms params) as [d|e] eqn:Ed; [|done].
    intros [= <-]. split; [done|]. by exists d.
  - by intros [= <-].
Qed.

(** What a point estimate returns when the solver keeps to its shape. *)
Lemma point_estimate_shape self kw w :
  let ps := effective_parameters self kw in
  let mtr := effective_metrics self kw in
  solver_shape_ok (length ps) (curve_fit (the_call self kw w)) →
  ∃ r rest,
    point_estimate self kw w =
      (Ok r, mk_world (heap w) (rng (after_call self kw w)) (verbosity w)
               (logs (after_call self kw w) ++ rest)
               (solver_calls w ++ [the_call self kw w]) (fs w)) ∧
    s_index (o_params r) = ps ∧ length (s_values (o_params r)) = length ps ∧
    match mtr with
    | Some ms => ∃ m, o_metrics r = Some m ∧ s_index m = ms.*1 ∧
                      length (s_values m) = length ms
    | None => o_metrics r = None
    end ∧
    (∀ e, attempt (the_call self kw w) mtr = Raise e → r = nan_output ps mtr).
Proof.
  intros ps mtr Hshape.
  destruct (point_estimate_world self kw w) as (r & rest & E & Hr).
  fold ps mtr in Hr.
  destruct (attempt (the_call self kw w) mtr) as [[[params pcov] m]|e] eqn:Ea.
  - destruct (attempt_Ok _ _ _ Ea) as [Hc Hm]. cbn in Hc, Hm.
    rewrite Hc in Hshape. destruct Hshape as (Hp & Hl & Hrow).
    rewrite (finalize_shape ps params pcov m Hp Hl Hrow) in Hr. subst r.
    eexists _, rest. split; [exact E|]. cbn. split_and!; try done.
    destruct mtr as [ms|]; [|done].
    destruct Hm as (d & Hd & ->). destruct (eval_metrics_spec ms params d Hd) as [H1 H2].
    eexists. split; [done|]. cbn. split; [done|].
    apply Forall2_length in H2. by rewrite H2.
  - subst r. eexists _, rest. split; [exact E|].
    destruct (nan_output_spec ps mtr) as (Hi & Hv & _ & _ & _ & _ & Hm).
    split_and!; try done.
    + rewrite Hv. by rewrite length_replicate.
    + destruct mtr as [ms|]; [|done]. destruct Hm as (m & Hm & Hmi & Hmv).
      exists m. split_and!; try done. rewrite Hmv. by rewrite length_replicate.
Qed.

Lemma seeded_frame self kwargs w :
  heap (seeded self kwargs w) = heap w ∧ fs (seeded self kwargs w) = fs w ∧
  solver_calls (seeded self kwargs w) = solver_calls w.
Proof. unfold seeded. by destruct (truthy_seed _). Qed.

(** X10. With keywords of [_fit] only and a seed numpy accepts (0 to
    2**32 - 1), a truthy [rnd_seed] (from the keywords, else from the
    configuration) re-seeds the generator before the point estimate, so a
    random starting point is the one the seed determines, whatever was
    drawn before; a seed of 0 counts as no seed, and the starting point is
    then taken from the current state of the generator. *)
Theorem fit_seed (self : SingleFitter) (kwargs : fit_call_kwargs) (w : world) :
  nothing_to_resume self kwargs w →
  fit_keywords_only kwargs → seed_accepted self kwargs →
  falsy (effective_guess self (fk_point kwargs)) = true →
  let g := match update_none (fk_rnd_seed kwargs) (rnd_seed (config self)) with
           | Some sd => if sd =? 0 then rng w else np_random_seed sd
           | None => rng w
           end in
  ∃ c r w',
    fit self true false false false kwargs w = (r, w') ∧
    solver_calls w' = solver_calls w ++ [c] ∧
    c_p0 c = draws_from (draw_float g) (pos g)
               (length (effective_parameters self (fk_point kwargs))).
Proof.
  intros Hgo Hk Hsd Hfalsy g. rewrite (fit_enters _ _ _ _ _ _ _ Hgo).
  rewrite bind_run, (perform_fitting_point _ _ _ Hk Hsd).
  destruct (point_estimate_world self (fk_point kwargs) (seeded self kwargs w))
    as (r & rest & E & _).
  destruct (seeded_frame self kwargs w) as (Hh & Hf & Hc).
  assert (rng (seeded self kwargs w) = g) as Hg.
  { unfold seeded, g, truthy_seed.
    destruct (update_none (fk_rnd_seed kwargs) (rnd_seed (config self))) as [[|sd'|sd']|];
      done. }
  rewrite E.
  exists (the_call self (fk_point kwargs) (seeded self kwargs w)).
  destruct r as [res|e].
  - eexists _, _. split; [reflexivity|]. split.
    + destruct (nonempty (save_to self)); cbn; by rewrite Hc.
    + unfold the_call, start_point. cbn [c_p0]. by rewrite Hfalsy, Hg.
  - eexists _, _. split; [reflexivity|]. split.
    + cbn. by rewrite Hc.
    + unfold the_call, start_point. cbn [c_p0]. by rewrite Hfalsy, Hg.
Qed.

(** X11. When there is nothing to resume from (in particular with
    [overwrite] set, whatever the file holds), the keywords are those of
    [_fit] only, the seed is one numpy accepts and the estimator has a
    [save_to] path, [fit] runs the point estimate with one solver call and
    leaves at that path the document of the results it has just stored,
    replacing what was there; no other file changes. *)
Theorem fit_saves_results (self : SingleFitter) (kwargs : fit_call_kwargs) (w : world)
    (p : string) :
  nothing_to_resume self kwargs w →
  fit_keywords_only kwargs → seed_accepted self kwargs →
  nonempty (save_to self) = Some p →
  solver_shape_ok (length (effective_parameters self (fk_point kwargs)))
    (curve_fit (the_call self (fk_point kwargs) (seeded self kwargs w))) →
  ∃ self' w' c,
    fit self true false false false kwargs w = (Ok (self', true), w') ∧
    fs w' = <[p := Json (document w' (results self'))]> (fs w) ∧
    solver_calls w' = solver_calls w ++ [c] ∧
    is_Some (pe_params (results self')) ∧ is_Some (pe_pcov (results self')).
Proof.
  intros Hgo Hk Hsd Hp Hshape. rewrite (fit_enters _ _ _ _ _ _ _ Hgo).
  rewrite bind_run, (perform_fitting_point _ _ _ Hk Hsd).
  destruct (point_estimate_shape self (fk_point kwargs) (seeded self kwargs w) Hshape)
    as (r & rest & E & _).
  destruct (seeded_frame self kwargs w) as (Hh & Hf & Hc).
  rewrite E, Hp. eexists _, _, _. split; [reflexivity|].
  cbn. rewrite Hf, Hc. split_and!; try done; by eexists.
Qed.

(** X24. A truthy seed outside 0 to 2**32 - 1 (say -1) makes [fit] raise
    the [ValueError] of [np.random.seed] as soon as the stages are entered,
    whichever stages are asked for: no solver call, no draw, no file
    written. *)
Theorem fit_rejects_seed (self : SingleFitter) (dp dr db dc : bool)
    (kwargs : fit_call_kwargs) (w : world) (sd : Z) :
  nothing_to_resume self kwargs w →
  seed_in_effect self kwargs = Some sd → ¬ (0 ≤ sd < 2 ^ 32) →
  ∃ w', fit self dp dr db dc kwargs w = (Raise ValueError, w') ∧
        solver_calls w' = solver_calls w ∧ rng w' = rng w ∧ fs w' = fs w ∧
        heap w' = heap w.
Proof.
  intros Hgo Hsd Hno. rewrite (fit_enters _ _ _ _ _ _ _ Hgo).
  rewrite bind_run, (perform_fitting_bad_seed _ _ _ _ _ _ _ _ Hsd Hno).
  by eexists.
Qed.



(** *** Steps that only allocate *)

Lemma allocating_ret {A} (a : A) : allocating (mret a : M A).
Proof. intros w. apply heap_grows_refl. Qed.

Lemma allocating_raise {A} (e : exn) : allocating (raise e : M A).
Proof. intros w. apply heap_grows_refl. Qed.

Lemma allocating_lift {A} (o : outcome A) : allocating (lift o).
Proof. intros w. apply heap_grows_refl. Qed.

Lemma allocating_bind {A B} (m : M A) (k : A → M B) :
  allocating m → (∀ a, allocating (k a)) → allocating (m ≫= k).
Proof.
  intros Hm Hk w. rewrite bind_run. pose proof (Hm w) as G.
  destruct (m w) as [[a|e] w1]; simpl in *; [|done].
  apply (heap_grows_trans w w1); [done | apply Hk].
Qed.

Lemma allocating_deref l : allocating (deref l).
Proof. intros w. apply heap_grows_refl. Qed.

Lemma allocating_alloc o : allocating (alloc o).
Proof.
  intros w. destruct (alloc_spec o w) as (l & -> & Hf). by apply set_heap_grows.
Qed.

Lemma allocating_log_debug msg : allocating (log_debug msg).
Proof. intros w. apply heap_grows_log. Qed.

Lemma allocating_logging_error {A} msg e : allocating (logging_error msg e : M A).
Proof. intros w. apply heap_grows_log. Qed.

Lemma allocating_read_json path : allocating (read_json path).
Proof.
  intros w. unfold read_json. destruct (fs w !! path) as [[|d]|]; apply heap_grows_refl.
Qed.

Lemma allocating_try_except {A} (m : M A) (h : exn → M A) :
  allocating m → (∀ e, allocating (h e)) → allocating (try_except m h).
Proof.
  intros Hm Hh w. unfold try_except. pose proof (Hm w) as G.
  destruct (m w) as [[a|e] w1]; simpl in *; [done|].
  apply (heap_grows_trans w w1); [done | apply Hh].
Qed.

Lemma allocating_FitResults_init est m : allocating (FitResults_init est m).
Proof.
  destruct est as [est|]; [|apply allocating_ret]. unfold FitResults_init, copy.
  repeat (apply allocating_bind; [|intros ?]);
    auto using allocating_deref, allocating_alloc, allocating_ret.
Qed.

Lemma allocating_load_leaf {T} block key (reader : string → outcome T) store result :
  allocating (load_leaf block key reader store result).
Proof.
  unfold load_leaf. apply allocating_bind; [apply allocating_lift|]. intros [j|].
  - apply allocating_bind; [apply allocating_lift | intros; apply allocating_ret].
  - apply allocating_ret.
Qed.

Lemma allocating_load_array block key old : allocating (load_array block key old).
Proof.
  unfold load_array. apply allocating_bind; [apply allocating_lift|]. intros [j|].
  - apply allocating_bind; [apply allocating_lift | intros s].
    apply allocating_bind; [apply allocating_alloc | intros; apply allocating_ret].
  - apply allocating_ret.
Qed.

Lemma allocating_load_label block key old : allocating (load_label block key old).
Proof.
  unfold load_label. apply allocating_bind; [apply allocating_lift|].
  intros [j|]; apply allocating_ret.
Qed.

Lemma allocating_uncertainty_label block : allocating (uncertainty_label block).
Proof.
  unfold uncertainty_label.
  repeat (destruct (has_key _ _); [apply allocating_ret|]).
  apply allocating_logging_error.
Qed.

Lemma allocating_from_json path est data : allocating (from_json path est data).
Proof.
  unfold from_json.
  apply allocating_bind; [apply allocating_read_json | intros json_data].
  apply allocating_bind; [apply allocating_FitResults_init | intros r0].
  apply allocating_bind.
  { destruct (json_data !! "point_estimation"); [|apply allocating_ret].
    apply allocating_bind; [apply allocating_load_leaf | intros; apply allocating_load_leaf]. }
  intros r1. apply allocating_bind.
  { destruct (json_data !! "uncertainty"); [|apply allocating_ret].
    apply allocating_bind; [apply allocating_load_leaf | intros r].
    apply allocating_bind; [apply allocating_uncertainty_label | intros label].
    apply allocating_bind; [apply allocating_load_leaf | intros r'].
    destruct (has_key _ _); [apply allocating_load_leaf | apply allocating_ret]. }
  intros r2. apply allocating_bind.
  { destruct (json_data !! "convergence"); [|apply allocating_ret].
    apply allocating_bind; [apply allocating_load_leaf | intros; apply allocating_load_leaf]. }
  intros r3. destruct (json_data !! "data").
  - repeat (apply allocating_bind;
            [first [apply allocating_load_array | apply allocating_load_label] | intros ?]).
    apply allocating_ret.
  - destruct data; apply allocating_ret.
Qed.

Lemma allocating_try_resume self p : allocating (try_resume self p).
Proof.
  unfold try_resume. apply allocating_try_except.
  - apply allocating_bind; [apply allocating_log_debug | intros _].
    apply allocating_bind; [apply allocating_from_json | intros res].
    apply allocating_bind; [apply allocating_log_debug | intros _].
    apply allocating_ret.
  - intros e. destruct e; try apply allocating_raise.
    apply allocating_bind; [apply allocating_log_debug | intros _].
    apply allocating_ret.
Qed.

(** The three ways [fit] can go: it resumes, the resume attempt raises, or
    the stages are entered, in a world that differs from the first by
    allocations and log entries only. *)
Lemma fit_run self dp dr db dc kwargs w :
  (∃ self' w', fit self dp dr db dc kwargs w = (Ok (self', false), w') ∧
               heap_grows w w') ∨
  (∃ e w', fit self dp dr db dc kwargs w = (Raise e, w') ∧ heap_grows w w') ∨
  (∃ w0, heap_grows w w0 ∧
         fit self dp dr db dc kwargs w =
         (self' ← perform_fitting self dp dr db dc kwargs; mret (self', true)) w0).
Proof.
  unfold fit.
  destruct (nonempty (update_none (fk_save_to kwargs) (save_to self))) as [p|].
  2:{ right; right. exists w. split; [apply heap_grows_refl | done]. }
  rewrite bind_run.
  destruct (update_none (fk_overwrite kwargs) (overwrite self)).
  { right; right. exists w. split; [apply heap_grows_refl | done]. }
  unfold path_exists. destruct (bool_decide (is_Some (fs w !! p))).
  2:{ right; right. exists w. split; [apply heap_grows_refl | done]. }
  cbv iota beta. rewrite bind_run.
  pose proof (allocating_try_resume self p w) as G.
  destruct (try_resume self p w) as [[[self'|]|e] w0]; simpl in G.
  - left. by exists self', w0.
  - right; right. by exists w0.
  - right; left. by exists e, w0.
Qed.

(** X12. [fit] writes to the estimator's own [save_to] and nowhere else: a
    path given as the [save_to] keyword is only looked at for a file to
    resume from, and with no [save_to] on the estimator no file changes at
    all. *)
Theorem fit_writes_own_path_only (self : SingleFitter) (kwargs : fit_call_kwargs)
    (w : world) (q : string) :
  nonempty (save_to self) ≠ Some q →
  fs (fit self true false false false kwargs w).2 !! q = fs w !! q.
Proof.
  intros Hq.
  destruct (fit_run self true false false false kwargs w)
    as [(self' & w' & -> & G) | [(e & w' & -> & G) | (w0 & G & ->)]].
  - cbn. by rewrite (grows_fs _ _ G).
  - cbn. by rewrite (grows_fs _ _ G).
  - rewrite bind_run.
    destruct (perform_fitting_point_cases self kwargs w0)
      as [(e & w' & -> & Hf & _) | [Hk Hsd]].
    { cbn. by rewrite Hf, (grows_fs _ _ G). }
    rewrite (perform_fitting_point _ _ _ Hk Hsd).
    destruct (point_estimate_world self (fk_point kwargs) (seeded self kwargs w0))
      as (r & rest & -> & _).
    destruct (seeded_frame self kwargs w0) as (_ & Hf & _).
    destruct r as [res|e]; cbn.
    + destruct (nonempty (save_to self)) as [p|] eqn:Ep; cbn.
      * rewrite lookup_insert_ne by congruence. by rewrite Hf, (grows_fs _ _ G).
      * by rewrite Hf, (grows_fs _ _ G).
    + by rewrite Hf, (grows_fs _ _ G).
Qed.

(** A [fit] on an estimator whose [save_to] file holds the document of
    its results: the resume attempt decides. *)
Lemma resume_run self p dp dr db dc kwargs w :
  nonempty (save_to self) = Some p → overwrite self = false →
  fk_save_to kwargs = None → fk_overwrite kwargs = None →
  is_Some (fs w !! p) →
  match from_json p (Some self) None
          (add_log (DEBUG, [Lit "Try to recover info from the saved file..."]) w) with
  | (Ok res, w2) =>
      fit self dp dr db dc kwargs w =
      (Ok (with_results res self, false),
       add_log (DEBUG, [Lit "Found, skip fitting..."]) w2)
  | (Raise _, _) =>
      ∀ self2 w3, fit self dp dr db dc kwargs w ≠ (Ok (self2, false), w3)
  end.
Proof.
  intros Hp Hov Hk1 Hk2 Hfile.
  unfold fit. rewrite Hk1, Hk2. cbn [update_none].
  rewrite Hp, Hov, bind_run. unfold path_exists.
  rewrite bool_decide_eq_true_2 by done.
  cbv iota beta. rewrite bind_run. unfold try_resume, try_except.
  rewrite bind_run.
  change (log_debug [Lit "Try to recover info from the saved file..."] w)
    with (Ok tt, add_log (DEBUG, [Lit "Try to recover info from the saved file..."]) w).
  cbv iota beta. rewrite bind_run.
  destruct (from_json p (Some self) None _) as [[res|e] w2].
  - rewrite bind_run.
    change (log_debug [Lit "Found, skip fitting..."] w2)
      with (Ok tt, add_log (DEBUG, [Lit "Found, skip fitting..."]) w2).
    done.
  - intros self2 w3.
    assert (∀ w', (self' ← perform_fitting self dp dr db dc kwargs; mret (self', true)) w'
                  ≠ (Ok (self2, false), w3)) as Hgo.
    { intros w'. rewrite bind_run.
      by destruct (perform_fitting self dp dr db dc kwargs w') as [[?|?] ?]. }
    destruct e; try done.
    rewrite bind_run.
    change (log_debug [Lit "Can not parse JSON file, continue fitting..."] w2)
      with (Ok tt, add_log (DEBUG, [Lit "Can not parse JSON file, continue fitting..."]) w2).
    cbv iota beta. unfold mret at 1, M_ret at 1. cbv iota beta. apply Hgo.
Qed.

(** X13. Fitting is resumable as far as pandas can read what it wrote:
    after a [fit] that entered the stages and saved to the estimator's
    [save_to], a second [fit] (with [overwrite] false and no [save_to] or
    [overwrite] keyword) loads the file instead of fitting, whatever stages
    it is asked for, exactly when every text of the saved document can be
    read: then there is no solver call, no draw and no write, and the
    parameters it installs are what the reader makes of the text written
    for them, those of the first run where pandas reads back the series it
    wrote.  When some text cannot be read, the second [fit] does not
    resume. *)
Theorem fit_then_fit_resumes (self : SingleFitter) (kwargs : fit_call_kwargs)
    (w : world) (self1 : SingleFitter) (w1 : world) (p : string)
    (dp dr db dc : bool) (kwargs2 : fit_call_kwargs) :
  nonempty (save_to self) = Some p → overwrite self = false →
  fit self true false false false kwargs w = (Ok (self1, true), w1) →
  fk_save_to kwargs2 = None → fk_overwrite kwargs2 = None →
  (leaves_readable w1 (results self1) →
   ∃ res w2,
     fit self1 dp dr db dc kwargs2 w1 = (Ok (with_results res self1, false), w2) ∧
     reread_series (pe_params (results self1)) = Ok (pe_params res) ∧
     (series_round_trip (pe_params (results self1)) →
      pe_params res = pe_params (results self1)) ∧
     solver_calls w2 = solver_calls w1 ∧ rng w2 = rng w1 ∧ fs w2 = fs w1) ∧
  (¬ leaves_readable w1 (results self1) →
   ∀ self2 w2, fit self1 dp dr db dc kwargs2 w1 ≠ (Ok (self2, false), w2)).
Proof.
  intros Hp Hov Hfit Hk1 Hk2.
  destruct (fit_run self true false false false kwargs w)
    as [(self' & w' & E & _) | [(e & w' & E & _) | (w0 & _ & E)]];
    rewrite E in Hfit; [done | done |].
  rewrite bind_run in Hfit.
  destruct (perform_fitting_point_cases self kwargs w0)
    as [(e & w' & E' & _) | [Hk Hsd]]; [by rewrite E' in Hfit|].
  rewrite (perform_fitting_point _ _ _ Hk Hsd) in Hfit.
  destruct (point_estimate self (fk_point kwargs) (seeded self kwargs w0))
    as [[res|e] wp]; [|done].
  rewrite Hp in Hfit. injection Hfit as <- <-.
  set (self1 := with_point res self) in *.
  set (w1 := set_fs _ wp) in *.
  set (w1' := add_log (DEBUG, [Lit "Try to recover info from the saved file..."]) w1).
  assert (fs w1' !! p = Some (Json (document w1 (results self1)))) as Hdoc.
  { subst w1' w1. cbn. by rewrite lookup_insert_eq. }
  pose proof (resume_run self1 p dp dr db dc kwargs2 w1 Hp Hov Hk1 Hk2) as Hres.
  pose proof (from_json_document (results self1) p (Some self1) None w1' w1 Hdoc) as Hload.
  destruct (quiet_from_json p (Some self1) None w1') as (Hc & Hr & Hf).
  fold w1' in Hres.
  destruct (from_json p (Some self1) None w1') as [[r'|e] w2].
  - destruct Hload as (HR & HP & _). split; [|done].
    intros _. eexists r', _. split; [apply Hres; by eexists|].
    cbn in Hc, Hr, Hf. cbn. split_and!; try done.
    intros Hs. by apply series_round_trip_reread.
  - split; [done|]. intros _. apply Hres. by eexists.
Qed.


Lemma perform_fitting_skips self dp dr dc kwargs w :
  (len (heap w !!! x_data self) < 2)%nat →
  perform_fitting self dp dr true dc kwargs w =
  perform_fitting self dp dr false dc kwargs w.
Proof.
  intros Hlen. unfold perform_fitting. rewrite !bind_run.
  change (log_debug [Lit "Perform fitting..."] w)
    with (Ok tt, add_log (DEBUG, [Lit "Perform fitting..."]) w).
  cbv iota beta. rewrite !bind_run, seed_step.
  destruct (seed_in_effect self kwargs) as [sd|];
    [destruct (decide (0 ≤ sd < 2 ^ 32)); [|done]|].
  all: cbv iota beta; rewrite !bind_run;
    destruct (seeded_frame self kwargs w) as (Hh & _ & _);
    destruct dp.
  all: try (rewrite !bind_run; unfold fit_point_estimate;
    destruct (_ || _); [done|];
    destruct (point_estimate_world self (fk_point kwargs) (seeded self kwargs w))
      as (r & rest & -> & _);
    destruct r as [res|e]; [|done]; cbv iota beta).
  all: unfold mret at 1 2, M_ret at 1 2; cbv iota beta;
    rewrite !bind_run, !deref_run; cbv iota beta;
    cbn [x_data with_results heap]; rewrite Hh;
    rewrite (bool_decide_eq_false_2 (2 ≤ len (heap w !!! x_data self))%nat) by lia;
    reflexivity.
Qed.

(** X15. With fewer than two stored points the bootstrap stage of [fit] is
    skipped without an error: asking for it changes nothing. *)
Theorem fit_skips_bootstrap (self : SingleFitter) (dp dr dc : bool)
    (kwargs : fit_call_kwargs) (w : world) :
  live w (x_data self) →
  (len (heap w !!! x_data self) < 2)%nat →
  fit self dp dr true dc kwargs w = fit self dp dr false dc kwargs w.
Proof.
  intros Hlive Hlen.
  assert (∀ w0, heap_grows w w0 →
            (self' ← perform_fitting self dp dr true dc kwargs; mret (self', true)) w0 =
            (self' ← perform_fitting self dp dr false dc kwargs; mret (self', true)) w0)
    as Hgo.
  { intros w0 G. rewrite !bind_run, perform_fitting_skips; [done|].
    by rewrite (heap_grows_total w w0). }
  unfold fit.
  destruct (nonempty (update_none (fk_save_to kwargs) (save_to self))) as [p|].
  2:{ apply Hgo, heap_grows_refl. }
  rewrite !bind_run.
  destruct (update_none (fk_overwrite kwargs) (overwrite self)).
  { apply Hgo, heap_grows_refl. }
  unfold path_exists. destruct (bool_decide (is_Some (fs w !! p))).
  2:{ apply Hgo, heap_grows_refl. }
  cbv iota beta. rewrite !bind_run.
  pose proof (allocating_try_resume self p w) as G.
  destruct (try_resume self p w) as [[[self'|]|e] w0]; simpl in G; try done.
  by apply Hgo.
Qed.

End fit_properties.

Section document_properties.
Context {ext : Externals}.

Lemma bind_Ok {A B} (m : M A) (k : A → M B) w b w' :
  (m ≫= k) w = (Ok b, w') → ∃ a w1, m w = (Ok a, w1) ∧ k a w1 = (Ok b, w').
Proof.
  rewrite bind_run. destruct (m w) as [[a|e] w1]; [|done]. intros E. by exists a, w1.
Qed.

Lemma load_leaf_keeps {T} block key (reader : string → outcome T) store result w r' w' :
  (∀ v r, same_data (store v r) r) →
  load_leaf block key reader store result w = (Ok r', w') →
  w' = w ∧ same_data r' result.
Proof.
  intros Hst. unfold load_leaf, getitem. rewrite bind_run, lift_run.
  destruct (block !! key) as [[j|]|]; [| |done].
  - rewrite bind_run, lift_run. destruct (reader j) as [v|e]; [|done].
    intros [= <- <-]. split; [done | apply Hst].
  - intros [= <- <-]. by repeat split.
Qed.

Lemma same_data_trans r1 r2 r3 : same_data r1 r2 → same_data r2 r3 → same_data r1 r3.
Proof. unfold same_data. intros (?&?&?&?&?) (?&?&?&?&?). split_and!; congruence. Qed.

Lemma uncertainty_label_Ok block w l w' :
  uncertainty_label block w = (Ok l, w') → w' = w.
Proof.
  unfold uncertainty_label.
  repeat (destruct (has_key _ _); [by intros [= <- <-]|]). done.
Qed.

(** A successful load, step by step: the document read, the blank result,
    and the result the estimate blocks leave for the data step. *)
Lemma from_json_inv path est data w r' w' :
  from_json path est data w = (Ok r', w') →
  ∃ doc r0 w0 r3,
    fs w !! path = Some (Json doc) ∧
    FitResults_init est None w = (Ok r0, w0) ∧
    same_data r3 r0 ∧
    load_data doc data r3 w0 = (Ok r', w').
Proof.
  unfold from_json. intros H.
  apply bind_Ok in H as (doc & wa & Hread & H).
  assert (fs w !! path = Some (Json doc) ∧ wa = w) as [Hf ->].
  { unfold read_json in Hread. destruct (fs w !! path) as [[|d]|]; try done.
    by injection Hread as <- <-. }
  apply bind_Ok in H as (r0 & w0 & Hinit & H).
  apply bind_Ok in H as (r1 & w1 & H1 & H).
  assert (w1 = w0 ∧ same_data r1 r0) as [-> S1].
  { destruct (doc !! "point_estimation") as [block|].
    - apply bind_Ok in H1 as (ra & wa & Ha & Hb).
      apply load_leaf_keeps in Ha as [-> Sa]; [|by intros; repeat split].
      apply load_leaf_keeps in Hb as [-> Sb]; [|by intros; repeat split].
      split; [done | by eapply same_data_trans].
    - injection H1 as <- <-. by repeat split. }
  apply bind_Ok in H as (r2 & w2 & H2 & H).
  assert (w2 = w0 ∧ same_data r2 r1) as [-> S2].
  { destruct (doc !! "uncertainty") as [block|].
    - apply bind_Ok in H2 as (ra & wa & Ha & H2).
      apply load_leaf_keeps in Ha as [-> Sa]; [|by intros; repeat split].
      apply bind_Ok in H2 as (l & wl & Hl & H2).
      apply uncertainty_label_Ok in Hl as ->.
      apply bind_Ok in H2 as (rb & wb & Hb & H2).
      apply load_leaf_keeps in Hb as [-> Sb]; [|by intros; repeat split].
      destruct (has_key block "rep_results").
      + apply load_leaf_keeps in H2 as [-> Sc]; [|by intros; repeat split].
        split; [done|]. eapply same_data_trans; [done|]. by eapply same_data_trans.
      + injection H2 as <- <-. split; [done | by eapply same_data_trans].
    - injection H2 as <- <-. by repeat split. }
  apply bind_Ok in H as (r3 & w3 & H3 & H).
  assert (w3 = w0 ∧ same_data r3 r2) as [-> S3].
  { destruct (doc !! "convergence") as [block|].
    - apply bind_Ok in H3 as (ra & wa & Ha & Hb).
      apply load_leaf_keeps in Ha as [-> Sa]; [|by intros; repeat split].
      apply load_leaf_keeps in Hb as [-> Sb]; [|by intros; repeat split].
      split; [done | by eapply same_data_trans].
    - injection H3 as <- <-. by repeat split. }
  exists doc, r0, w0, r3. split_and!; try done.
  eapply same_data_trans; [done|]. by eapply same_data_trans.
Qed.


Ltac key_lookup := vm_compute; reflexivity.

Lemma load_array_inv block key old w v w' leaf :
  block !! key = Some leaf →
  load_array block key old w = (Ok v, w') →
  match leaf with
  | None => v = old ∧ w' = w
  | Some j => ∃ l, v = Some l ∧ heap w !! l = None ∧ kind (heap w' !!! l) = KSeries
  end.
Proof.
  intros Hk. unfold load_array, getitem. rewrite bind_run, lift_run, Hk.
  destruct leaf as [j|]; [|by intros [= <- <-]].
  rewrite bind_run, lift_run. destruct (read_series j) as [s|e]; [|done].
  destruct (alloc_spec (mk_pyarr KSeries (s_index s) (s_values s)) w) as (l & E & Hfr).
  rewrite bind_run, E. intros [= <- <-]. exists l. split_and!; try done.
  cbn. by rewrite lookup_total_insert_eq.
Qed.

Lemma load_label_inv block key old w v w' leaf :
  block !! key = Some leaf →
  load_label block key old w = (Ok v, w') →
  v = match leaf with Some j => Some j | None => old end ∧ w' = w.
Proof.
  intros Hk. unfold load_label, getitem. rewrite bind_run, lift_run, Hk.
  destruct leaf; by intros [= <- <-].
Qed.

(** X16. Loading is read-only: whether [from_json] returns or raises, every
    object that existed is unchanged (the arrays it loads are new objects),
    no file is written, the solver is not called and nothing is drawn. *)
Theorem from_json_read_only (path : string) (est : option SingleFitter)
    (data : option data_dict) (w : world) :
  let w' := (from_json path est data w).2 in
  (∀ l o, heap w !! l = Some o → heap w' !! l = Some o) ∧
  fs w' = fs w ∧ solver_calls w' = solver_calls w ∧ rng w' = rng w.
Proof.
  intros w'. destruct (allocating_from_json path est data w) as [Hh Hc Hr Hf].
  split_and!; try done. intros l o Hl. by eapply lookup_weaken.
Qed.

(** X17. [to_json] without a path returns the very document that [to_json]
    with a path writes; writing changes that one file and nothing else.
    The document always has the four blocks, and in its data block the two
    axis labels are always null, whatever labels the results hold. *)
Theorem to_json_writes_document (r : FitResults) (path : string) (w : world) :
  ∃ d,
    to_json r None w = (Ok (Some d), w) ∧
    to_json r (Some path) w = (Ok None, set_fs (<[path := Json d]> (fs w)) w) ∧
    Forall (λ k, is_Some (d !! k))
      ["point_estimation"; "uncertainty"; "convergence"; "data"] ∧
    ∃ block, d !! "data" = Some block ∧
             block !! "x_label" = Some None ∧ block !! "y_label" = Some None.
Proof.
  exists (document w r). split_and!.
  - unfold to_json, data_to_dump.
    rewrite !bind_run, jsonfy_array_run. cbv iota beta.
    rewrite !bind_run, jsonfy_array_run. cbv iota beta.
    rewrite !bind_run, jsonfy_array_run. cbv iota beta.
    reflexivity.
  - apply to_json_run.
  - repeat (apply Forall_cons_2; [eexists; key_lookup|]). apply Forall_nil_2.
  - eexists. split_and!; key_lookup.
Qed.

(** X18. The [data] dictionary is only a fallback: on a file that has a
    data block, [from_json] does the same with and without it.  Every file
    written by [to_json] has a data block, so for those the dictionary is
    never used. *)
Theorem from_json_ignores_data (path : string) (est : option SingleFitter)
    (data : option data_dict) :
  (∀ w doc, fs w !! path = Some (Json doc) → is_Some (doc !! "data") →
            from_json path est data w = from_json path est None w) ∧
  (∀ r w, (to_json r (Some path);; from_json path est data) w =
          (to_json r (Some path);; from_json path est None) w).
Proof.
  assert (∀ w doc, fs w !! path = Some (Json doc) → is_Some (doc !! "data") →
                   from_json path est data w = from_json path est None w) as Hgen.
  { intros w doc Hf [block Hb]. unfold from_json. rewrite !bind_run.
    unfold read_json. rewrite Hf. cbv iota beta. by rewrite Hb. }
  split; [exact Hgen|].
  intros r w. rewrite !bind_run, to_json_run. cbv iota beta.
  apply (Hgen _ (document w r)).
  - cbn. by rewrite lookup_insert_eq.
  - eexists. key_lookup.
Qed.

(** X19. The data scope does not survive the file unless it holds pandas
    series: after writing results and loading the file without an
    estimator, both axis labels are gone, and so is each of x, y and sigma
    that was a list or a numpy array (or was empty). *)
Theorem round_trip_loses_data (r : FitResults) (path : string) (w : world)
    (r' : FitResults) (w' : world) :
  (to_json r (Some path);; from_json path None None) w = (Ok r', w') →
  data_x_label r' = None ∧ data_y_label r' = None ∧
  (¬ is_series w (data_x_data r) → data_x_data r' = None) ∧
  (¬ is_series w (data_y_data r) → data_y_data r' = None) ∧
  (¬ is_series w (data_sigma r) → data_sigma r' = None).
Proof.
  rewrite bind_run, to_json_run. cbv iota beta. intros H.
  apply from_json_inv in H as (doc & r0 & w0 & r3 & Hf & Hinit & S & Hd).
  cbn in Hf. rewrite lookup_insert_eq in Hf. injection Hf as <-.
  cbn in Hinit. injection Hinit as <- <-.
  destruct S as (Sx & Sy & Ss & Sxl & Syl). cbn in Sx, Sy, Ss, Sxl, Syl.
  unfold load_data in Hd.
  set (dt := {[ "x_data" := array_leaf w (data_x_data r);
                "y_data" := array_leaf w (data_y_data r);
                "sigma" := array_leaf w (data_sigma r);
                "x_label" := None; "y_label" := None ]}
             : gmap string (option string)).
  assert (document w r !! "data" = Some dt) as Hdt by key_lookup.
  rewrite Hdt in Hd.
  assert (dt !! "x_data" = Some (array_leaf w (data_x_data r))) as Kx by key_lookup.
  assert (dt !! "y_data" = Some (array_leaf w (data_y_data r))) as Ky by key_lookup.
  assert (dt !! "sigma" = Some (array_leaf w (data_sigma r))) as Kg by key_lookup.
  assert (dt !! "x_label" = Some None) as Kxl by key_lookup.
  assert (dt !! "y_label" = Some None) as Kyl by key_lookup.
  apply bind_Ok in Hd as (x & w1 & Hx & Hd).
  apply bind_Ok in Hd as (y & w2 & Hy & Hd).
  apply bind_Ok in Hd as (sg & w3 & Hs & Hd).
  apply bind_Ok in Hd as (xl & w4 & Hxl & Hd).
  apply bind_Ok in Hd as (yl & w5 & Hyl & Hd).
  injection Hd as <- <-.
  apply (load_array_inv _ _ _ _ _ _ _ Kx) in Hx.
  apply (load_array_inv _ _ _ _ _ _ _ Ky) in Hy.
  apply (load_array_inv _ _ _ _ _ _ _ Kg) in Hs.
  apply (load_label_inv _ _ _ _ _ _ _ Kxl) in Hxl as [-> _].
  apply (load_label_inv _ _ _ _ _ _ _ Kyl) in Hyl as [-> _].
  assert (∀ o, ¬ is_series w o → array_leaf w o = None) as Hleaf.
  { intros [l|] Hn; [|done]. unfold array_leaf.
    destruct (kind (heap w !!! l)) eqn:Ek; try done.
    destruct Hn. by exists l. }
  cbn. split_and!; try done.
  - intros Hn. rewrite (Hleaf _ Hn) in Hx. destruct Hx as [-> _]. done.
  - intros Hn. rewrite (Hleaf _ Hn) in Hy. destruct Hy as [-> _]. done.
  - intros Hn. rewrite (Hleaf _ Hn) in Hs. destruct Hs as [-> _]. done.
Qed.

(** X20. An uncertainty block that names its record table by none of
    [record], [records] and [bs_records] makes [from_json] fail: the error
    is logged and [ValueError] is raised. *)
Theorem from_json_unknown_tag (path : string) (est : option SingleFitter)
    (data : option data_dict) (w : world) (doc : jdoc)
    (block : gmap string (option string)) :
  fs w !! path = Some (Json doc) →
  doc !! "point_estimation" = None →
  doc !! "uncertainty" = Some block →
  block !! "summary" = Some None →
  block !! "record" = None → block !! "records" = None →
  block !! "bs_records" = None →
  ∃ w', from_json path est data w = (Raise ValueError, w') ∧
        last (logs w') = Some (ERROR, [Lit "Unknown json tag for bootstrap records"]).
Proof.
  intros Hf Hpe Hun Hs H1 H2 H3. unfold from_json. rewrite bind_run.
  unfold read_json. rewrite Hf.
  destruct (FitResults_init_blank est None w) as (r0 & w2 & E0 & _).
  rewrite bind_run, E0, bind_run, Hpe.
  unfold mret at 1, M_ret at 1. cbv iota beta.
  rewrite bind_run, Hun, bind_run, (load_leaf_run _ _ _ _ _ _ _ Hs). cbv iota beta.
  rewrite bind_run. unfold uncertainty_label.
  rewrite (has_key_missing _ _ H1), (has_key_missing _ _ H2), (has_key_missing _ _ H3).
  eexists. split; [reflexivity|]. cbn. by rewrite last_snoc.
Qed.

(** X21. When an uncertainty block names its record table several times,
    [record] wins over [records], and [records] over [bs_records]; the
    choice looks at the presence of the key only, so a [record] that is
    null hides a table stored under another name. *)
Theorem from_json_alias_priority (path : string) (data : option data_dict)
    (w : world) (doc : jdoc) (block : gmap string (option string)) :
  fs w !! path = Some (Json doc) →
  doc !! "point_estimation" = None →
  doc !! "uncertainty" = Some block →
  doc !! "convergence" = None → doc !! "data" = None →
  block !! "summary" = Some None → block !! "rep_results" = None →
  (∀ t d, block !! "record" = Some (Some t) → read_frame t = Ok d →
          ∃ r' w', from_json path None data w = (Ok r', w') ∧
                   unc_bs_records r' = Some d) ∧
  (∀ t d, block !! "record" = None → block !! "records" = Some (Some t) →
          read_frame t = Ok d →
          ∃ r' w', from_json path None data w = (Ok r', w') ∧
                   unc_bs_records r' = Some d) ∧
  (block !! "record" = Some None →
   ∃ r' w', from_json path None data w = (Ok r', w') ∧ unc_bs_records r' = None).
Proof.
  intros Hf Hpe Hun Hcv Hdt Hs Hrep.
  assert (∀ label leaf,
            uncertainty_label block w = (Ok label, w) → block !! label = Some leaf →
            ∃ r' w', from_json path None data w = (Ok r', w') ∧
                     unc_bs_records r' =
                       match leaf with
                       | Some t => match read_frame t with Ok d => Some d | Raise _ => None end
                       | None => None
                       end ∨ ∃ t e, leaf = Some t ∧ read_frame t = Raise e) as Hgen.
  { intros label leaf Hl Hk. unfold from_json. rewrite bind_run.
    unfold read_json. rewrite Hf. cbn [FitResults_init].
    rewrite bind_run. unfold mret at 1, M_ret at 1. cbv iota beta.
    rewrite bind_run, Hpe. unfold mret at 1, M_ret at 1. cbv iota beta.
    rewrite bind_run, Hun, bind_run, (load_leaf_run _ _ _ _ _ _ _ Hs). cbv iota beta.
    rewrite bind_run, Hl. cbv iota beta.
    rewrite bind_run, (load_leaf_run _ _ _ _ _ _ _ Hk).
    rewrite (has_key_missing _ _ Hrep).
    destruct leaf as [t|].
    - destruct (read_frame t) as [d|e] eqn:Er.
      + cbv iota beta. unfold mret at 1, M_ret at 1. cbv iota beta.
        rewrite bind_run, Hcv. unfold mret at 1, M_ret at 1. cbv iota beta.
        rewrite Hdt. destruct data; eexists _, _; left; (split; [reflexivity | done]).
      + exists (empty_results None), w. right. by exists t, e.
    - cbv iota beta. unfold mret at 1, M_ret at 1. cbv iota beta.
      rewrite bind_run, Hcv. unfold mret at 1, M_ret at 1. cbv iota beta.
      rewrite Hdt. destruct data; eexists _, _; left; (split; [reflexivity | done]). }
  split_and!.
  - intros t d Hk Hd.
    destruct (Hgen "record" (Some t)) as (r' & w' & [[E Hr] | (t' & e & [= <-] & Hbad)]);
      [| done | by (exists r', w'; rewrite Hd in Hr) | congruence].
    unfold uncertainty_label. by rewrite (has_key_lookup _ _ _ Hk).
  - intros t d Hno Hk Hd.
    destruct (Hgen "records" (Some t)) as (r' & w' & [[E Hr] | (t' & e & [= <-] & Hbad)]);
      [| done | by (exists r', w'; rewrite Hd in Hr) | congruence].
    unfold uncertainty_label.
    by rewrite (has_key_missing _ _ Hno), (has_key_lookup _ _ _ Hk).
  - intros Hk.
    destruct (Hgen "record" None) as (r' & w' & [[E Hr] | (t' & e & [=] & _)]);
      [| done | by exists r', w'].
    unfold uncertainty_label. by rewrite (has_key_lookup _ _ _ Hk).
Qed.

(** X22. The blocks of a saved result are optional, their keys are not: the
    empty document loads and gives results without any estimate, while a
    [point_estimation] block without [params], or with a null [params] and
    without [pcov], makes [from_json] raise [KeyError] for that key. *)
Theorem from_json_missing_keys (path : string) (est : option SingleFitter)
    (data : option data_dict) (w : world) (doc : jdoc) :
  fs w !! path = Some (Json doc) →
  (doc = ∅ → ∃ r' w', from_json path est data w = (Ok r', w') ∧ no_estimates r') ∧
  (∀ block, doc !! "point_estimation" = Some block → block !! "params" = None →
            ∃ w', from_json path est data w = (Raise (KeyError "params"), w')) ∧
  (∀ block, doc !! "point_estimation" = Some block → block !! "params" = Some None →
            block !! "pcov" = None →
            ∃ w', from_json path est data w = (Raise (KeyError "pcov"), w')).
Proof.
  intros Hf.
  assert (∃ r0 w0, FitResults_init est None w = (Ok r0, w0) ∧ no_estimates r0)
    as (r0 & w0 & E0 & N0).
  { destruct est as [est|]; [|by eexists _, _].
    unfold FitResults_init.
    destruct (copy_spec (x_data est) w) as (lx & Ex & _).
    rewrite bind_run, Ex. set (w1 := set_heap _ w).
    destruct (copy_spec (y_data est) w1) as (ly & Ey & _).
    rewrite bind_run, Ey. set (w2 := set_heap _ w1).
    destruct (copy_spec (sigma (config est)) w2) as (ls & Es & _).
    rewrite bind_run, Es. by eexists _, _. }
  split_and!.
  - intros ->. unfold from_json. rewrite bind_run. unfold read_json. rewrite Hf.
    rewrite bind_run, E0, bind_run. unfold jdoc. rewrite !lookup_empty.
    unfold mret at 1, M_ret at 1. cbv iota beta.
    rewrite bind_run. unfold mret at 1, M_ret at 1. cbv iota beta.
    rewrite bind_run. unfold mret at 1, M_ret at 1. cbv iota beta.
    destruct data; eexists _, _; (split; [reflexivity | done]).
  - intros block Hb Hk. unfold from_json. rewrite bind_run. unfold read_json. rewrite Hf.
    rewrite bind_run, E0, bind_run, Hb, bind_run.
    unfold load_leaf at 1, getitem. rewrite bind_run, lift_run, Hk. by eexists.
  - intros block Hb Hk Hc. unfold from_json. rewrite bind_run. unfold read_json.
    rewrite Hf. rewrite bind_run, E0, bind_run, Hb, bind_run.
    rewrite (load_leaf_run _ _ _ _ _ _ _ Hk).
    unfold load_leaf at 1, getitem. rewrite bind_run, lift_run, Hc. by eexists.
Qed.

(** X23. On a file without a data block, the [data] dictionary is taken
    over by reference: the arrays of the result are the caller's own
    objects (no copy is made, unlike at construction) and its labels are
    the dictionary's, replacing what the estimator would have provided. *)
Theorem from_json_data_by_reference (path : string) (est : option SingleFitter)
    (d : data_dict) (w : world) (doc : jdoc) (r' : FitResults) (w' : world) :
  fs w !! path = Some (Json doc) → doc !! "data" = None →
  from_json path est (Some d) w = (Ok r', w') →
  data_x_data r' = dd_x_data d ∧ data_y_data r' = dd_y_data d ∧
  data_sigma r' = dd_sigma d ∧
  data_x_label r' = dd_x_label d ∧ data_y_label r' = dd_y_label d ∧
  (∀ l o, heap w !! l = Some o → heap w' !! l = Some o).
Proof.
  intros Hf Hno H.
  pose proof (allocating_from_json path est (Some d) w) as G. rewrite H in G.
  apply from_json_inv in H as (doc' & r0 & w0 & r3 & Hf' & _ & _ & Hd).
  rewrite Hf in Hf'. injection Hf' as <-.
  unfold load_data in Hd. rewrite Hno in Hd. injection Hd as <- <-.
  cbn. split_and!; try done. intros l o Hl. by eapply heap_grows_lookup.
Qed.

End document_properties.

(** ** The claims on concrete inputs *)

Lemma ex_siblings_total : @siblings_total ex_externals.
Proof. split_and!; intros; eexists; reflexivity. Qed.

(** The y of the examples is a list: every mask is applied by position. *)
Lemma ex_world_by_position (a : init_args) :
  a_y_data a = 2%positive → by_position a ex_world.
Proof. intros Hy _ H. rewrite Hy in H. vm_compute in H. discriminate H. Qed.

Ltac seed_ok :=
  let H := fresh in
  intros ? H; vm_compute in H;
  first [discriminate H | injection H as <-; lia].


Lemma ex_world_live (l : loc) :
  l = 1%positive ∨ l = 2%positive ∨ l = 3%positive ∨ l = 4%positive → live ex_world l.
Proof. intros [-> | [-> | [-> | ->]]]; eexists; reflexivity. Qed.

(** The scenario of the specification: with y = [0, 0.5, 0.8, 0.9] the
    point at x = 0 is dropped and three points are stored. *)
Lemma init_exclude_zero_witness :
  ∃ self w',
    @SingleFitter_init ex_externals
      (default_args 1%positive 2%positive ex_model true None) ex_world = (Ok self, w') ∧
    ∃ ox oy os,
      heap w' !! x_data self = Some ox ∧
      heap w' !! y_data self = Some oy ∧
      heap w' !! sigma (config self) = Some os ∧
      items ox = [1%float; 2%float; 3%float] ∧
      items oy = [0.5%float; 0.8%float; 0.9%float] ∧
      items os = [1%float; 1%float; 1%float] ∧
      heap w' !! 1%positive = Some ex_x ∧ heap w' !! 2%positive = Some ex_y.
Proof.
  set (a := default_args 1%positive 2%positive ex_model true None).
  destruct (init_succeeds (ext := ex_externals) a ex_world) as (self & w' & E & _).
  - right; left; reflexivity.
  - apply ex_world_live; auto.
  - apply ex_world_live; auto.
  - reflexivity.
  - intros s [=].
  - by apply ex_world_by_position.
  - exact ex_siblings_total.
  - exists self, w'. split; [exact E|].
    destruct (init_exclude_zero (ext := ex_externals) a ex_world self w')
      as (ox & oy & os & Lx & Ly & Ls & Ix & Iy & Is & _ & _ & _ & Hkeep & _).
    + reflexivity.
    + by apply ex_world_by_position.
    + apply ex_world_live; auto.
    + apply ex_world_live; auto.
    + intros s [=].
    + exact E.
    + exists ox, oy, os. split_and!; try assumption.
      * rewrite Is. change (a_sigma a) with (@None loc). cbv iota.
        rewrite Iy. reflexivity.
      * apply Hkeep. reflexivity.
      * apply Hkeep. reflexivity.
Defined.

(** A solver that never converges: two NaN parameters, a 2-by-2 NaN
    covariance, a NaN metric, and a warning. *)
Lemma point_estimate_failure_is_nan_witness :
  ∃ r w',
    @point_estimate ex_failing (ex_self 4%positive) no_kwargs ex_world = (Ok r, w') ∧
    s_index (o_params r) = ["A"; "k"] ∧
    s_values (o_params r) = [nan; nan] ∧
    df_data (o_pcov r) = [[nan; nan]; [nan; nan]] ∧
    o_metrics r = Some (mk_Series ["kA"] [nan]) ∧
    ∃ entry, entry ∈ logs w' ∧ entry.1 = WARNING.
Proof.
  destruct (point_estimate_failure_is_nan (ext := ex_failing) (ex_self 4%positive)
              no_kwargs ex_world RuntimeError)
    as (r & w' & E & _ & Hi & Hv & _ & Hd & Hm & title & Hlog).
  - left. reflexivity.
  - exists r, w'. split; [exact E|]. split_and!.
    + exact Hi.
    + exact Hv.
    + exact Hd.
    + destruct Hm as (m & -> & Hmi & Hmv). destruct m as [mi mv].
      simpl in Hmi, Hmv. by rewrite Hmi, Hmv.
    + eexists. split; [exact Hlog | reflexivity].
Defined.

Lemma point_estimate_labels_witness :
  ∃ r w',
    @point_estimate ex_externals (ex_self 4%positive) no_kwargs ex_world = (Ok r, w') ∧
    s_index (o_params r) = ["A"; "k"] ∧
    df_index (o_pcov r) = ["A"; "k"] ∧
    df_columns (o_pcov r) = ["A"; "k"] ∧
    shape (o_pcov r) = (2, 2)%nat.
Proof.
  destruct (point_estimate_labels (ext := ex_externals) (ex_self 4%positive)
              no_kwargs ex_world)
    as (r & w' & E & Hi & _ & Hx & Hc & Hs & _).
  - vm_compute. split_and!; [reflexivity | reflexivity | repeat constructor].
  - exists r, w'. split_and!; assumption.
Defined.

Lemma point_estimate_sigma_mismatch_witness :
  ∃ c r w',
    @point_estimate ex_externals (ex_self 3%positive) no_kwargs ex_world = (r, w') ∧
    solver_calls w' = [c] ∧ c_sigma c = None ∧ c_xdata c = ex_x ∧
    ∃ entry, entry ∈ logs w' ∧ entry.1 = DEBUG.
Proof.
  destruct (point_estimate_sigma_mismatch (ext := ex_externals) (ex_self 3%positive)
              no_kwargs ex_world)
    as (c & r & w' & rest & E & Hc & Hs & Hx & _ & _ & Hl).
  - vm_compute. lia.
  - exists c, r, w'. split_and!; try assumption.
    eexists. split; [rewrite Hl; apply list_elem_of_here | reflexivity].
Defined.

Lemma FitResults_init_copies_witness :
  ∃ r w' lx ly ls,
    @FitResults_init (Some (ex_self 4%positive)) None ex_world = (Ok r, w') ∧
    data_x_data r = Some lx ∧ data_y_data r = Some ly ∧ data_sigma r = Some ls ∧
    heap w' !! lx = Some ex_x ∧ heap w' !! ly = Some ex_y ∧
    heap w' !! ls = Some ex_ones ∧
    ∀ i v w'',
      setitem 1%positive i v w' = (Ok tt, w'') → heap w'' !! lx = Some ex_x.
Proof.
  destruct (FitResults_init_copies (ex_self 4%positive) None ex_world)
    as (r & w' & lx & ly & ls & E & Dx & Dy & Ds & Cx & Cy & Cs & _ & Hind).
  - apply ex_world_live; auto.
  - apply ex_world_live; auto.
  - apply ex_world_live; auto 10.
  - exists r, w', lx, ly, ls. split_and!; try assumption.
    intros i v w'' Hset.
    destruct (Hind 1%positive lx i v w'') as [Hkeep _].
    + apply list_elem_of_here.
    + unfold result_arrays. rewrite Dx. apply list_elem_of_here.
    + rewrite (Hkeep Hset). exact Cx.
Defined.

(** C5 as stated fails: an estimator built with [bootstrap_num=3] and the
    default [bs_record_num], asked to bootstrap without a [bs_record_num],
    returns none of the three record rows of the run, where the claim has
    all of them kept. *)
Lemma run_bootstrap_unset_keeps_nothing :
  stored_rows
    ((self ← @SingleFitter_init ex_externals ex_bootstrap_args;
      @run_bootstrap ex_externals self None no_bootstrap_kwargs) ex_world).1
  = Some 0%nat ∧
  a_bs_record_num ex_bootstrap_args = Some 0 ∧
  length (df_rows ex_records) = 3%nat.
Proof. split_and!; [vm_compute; reflexivity | reflexivity | reflexivity]. Qed.

Lemma run_bootstrap_subsamples_witness :
  (∃ kept rest w',
     @run_bootstrap ex_externals (ex_self 4%positive) (Some 2) no_bootstrap_kwargs ex_world
       = (Ok (with_bootstrap (Some ex_bootstrap) (ex_self 4%positive),
              (mk_Series [] [], kept)), w') ∧
     Z.of_nat (length (df_rows kept)) = 2 ∧
     df_rows kept ++ rest ≡ₚ df_rows ex_records) ∧
  (∃ w',
     @run_bootstrap ex_externals (ex_self 4%positive) (Some (-1)) no_bootstrap_kwargs
       ex_world
       = (Ok (with_bootstrap (Some ex_bootstrap) (ex_self 4%positive),
              (mk_Series [] [], ex_records)), w')).
Proof.
  split.
  - destruct (run_bootstrap_subsamples (ext := ex_externals) (ex_self 4%positive) (Some 2)
                no_bootstrap_kwargs ex_world ex_world ex_bootstrap (mk_Series [] [])
                ex_records 2) as [Hsub _]; [reflexivity | reflexivity | reflexivity |].
    destruct Hsub as (kept & rest & w' & E & Hl & _ & Hp); [simpl; lia|].
    exists kept, rest, w'. by split_and!.
  - destruct (run_bootstrap_subsamples (ext := ex_externals) (ex_self 4%positive)
                (Some (-1)) no_bootstrap_kwargs ex_world ex_world ex_bootstrap
                (mk_Series [] []) ex_records (-1)) as [_ Hall];
      [reflexivity | reflexivity | reflexivity |].
    apply Hall. lia.
Defined.

(** C4 as stated fails: a file that is JSON but lacks the keys of a saved
    result makes [fit] raise [KeyError] instead of fitting. *)
Lemma fit_corrupt_file_raises :
  (@fit ex_externals ex_saving true false false false no_fit_call_kwargs
     (ex_world_with ex_corrupt)).1 = Raise (KeyError "params") ∧
  (@fit ex_externals ex_saving true false false false no_fit_call_kwargs
     (ex_world_with ex_corrupt)).2.(solver_calls) = [].
Proof. split; vm_compute; reflexivity. Qed.

Lemma fit_resumes_or_refits_witness :
  (∃ res w',
     @fit ex_externals ex_saving true false false false no_fit_call_kwargs
       (ex_world_with ex_saved) = (Ok (with_results res ex_saving, false), w') ∧
     pe_params res = Some ex_params ∧ solver_calls w' = []) ∧
  (∃ r,
     @fit ex_externals ex_saving true false false false no_fit_call_kwargs
       (ex_world_with Unparseable) = r ∧
     (∃ self', r.1 = Ok (self', true)) ∧ length (solver_calls r.2) = 1%nat).
Proof.
  split.
  - destruct (fit_resumes_or_refits (ext := ex_externals) ex_saving true false false false
                no_fit_call_kwargs (ex_world_with ex_saved) "fit.json")
      as [Hload _]; [reflexivity | reflexivity | eexists; reflexivity |].
    destruct (@from_json ex_externals "fit.json" (Some ex_saving) None
                (add_log (DEBUG, [Lit "Try to recover info from the saved file..."])
                   (ex_world_with ex_saved))) as [[res|e] w1] eqn:E.
    + destruct (Hload res w1 eq_refl) as (w' & Hfit & Hc & _ & _).
      exists res, w'. split_and!; [exact Hfit | | exact Hc].
      vm_compute in E. by injection E as <- _.
    + vm_compute in E. discriminate E.
  - destruct (fit_resumes_or_refits (ext := ex_externals) ex_saving true false false false
                no_fit_call_kwargs (ex_world_with Unparseable) "fit.json")
      as [_ Hrefit]; [reflexivity | reflexivity | eexists; reflexivity |].
    eexists. split; [reflexivity|]. rewrite (Hrefit eq_refl).
    split; [eexists|]; vm_compute; reflexivity.
Defined.




(** C2 as stated fails: with y a pandas series on the index a, b, c, d and
    a sigma series on the index a, b, the mask is aligned with sigma by
    label; three points of x and y are stored, and one of sigma. *)
Lemma init_exclude_zero_unequal_lengths :
  stored_lengths
    (@SingleFitter_init ex_externals
       (default_args 1%positive 5%positive ex_model true (Some 6%positive))
       ex_world_series) = Some (3, 3, 1)%nat.
Proof. vm_compute. reflexivity. Qed.


(** Without a guess the two parameters of the example model start from the
    next two values of the generator. *)
Lemma point_estimate_initial_guess_witness :
  ∃ c r w',
    @point_estimate ex_externals (ex_self 4%positive) no_kwargs ex_world = (r, w') ∧
    solver_calls w' = [c] ∧
    c_p0 c = [0.25%float; 0.75%float] ∧ pos (rng w') = 2%nat.
Proof.
  destruct (point_estimate_initial_guess (ext := ex_externals) (ex_self 4%positive)
              no_kwargs ex_world)
    as (c & r & w' & E & Hc & Hdraw & _ & _).
  destruct (Hdraw eq_refl eq_refl) as (Hp & _ & Hpos & _).
  exists c, r, w'. split_and!; [exact E | exact Hc | exact Hp | exact Hpos].
Defined.

(** ** The further properties on concrete inputs *)

Lemma init_keeps_all_points_witness :
  ∃ self w' ox oy os,
    @SingleFitter_init ex_externals
      (default_args 1%positive 2%positive ex_model false None) ex_world = (Ok self, w') ∧
    heap w' !! x_data self = Some ox ∧
    heap w' !! y_data self = Some oy ∧
    heap w' !! sigma (config self) = Some os ∧
    items ox = [0%float; 1%float; 2%float; 3%float] ∧
    items oy = [0%float; 0.5%float; 0.8%float; 0.9%float] ∧
    items os = [1%float; 1%float; 1%float; 1%float].
Proof.
  set (a := default_args 1%positive 2%positive ex_model false None).
  destruct (init_succeeds (ext := ex_externals) a ex_world) as (self & w' & E & _).
  - right; left; reflexivity.
  - apply ex_world_live; auto.
  - apply ex_world_live; auto.
  - reflexivity.
  - intros s [=].
  - by apply ex_world_by_position.
  - exact ex_siblings_total.
  - destruct (init_keeps_all_points (ext := ex_externals) a ex_world self w')
      as (ox & oy & os & Lx & Ly & Ls & Ix & Iy & Is & _).
    + reflexivity.
    + apply ex_world_live; auto.
    + apply ex_world_live; auto.
    + intros s [=].
    + exact E.
    + exists self, w', ox, oy, os. split_and!; assumption.
Defined.

Lemma init_rejects_sigma_length_witness :
  ∃ e w',
    @SingleFitter_init ex_externals
      (default_args 1%positive 2%positive ex_model false (Some 3%positive)) ex_world
    = (Raise e, w').
Proof.
  apply (init_rejects_sigma_length (ext := ex_externals) _ ex_world 3%positive).
  - apply ex_world_live; auto.
  - apply ex_world_live; auto.
  - apply ex_world_live; auto.
  - left. reflexivity.
  - reflexivity.
  - vm_compute. lia.
Defined.

Lemma init_results_snapshot_witness :
  ∃ self w' rx,
    @SingleFitter_init ex_externals
      (default_args 1%positive 2%positive ex_model true None) ex_world = (Ok self, w') ∧
    data_x_data (results self) = Some rx ∧
    heap w' !! rx = heap w' !! x_data self ∧
    rx ≠ x_data self ∧ heap ex_world !! rx = None ∧
    pe_params (results self) = None.
Proof.
  set (a := default_args 1%positive 2%positive ex_model true None).
  destruct (init_succeeds (ext := ex_externals) a ex_world) as (self & w' & E & _).
  - right; left; reflexivity.
  - apply ex_world_live; auto.
  - apply ex_world_live; auto.
  - reflexivity.
  - intros s [=].
  - by apply ex_world_by_position.
  - exact ex_siblings_total.
  - destruct (init_results_snapshot (ext := ex_externals) a ex_world self w')
      as (rx & ry & rs & Dx & _ & _ & Cx & _ & _ & _ & _ & _ & Hfr & _ & _ & _ & Hp & _).
    + apply ex_world_live; auto.
    + apply ex_world_live; auto.
    + intros s [=].
    + exact E.
    + exists self, w', rx. apply Forall_cons_1 in Hfr as [[Hne Hnew] _].
      split_and!; try assumption.
      intros ->. apply Hne. apply list_elem_of_here.
Defined.

Lemma init_bootstrap_setup_witness :
  (∃ self w',
     @SingleFitter_init ex_externals ex_bootstrap_args ex_world = (Ok self, w') ∧
     is_Some (bootstrap self) ∧ bs_record_num (config self) = Some 0) ∧
  (∃ self w',
     @SingleFitter_init ex_externals ex_unset_args ex_world = (Ok self, w') ∧
     bootstrap self = None ∧ bs_record_num (config self) = None).
Proof.
  split.
  - destruct (init_succeeds (ext := ex_externals) ex_bootstrap_args ex_world)
      as (self & w' & E & _).
    + right; left; reflexivity.
    + apply ex_world_live; auto.
    + apply ex_world_live; auto.
    + reflexivity.
    + intros s [=].
    + by apply ex_world_by_position.
    + exact ex_siblings_total.
    + destruct (init_bootstrap_setup (ext := ex_externals) ex_bootstrap_args ex_world
                  self w') as (_ & _ & Hyes).
      * apply ex_world_live; auto.
      * apply ex_world_live; auto.
      * intros s [=].
      * exact E.
      * destruct Hyes as (b & Hb & _ & Hn); [reflexivity | vm_compute; lia |].
        exists self, w'. split_and!; [exact E | by exists b | exact Hn].
  - destruct (init_succeeds (ext := ex_externals) ex_unset_args ex_world)
      as (self & w' & E & _).
    + right; left; reflexivity.
    + apply ex_world_live; auto.
    + apply ex_world_live; auto.
    + reflexivity.
    + intros s [=].
    + by apply ex_world_by_position.
    + exact ex_siblings_total.
    + destruct (init_bootstrap_setup (ext := ex_externals) ex_unset_args ex_world
                  self w') as (_ & Hno & _).
      * apply ex_world_live; auto.
      * apply ex_world_live; auto.
      * intros s [=].
      * exact E.
      * destruct Hno as (Hb & Hn); [left; reflexivity |].
        exists self, w'. split_and!; assumption.
Defined.

Lemma run_bootstrap_without_record_num_witness :
  ∃ self w',
    @SingleFitter_init ex_externals ex_unset_args ex_world = (Ok self, w') ∧
    @run_bootstrap ex_externals self None no_bootstrap_kwargs w' = (Raise TypeError, w').
Proof.
  destruct (init_succeeds (ext := ex_externals) ex_unset_args ex_world)
    as (self & w' & E & _).
  - right; left; reflexivity.
  - apply ex_world_live; auto.
  - apply ex_world_live; auto.
  - reflexivity.
  - intros s [=].
  - by apply ex_world_by_position.
  - exact ex_siblings_total.
  - exists self, w'. split; [exact E|].
    apply (run_bootstrap_without_record_num (ext := ex_externals) ex_unset_args ex_world
             self w' no_bootstrap_kwargs w' w' ex_bootstrap (mk_Series [] []) ex_records).
    + apply ex_world_live; auto.
    + apply ex_world_live; auto.
    + intros s [=].
    + exact E.
    + reflexivity.
    + reflexivity.
    + reflexivity.
    + reflexivity.
Defined.

Lemma run_replicates_without_replicates_witness :
  ∃ self w',
    @SingleFitter_init ex_externals
      (default_args 1%positive 2%positive ex_model false None) ex_world = (Ok self, w') ∧
    @run_replicates ex_externals self None w' = (Raise AttributeError, w').
Proof.
  set (a := default_args 1%positive 2%positive ex_model false None).
  destruct (init_succeeds (ext := ex_externals) a ex_world) as (self & w' & E & _).
  - right; left; reflexivity.
  - apply ex_world_live; auto.
  - apply ex_world_live; auto.
  - reflexivity.
  - intros s [=].
  - by apply ex_world_by_position.
  - exact ex_siblings_total.
  - exists self, w'. split; [exact E|].
    destruct (run_replicates_without_replicates (ext := ex_externals) a ex_world self w')
      as [Hraise _].
    + apply ex_world_live; auto.
    + apply ex_world_live; auto.
    + intros s [=].
    + exact E.
    + reflexivity.
    + apply Hraise.
Defined.

Lemma point_estimate_success_witness :
  ∃ r w',
    @point_estimate ex_externals (ex_self 4%positive) no_kwargs ex_world = (Ok r, w') ∧
    o_params r = mk_Series ["A"; "k"] [0.25%float; 0.75%float] ∧
    df_data (o_pcov r) = [[0%float; 0%float]; [0%float; 0%float]] ∧
    ∃ m, o_metrics r = Some m ∧ s_index m = ["kA"].
Proof.
  destruct (point_estimate_success (ext := ex_externals) (ex_self 4%positive) no_kwargs
              ex_world [0.25%float; 0.75%float]
              [[0%float; 0%float]; [0%float; 0%float]])
    as (r & w' & new & E & Hp & _ & _ & Hd & Hm & _).
  - reflexivity.
  - vm_compute. split_and!; [reflexivity | reflexivity | repeat constructor].
  - intros ms [= <-]. eexists. reflexivity.
  - exists r, w'. split_and!; [exact E | exact Hp | exact Hd |].
    destruct Hm as (m & Hm & Hi & _). by exists m.
Defined.

Lemma run_bootstrap_draws_witness :
  (∃ w',
     @run_bootstrap ex_externals (ex_self 4%positive) (Some 5) no_bootstrap_kwargs ex_world
       = (Ok (with_bootstrap (Some ex_bootstrap) (ex_self 4%positive),
              (mk_Series [] [], ex_records)), w') ∧
     rng w' = ex_rng) ∧
  (∃ kept w',
     @run_bootstrap ex_externals (ex_self 4%positive) (Some 2) no_bootstrap_kwargs ex_world
       = (Ok (with_bootstrap (Some ex_bootstrap) (ex_self 4%positive),
              (mk_Series [] [], kept)), w') ∧
     length (df_rows kept) = 2%nat ∧
     ∀ row, row ∈ df_rows kept → row ∈ df_rows ex_records).
Proof.
  split.
  - destruct (run_bootstrap_draws (ext := ex_externals) (ex_self 4%positive) (Some 5)
                no_bootstrap_kwargs ex_world ex_world ex_bootstrap (mk_Series [] [])
                ex_records 5) as (kept & w' & E & _ & Hall & _);
      [reflexivity | reflexivity | reflexivity |].
    destruct (Hall eq_refl) as [Hk Hr]. rewrite Hk in E.
    exists w'. split; [exact E | exact Hr].
  - destruct (run_bootstrap_draws (ext := ex_externals) (ex_self 4%positive) (Some 2)
                no_bootstrap_kwargs ex_world ex_world ex_bootstrap (mk_Series [] [])
                ex_records 2) as (kept & w' & E & Hl & _ & _ & Hin & _);
      [reflexivity | reflexivity | reflexivity |].
    exists kept, w'. split_and!; [exact E | exact Hl | exact Hin].
Defined.

Lemma from_json_ignores_data_witness :
  @from_json ex_externals "fit.json" None (Some ex_data) (ex_world_with ex_bare_data) =
  @from_json ex_externals "fit.json" None None (ex_world_with ex_bare_data).
Proof.
  destruct (from_json_ignores_data (ext := ex_externals) "fit.json" None (Some ex_data))
    as [Hfile _].
  apply (Hfile _ {[ "data" := {[ "x_data" := None; "y_data" := None; "sigma" := None;
                                  "x_label" := Some "time"; "y_label" := None ]} ]}).
  - reflexivity.
  - eexists. reflexivity.
Defined.

(** After one draw, a seed of 7 starts the stream again, a seed of 0 goes
    on with it. *)
Lemma fit_seed_witness :
  (∃ c r w',
     @fit ex_externals (ex_self 4%positive) true false false false (ex_seed_kwargs 7)
       (set_rng (advance 1 ex_rng) ex_world) = (r, w') ∧
     solver_calls w' = [c] ∧ c_p0 c = [0.25%float; 0.75%float]) ∧
  (∃ c r w',
     @fit ex_externals (ex_self 4%positive) true false false false (ex_seed_kwargs 0)
       (set_rng (advance 1 ex_rng) ex_world) = (r, w') ∧
     solver_calls w' = [c] ∧ c_p0 c = [0.75%float; 0.25%float]).
Proof.
  split.
  - destruct (fit_seed (ext := ex_externals) (ex_self 4%positive) (ex_seed_kwargs 7)
                (set_rng (advance 1 ex_rng) ex_world))
      as (c & r & w' & E & Hc & Hp); [exact I | reflexivity | seed_ok | reflexivity |].
    exists c, r, w'. split_and!; [exact E | exact Hc | exact Hp].
  - destruct (fit_seed (ext := ex_externals) (ex_self 4%positive) (ex_seed_kwargs 0)
                (set_rng (advance 1 ex_rng) ex_world))
      as (c & r & w' & E & Hc & Hp); [exact I | reflexivity | seed_ok | reflexivity |].
    exists c, r, w'. split_and!; [exact E | exact Hc | exact Hp].
Defined.

(** With [overwrite=True] a file that does not parse is replaced. *)
Lemma fit_saves_results_witness :
  ∃ self' w' d,
    @fit ex_externals ex_saving true false false false ex_overwrite_kwargs
      (ex_world_with Unparseable) = (Ok (self', true), w') ∧
    fs w' !! "fit.json" = Some (Json d) ∧ length (solver_calls w') = 1%nat.
Proof.
  destruct (fit_saves_results (ext := ex_externals) ex_saving ex_overwrite_kwargs
              (ex_world_with Unparseable) "fit.json")
    as (self' & w' & c & E & Hf & Hc & _).
  - left. reflexivity.
  - reflexivity.
  - seed_ok.
  - reflexivity.
  - vm_compute. split_and!; [reflexivity | reflexivity | repeat constructor].
  - exists self', w', (@document ex_externals w' (results self')). split_and!.
    + exact E.
    + rewrite Hf. apply lookup_insert_eq.
    + rewrite Hc. reflexivity.
Defined.

Lemma fit_writes_own_path_only_witness :
  fs (@fit ex_externals (ex_self 4%positive) true false false false ex_path_kwargs
        ex_world).2 !! "other.json" = None.
Proof.
  rewrite (fit_writes_own_path_only (ext := ex_externals) (ex_self 4%positive)
             ex_path_kwargs ex_world "other.json").
  - reflexivity.
  - simpl. discriminate.
Defined.

Lemma ex_first_run_fitted :
  ex_first_run = (Ok (ex_fitted, true), ex_first_run.2).
Proof. vm_compute. reflexivity. Qed.

Lemma ex_fitted_readable :
  @leaves_readable ex_externals ex_first_run.2 (results ex_fitted).
Proof.
  unfold leaves_readable. split_and!;
    intros t Ht; vm_compute in Ht;
    first [discriminate Ht | injection Ht as <-; by eexists].
Qed.

(** The second run, asked for every stage, loads the file of the first. *)
Lemma fit_then_fit_resumes_witness :
  ∃ res w2,
    @fit ex_externals ex_fitted true true true true no_fit_call_kwargs ex_first_run.2
      = (Ok (with_results res ex_fitted, false), w2) ∧
    pe_params res = Some ex_params ∧
    length (solver_calls ex_first_run.2) = 1%nat ∧
    solver_calls w2 = solver_calls ex_first_run.2.
Proof.
  destruct (fit_then_fit_resumes (ext := ex_externals) ex_guessing no_fit_call_kwargs
              ex_world ex_fitted ex_first_run.2 "fit.json" true true true true
              no_fit_call_kwargs)
    as [Hres _].
  - reflexivity.
  - reflexivity.
  - exact ex_first_run_fitted.
  - reflexivity.
  - reflexivity.
  - destruct (Hres ex_fitted_readable) as (res & w2 & E & Hp & _ & Hc & _).
    exists res, w2. split_and!; [exact E | | reflexivity | exact Hc].
    assert (@reread_series ex_externals (pe_params (results ex_fitted))
            = Ok (Some ex_params)) as Hp' by (vm_compute; reflexivity).
    rewrite Hp' in Hp. by injection Hp as <-.
Defined.

(** A seed of -1 stops [fit] at the seeding. *)
Lemma fit_rejects_seed_witness :
  ∃ w',
    @fit ex_externals (ex_self 4%positive) true false false false (ex_seed_kwargs (-1))
      ex_world = (Raise ValueError, w') ∧
    solver_calls w' = [].
Proof.
  destruct (fit_rejects_seed (ext := ex_externals) (ex_self 4%positive)
              true false false false (ex_seed_kwargs (-1)) ex_world (-1))
    as (w' & E & Hc & _).
  - exact I.
  - reflexivity.
  - lia.
  - exists w'. split; [exact E | exact Hc].
Defined.



Lemma fit_skips_bootstrap_witness :
  @fit ex_externals ex_lonely true false true false no_fit_call_kwargs ex_world_single =
  @fit ex_externals ex_lonely true false false false no_fit_call_kwargs ex_world_single.
Proof.
  apply (fit_skips_bootstrap (ext := ex_externals)).
  - eexists. reflexivity.
  - vm_compute. lia.
Defined.

Lemma round_trip_loses_data_witness :
  ∃ r' w',
    (@to_json ex_externals ex_labelled (Some "fit.json");;
     @from_json ex_externals "fit.json" None None) ex_world = (Ok r', w') ∧
    data_x_label ex_labelled = Some "concentration" ∧
    data_x_label r' = None ∧ data_y_label r' = None ∧
    data_x_data r' = None ∧ data_sigma r' = None.
Proof.
  destruct ((@to_json ex_externals ex_labelled (Some "fit.json");;
             @from_json ex_externals "fit.json" None None) ex_world)
    as [[r'|e] w'] eqn:E; [|vm_compute in E; discriminate E].
  destruct (round_trip_loses_data (ext := ex_externals) ex_labelled "fit.json" ex_world
              r' w' E) as (Hxl & Hyl & Hx & _ & Hs).
  exists r', w'. split_and!; try done.
  - apply Hx. intros (l & [= <-] & Hk). vm_compute in Hk. discriminate Hk.
  - apply Hs. intros (l & [= <-] & Hk). vm_compute in Hk. discriminate Hk.
Defined.

Lemma from_json_unknown_tag_witness :
  ∃ w',
    @from_json ex_externals "fit.json" None None (ex_world_with ex_untagged)
    = (Raise ValueError, w').
Proof.
  destruct (from_json_unknown_tag (ext := ex_externals) "fit.json" None None
              (ex_world_with ex_untagged)
              {[ "uncertainty" := {[ "summary" := None ]} ]} {[ "summary" := None ]})
    as (w' & E & _); try reflexivity.
  by exists w'.
Defined.

Lemma from_json_alias_priority_witness :
  ∃ r' w',
    @from_json ex_externals "fit.json" None None (ex_world_with ex_twice_tagged)
    = (Ok r', w') ∧ unc_bs_records r' = Some ex_records.
Proof.
  destruct (from_json_alias_priority (ext := ex_externals) "fit.json" None
              (ex_world_with ex_twice_tagged)
              {[ "uncertainty" :=
                   {[ "summary" := None; "record" := Some "A;k";
                      "bs_records" := Some "old" ]} ]}
              {[ "summary" := None; "record" := Some "A;k"; "bs_records" := Some "old" ]})
    as (Hrec & _); try reflexivity.
  apply (Hrec "A;k" ex_records); reflexivity.
Defined.

Lemma from_json_missing_keys_witness :
  (∃ r' w', @from_json ex_externals "fit.json" None None (ex_world_with (Json ∅))
            = (Ok r', w') ∧ pe_params r' = None) ∧
  (∃ w', @from_json ex_externals "fit.json" None None (ex_world_with ex_corrupt)
         = (Raise (KeyError "params"), w')).
Proof.
  split.
  - destruct (from_json_missing_keys (ext := ex_externals) "fit.json" None None
                (ex_world_with (Json ∅)) ∅) as (Hempty & _); [reflexivity|].
    destruct (Hempty eq_refl) as (r' & w' & E & Hn & _). by exists r', w'.
  - destruct (from_json_missing_keys (ext := ex_externals) "fit.json" None None
                (ex_world_with ex_corrupt) {[ "point_estimation" := ∅ ]})
      as (_ & Hpar & _); [reflexivity|].
    apply (Hpar ∅); reflexivity.
Defined.

Lemma from_json_data_by_reference_witness :
  ∃ r' w',
    @from_json ex_externals "fit.json" None (Some ex_data) (ex_world_with (Json ∅))
    = (Ok r', w') ∧
    data_x_data r' = Some 1%positive ∧ data_x_label r' = Some "concentration" ∧
    heap w' !! 1%positive = Some ex_x.
Proof.
  destruct (@from_json ex_externals "fit.json" None (Some ex_data)
              (ex_world_with (Json ∅))) as [[r'|e] w'] eqn:E;
    [|vm_compute in E; discriminate E].
  destruct (from_json_data_by_reference (ext := ex_externals) "fit.json" None ex_data
              (ex_world_with (Json ∅)) ∅ r' w') as (Hx & _ & _ & Hxl & _ & Hkeep).
  - reflexivity.
  - reflexivity.
  - exact E.
  - exists r', w'. split_and!; [reflexivity | exact Hx | exact Hxl |].
    apply Hkeep. reflexivity.
Defined.
